(** * go-app: request authentication and audit pipeline

    A shallow embedding of the request-signing scheme
    ([utils/signature.go], [middleware/signature.go]), the session-token
    middleware ([middleware/jwt.go]), the structured logger
    ([utils/logger.go]) and the request (audit) logger
    ([utils/request_logger.go]), with the properties the specification
    states about them; and, after these, of the code around them: the
    client helpers of [utils/signature.go], the whitelist, error and
    logger middlewares, the user service and the logging set-up of
    [main], with further properties of the code.

    Conventions.  A Go [string] is a sequence of bytes and is embedded as a
    Rocq [string]; a [[]byte] is a list of integers in [0, 256); fixed-width
    integers are embedded in [Z] with the wrap-around written out; a Go
    [map[string]string] is a [gmap string string], and the order in which a
    [range] loop delivers its keys, which the language leaves unspecified,
    is an explicit argument of every function that ranges over a map. *)

From Stdlib Require Import ZArith Lia Ascii Floats DecimalString DecimalPos.
From stdpp Require Import base tactics option list sorting strings gmap fin_maps.

Local Open Scope Z_scope.

(* ===================================================================== *)
(** * Go strings and byte slices *)
(* ===================================================================== *)

Module GoString.

(** [[]byte(s)]: the bytes of a string. *)
Fixpoint bytes (s : string) : list Z :=
  match s with
  | EmptyString => []
  | String c s' => Z.of_N (N_of_ascii c) :: bytes s'
  end.

(** [string(b)]: the string with the given bytes. *)
Fixpoint of_bytes (b : list Z) : string :=
  match b with
  | [] => EmptyString
  | x :: b' => String (ascii_of_N (Z.to_N (x mod 256))) (of_bytes b')
  end.

(** [strings.Builder]: [WriteString] appends, [String] returns what was
    written. *)
Definition Builder := string.
Definition WriteString (b : Builder) (s : string) : Builder := b +:+ s.

(** Go's [<] on strings compares byte by byte; a proper prefix is
    smaller.  [String.le] of stdpp is [String.leb], that comparison by
    [N_of_ascii]. *)
Definition lt (s1 s2 : string) : Prop := String.ltb s1 s2 = true.

(** [sort.Strings]: sorts a slice of strings in increasing order. *)
Definition sort_Strings (keys : list string) : list string :=
  merge_sort String.le keys.

(** The order "ascending by byte value", stated on the byte sequences
    themselves. *)
Inductive bytes_lt : list Z -> list Z -> Prop :=
| bytes_lt_nil x b : bytes_lt [] (x :: b)
| bytes_lt_head x y a b : x < y -> bytes_lt (x :: a) (y :: b)
| bytes_lt_tail x a b : bytes_lt a b -> bytes_lt (x :: a) (x :: b).

End GoString.

(* ===================================================================== *)
(** * crypto/md5 and encoding/hex *)
(* ===================================================================== *)

(** The standard library's MD5 (RFC 1321) on 32-bit words carried in [Z]. *)
Module MD5.

Definition w32 (x : Z) : Z := x mod 2 ^ 32.

Definition rotl32 (x c : Z) : Z :=
  w32 (Z.lor (Z.shiftl x c) (Z.shiftr x (32 - c))).

Definition not32 (x : Z) : Z := Z.lxor x 4294967295.

Definition shifts : list Z :=
  [ 7; 12; 17; 22; 7; 12; 17; 22; 7; 12; 17; 22; 7; 12; 17; 22;
    5;  9; 14; 20; 5;  9; 14; 20; 5;  9; 14; 20; 5;  9; 14; 20;
    4; 11; 16; 23; 4; 11; 16; 23; 4; 11; 16; 23; 4; 11; 16; 23;
    6; 10; 15; 21; 6; 10; 15; 21; 6; 10; 15; 21; 6; 10; 15; 21 ].

(** [floor (2^32 * abs (sin (i + 1)))] for [i = 0 .. 63]. *)
Definition table : list Z :=
  [ 3614090360; 3905402710; 606105819; 3250441966;
    4118548399; 1200080426; 2821735955; 4249261313;
    1770035416; 2336552879; 4294925233; 2304563134;
    1804603682; 4254626195; 2792965006; 1236535329;
    4129170786; 3225465664; 643717713; 3921069994;
    3593408605; 38016083; 3634488961; 3889429448;
    568446438; 3275163606; 4107603335; 1163531501;
    2850285829; 4243563512; 1735328473; 2368359562;
    4294588738; 2272392833; 1839030562; 4259657740;
    2763975236; 1272893353; 4139469664; 3200236656;
    681279174; 3936430074; 3572445317; 76029189;
    3654602809; 3873151461; 530742520; 3299628645;
    4096336452; 1126891415; 2878612391; 4237533241;
    1700485571; 2399980690; 4293915773; 2240044497;
    1873313359; 4264355552; 2734768916; 1309151649;
    4149444226; 3174756917; 718787259; 3951481745 ].

Definition nthZ (l : list Z) (i : Z) : Z := nth (Z.to_nat i) l 0.

Record digest_state := State { sa : Z; sb : Z; sc : Z; sd : Z }.

Definition init : digest_state :=
  State 1732584193 4023233417 2562383102 271733878.

(** One of the 64 steps on the block [m] of sixteen words. *)
Definition step (m : list Z) (st : digest_state) (i : Z) : digest_state :=
  let '(State a b c d) := st in
  let '(f, g) :=
    if i <? 16 then (Z.lor (Z.land b c) (Z.land (not32 b) d), i)
    else if i <? 32 then
      (Z.lor (Z.land d b) (Z.land (not32 d) c), (5 * i + 1) mod 16)
    else if i <? 48 then (Z.lxor (Z.lxor b c) d, (3 * i + 5) mod 16)
    else (Z.lxor c (Z.lor b (not32 d)), (7 * i) mod 16) in
  let f' := w32 (f + a + nthZ table i + nthZ m g) in
  State d (w32 (b + rotl32 f' (nthZ shifts i))) b c.

(** Little-endian decoding of four bytes, and encoding of a word. *)
Definition le_word (b0 b1 b2 b3 : Z) : Z :=
  b0 + 256 * b1 + 65536 * b2 + 16777216 * b3.

Fixpoint words (n : nat) (b : list Z) : list Z :=
  match n, b with
  | S n', b0 :: b1 :: b2 :: b3 :: b' => le_word b0 b1 b2 b3 :: words n' b'
  | _, _ => []
  end.

Definition le_bytes (n : nat) (x : Z) : list Z :=
  map (fun k => (x / 256 ^ Z.of_nat k) mod 256) (seq 0 n).

Definition block (st : digest_state) (blk : list Z) : digest_state :=
  let m := words 16 blk in
  let st' := fold_left (step m) (map Z.of_nat (seq 0 64)) st in
  State (w32 (sa st + sa st')) (w32 (sb st + sb st'))
        (w32 (sc st + sc st')) (w32 (sd st + sd st')).

(** Padding: a [0x80] byte, zeros up to 56 modulo 64, and the length in
    bits as eight little-endian bytes. *)
Definition pad (msg : list Z) : list Z :=
  let len := Z.of_nat (length msg) in
  let zeros := Z.to_nat ((55 - len) mod 64) in
  msg ++ [128] ++ repeat 0 zeros ++ le_bytes 8 ((8 * len) mod 2 ^ 64).

Fixpoint blocks (n : nat) (st : digest_state) (b : list Z) : digest_state :=
  match n with
  | O => st
  | S n' => blocks n' (block st (firstn 64 b)) (skipn 64 b)
  end.

(** [h := md5.New(); h.Write(msg); h.Sum(nil)]. *)
Definition Sum (msg : list Z) : list Z :=
  let p := pad msg in
  let st := blocks (length p / 64)%nat init p in
  le_bytes 4 (sa st) ++ le_bytes 4 (sb st) ++
  le_bytes 4 (sc st) ++ le_bytes 4 (sd st).

End MD5.

Module Hex.

Definition hextable : string := "0123456789abcdef".

Definition digit (x : Z) : ascii :=
  match String.get (Z.to_nat x) hextable with
  | Some c => c
  | None => "0"%char
  end.

(** [hex.EncodeToString]: two lowercase hexadecimal digits per byte. *)
Fixpoint EncodeToString (src : list Z) : string :=
  match src with
  | [] => EmptyString
  | v :: src' =>
      String (digit (Z.shiftr v 4))
        (String (digit (Z.land v 15)) (EncodeToString src'))
  end.

End Hex.

(* ===================================================================== *)
(** * Go maps *)
(* ===================================================================== *)

Module GoMap.

(** [m[k]]: the value stored under [k], the zero value when there is
    none. *)
Definition index (m : gmap string string) (k : string) : string :=
  default "" (m !! k).

(** [for k := range m] visits every key of [m] exactly once, in an order
    the language does not fix: [visit] is an order a traversal of [m] may
    take. *)
Definition range_order {V} (m : gmap string V) (visit : list string) : Prop :=
  visit ≡ₚ (map_to_list m).*1.

(** The map left by the assignments [m[k] = v], made in the order of
    [kvs] on an empty map. *)
Definition assign_all (kvs : list (string * string)) : gmap string string :=
  foldl (fun m kv => <[kv.1 := kv.2]> m) ∅ kvs.

End GoMap.

(* ===================================================================== *)
(** * utils/signature.go *)
(* ===================================================================== *)

Module Utils.
Import GoString GoMap.

(** [GenerateSignature(params, appSecret)].  [visit] is the order in which
    the [range] over [params] delivers the keys. *)
Definition GenerateSignature (visit : list string)
    (params : gmap string string) (appSecret : string) : string :=
  (* for k := range params { keys = append(keys, k) } *)
  let keys := foldl (fun keys k => keys ++ [k]) [] visit in
  (* sort.Strings(keys) *)
  let keys := sort_Strings keys in
  (* for _, k := range keys { ... } *)
  let signStr :=
    foldl (fun signStr k =>
             let signStr := WriteString signStr k in
             let signStr := WriteString signStr "=" in
             let signStr := WriteString signStr (index params k) in
             WriteString signStr "&")
          "" keys in
  let signStr := WriteString signStr "app_secret=" in
  let signStr := WriteString signStr appSecret in
  (* hash := md5.New(); hash.Write([]byte(signStr.String())) *)
  Hex.EncodeToString (MD5.Sum (bytes signStr)).

(** [GenerateAPIParams(appKey, appSecret, params)].  [timestamp] is
    [strconv.FormatInt(time.Now().Unix(), 10)] and [nonce] is what
    [GenerateNonce()] returns, both read from the clock; [visit] is the
    order of the [range] inside [GenerateSignature].  The map is updated
    in place and returned. *)
Definition GenerateAPIParams (visit : list string) (timestamp nonce : string)
    (appKey appSecret : string) (params : gmap string string)
    : gmap string string :=
  let params := <["app_key" := appKey]> params in
  let params := <["timestamp" := timestamp]> params in
  let params := <["nonce" := nonce]> params in
  let params := <["sign" := GenerateSignature visit params appSecret]> params in
  params.

End Utils.

(* ===================================================================== *)
(** * The signing scheme as the specification words it *)
(* ===================================================================== *)

Module SignerSpec.
Import GoString GoMap.

(** Keys in strictly ascending order of their byte values. *)
Definition ascending (ks : list string) : Prop :=
  Sorted (fun a b => bytes_lt (bytes a) (bytes b)) ks.

(** [k1=v1&k2=v2&...&]: one [k=v&] per key, the last one included. *)
Fixpoint pairs_block (P : gmap string string) (ks : list string) : string :=
  match ks with
  | [] => ""
  | k :: ks' => k +:+ "=" +:+ index P k +:+ "&" +:+ pairs_block P ks'
  end.

(** [str] is the string to sign for the parameters [P] and the secret
    [S]: the block of all of [P]'s keys in ascending order, then
    [app_secret=S]. *)
Definition signed_string (P : gmap string string) (S : string)
    (str : string) : Prop :=
  ∃ ks : list string,
    (∀ k, k ∈ ks ↔ is_Some (P !! k)) ∧ ascending ks ∧
    str = pairs_block P ks +:+ "app_secret=" +:+ S.

(** The lowercase hexadecimal MD5 digest of the bytes of a string. *)
Definition digest (str : string) : string :=
  Hex.EncodeToString (MD5.Sum (bytes str)).

End SignerSpec.

(* ===================================================================== *)
(** * strings and path/filepath *)
(* ===================================================================== *)

Module Strings.

(** [strings.Cut(s, sep)] for a one-byte separator: the text before and
    after the first [sep], if there is one. *)
Fixpoint Cut (s : string) (sep : ascii) : option (string * string) :=
  match s with
  | EmptyString => None
  | String c s' =>
      if Ascii.eqb c sep then Some (EmptyString, s')
      else match Cut s' sep with
           | Some (before, after) => Some (String c before, after)
           | None => None
           end
  end.

(** [strings.SplitN(s, sep, n)] for [n >= 0] and a one-byte separator:
    at most [n] pieces, the last one the unsplit remainder. *)
Fixpoint SplitN (s : string) (sep : ascii) (n : nat) : list string :=
  match n with
  | O => []
  | S O => [s]
  | S n' =>
      match Cut s sep with
      | None => [s]
      | Some (before, after) => before :: SplitN after sep n'
      end
  end.

(** [strings.Split(s, sep)] for a one-byte separator. *)
Fixpoint Split (s : string) (sep : ascii) : list string :=
  match s with
  | EmptyString => [EmptyString]
  | String c s' =>
      if Ascii.eqb c sep then EmptyString :: Split s' sep
      else match Split s' sep with
           | [] => [String c EmptyString]
           | p :: ps => String c p :: ps
           end
  end.

(** [strings.Join(elems, sep)]. *)
Definition Join (elems : list string) (sep : string) : string :=
  String.concat sep elems.

End Strings.

Module Filepath.

(** The lexical processing of [filepath.Clean] on the elements of a path:
    [.] elements go, an inner [..] goes with the element before it, a
    [..] at the root goes. [stack] is in reverse order. *)
Fixpoint clean_elems (rooted : bool) (stack elems : list string)
    : list string :=
  match elems with
  | [] => reverse stack
  | e :: elems' =>
      if decide (e = "" \/ e = ".") then clean_elems rooted stack elems'
      else if decide (e = "..") then
        match stack with
        | top :: stack' =>
            if decide (top = "..")
            then clean_elems rooted (e :: stack) elems'
            else clean_elems rooted stack' elems'
        | [] =>
            if rooted then clean_elems rooted stack elems'
            else clean_elems rooted [e] elems'
        end
      else clean_elems rooted (e :: stack) elems'
  end.

(** [filepath.Clean(path)] with [/] as the separator. *)
Definition Clean (path : string) : string :=
  let rooted := match path with String "/" _ => true | _ => false end in
  let body := Strings.Join (clean_elems rooted [] (Strings.Split path "/")) "/" in
  let out := if rooted then "/" +:+ body else body in
  if decide (out = "") then "." else out.

(** [filepath.Join(elem...)]: empty elements are ignored, the result is
    cleaned, and it is empty when every element is. *)
Definition Join (elem : list string) : string :=
  match filter (fun e => e <> "") elem with
  | [] => ""
  | es => Clean (Strings.Join es "/")
  end.

End Filepath.

(* ===================================================================== *)
(** * utils/logger.go: the structured logger *)
(* ===================================================================== *)

Module Zapcore.

(** [zapcore.Level] is an [int8]. *)
Definition Level := Z.
Definition DebugLevel : Level := -1.
Definition InfoLevel : Level := 0.
Definition WarnLevel : Level := 1.
Definition ErrorLevel : Level := 2.
Definition DPanicLevel : Level := 3.
Definition PanicLevel : Level := 4.
Definition FatalLevel : Level := 5.

End Zapcore.

Module Lumberjack.

(** [lumberjack.Logger]: a rolling file. *)
Record Logger := {
  Filename : string;
  MaxSize : Z;
  MaxBackups : Z;
  MaxAge : Z;
  Compress : bool
}.

End Lumberjack.

(** [time.Time] as the seconds and nanoseconds since the Unix epoch and
    the offset of its location from UTC, in seconds. *)
Module Time.

Record Time := { unix : Z; nsec : Z; offset : Z }.

(** The year of the civil date of a day number counted from the epoch. *)
Definition year_of_days (days : Z) : Z :=
  let z := days + 719468 in
  let era := z / 146097 in
  let doe := z - era * 146097 in
  let yoe := (doe - doe / 1460 + doe / 36524 - doe / 146096) / 365 in
  let doy := doe - (365 * yoe + yoe / 4 - yoe / 100) in
  let mp := (5 * doy + 2) / 153 in
  let m := if mp <? 10 then mp + 3 else mp - 9 in
  yoe + era * 400 + (if m <=? 2 then 1 else 0).

(** [t.Year()]. *)
Definition Year (t : Time) : Z := year_of_days ((unix t + offset t) / 86400).

(** [time.Duration]: a number of nanoseconds, an [int64]. *)
Definition Duration := Z.
Definition Second : Duration := 1000000000.

(** [t.Add(d)]. *)
Definition Add (t : Time) (d : Duration) : Time :=
  let total := unix t * Second + nsec t + d in
  {| unix := total / Second; nsec := total mod Second; offset := offset t |}.

(** [t.Before(u)]: the instant [t] is before [u]. *)
Definition Before (t u : Time) : bool :=
  (unix t <? unix u) || ((unix t =? unix u) && (nsec t <? nsec u)).

(** [t.Truncate(time.Second)]: [t] rounded down to a whole second. *)
Definition Truncate_Second (t : Time) : Time :=
  {| unix := unix t; nsec := 0; offset := offset t |}.

(** [t.Unix()]. *)
Definition Unix (t : Time) : Z := unix t.

(** Whether [t.MarshalJSON()] succeeds: RFC 3339 has four-digit years
    and zone offsets below 24 hours. *)
Definition marshals (t : Time) : bool :=
  (0 <=? Year t) && (Year t <? 10000) && (Z.abs (offset t) / 3600 <? 24).

End Time.

(** [encoding/json]: which values [json.Marshal] accepts. *)
Module Json.

(** A value held in an [interface{}]. *)
#[warnings="-register-all"]
Inductive Value :=
| Nil
| Bool (b : bool)
| Int (n : Z)
| Float (f : PrimFloat.float)
| Str (s : string)
| Slice (vs : list Value)
| Map (kvs : list (string * Value))
| Complex
| Chan
| Func.

(** [float64] values other than NaN and the infinities are encodable. *)
Definition float_ok (f : PrimFloat.float) : bool :=
  negb (PrimFloat.is_nan f) && negb (PrimFloat.is_infinity f).

(** Channels, functions and complex numbers are of unsupported types. *)
Fixpoint value_ok (v : Value) : bool :=
  match v with
  | Nil | Bool _ | Int _ | Str _ => true
  | Float f => float_ok f
  | Slice vs => forallb value_ok vs
  | Map kvs => forallb (fun kv => value_ok kv.2) kvs
  | Complex | Chan | Func => false
  end.

End Json.

(** [RequestLog], the audit record. *)
Module ReqLog.

Record RequestLog := {
  Time : Time.Time;
  Method : string;
  Path : string;
  Query : string;
  Status : Z;
  IP : string;
  UserAgent : string;
  LatencyMs : PrimFloat.float;
  RequestID : string;
  Error : string;
  Params : gmap string string;
  Headers : gmap string string;
  ExtraInfo : gmap string Json.Value
}.

(** Whether [json.Marshal] accepts the record: the time must be
    representable, the latency finite, and every extra value of a
    supported type. *)
Definition marshals (r : RequestLog) : bool :=
  Time.marshals (Time r) && Json.float_ok (LatencyMs r) &&
  forallb (fun kv => Json.value_ok kv.2) (map_to_list (ExtraInfo r)).

End ReqLog.

Module Log.
Import Zapcore.

(** [LogConfig]. *)
Record LogConfig := {
  LogDir : string;
  LogFileName : string;
  MaxSize : Z;
  MaxBackups : Z;
  MaxAge : Z;
  Compress : bool;
  ConsoleOutput : bool;
  RotateDaily : bool
}.

Definition defaultLogConfig : LogConfig := {|
  LogDir := "logs";
  LogFileName := "app.log";
  MaxSize := 100;
  MaxBackups := 10;
  MaxAge := 30;
  Compress := true;
  ConsoleOutput := true;
  RotateDaily := true
|}.

(** Where a core writes: a rolling file or one of the console streams. *)
Inductive WriteSyncer :=
| File (f : Lumberjack.Logger)
| Stdout
| Stderr.

(** [zapcore.NewCore(enc, ws, enab)]; every core of this program uses the
    same JSON encoder. *)
Record Core := NewCore { core_out : WriteSyncer; core_enab : Level -> bool }.

(** [zap.New(zapcore.NewTee(cores...), ...)]. *)
Record Logger := New { cores : list Core }.

(** [RequestLogger]; [locked] is the state of its mutex. *)
Record RequestLogger := {
  config : LogConfig;
  writer : option Lumberjack.Logger;
  locked : bool
}.

(** A goroutine started with [go] and scheduled by the runtime. *)
Inductive Goroutine :=
| DailyRotation.

(** The package variables of [utils] and what the package has done to the
    outside: directories created, records written by the cores, lines
    written to request log files. *)
Record World := {
  logger : option Logger;
  sugarLogger : option Logger;
  once : bool;
  requestLogger : option RequestLogger;
  reqLogOnce : bool;
  goroutines : list Goroutine;
  dirs : list string;
  written : list (WriteSyncer * Level * string);
  request_lines : list (string * string)
}.

(** What the package reads from the outside: the local date
    [time.Now().Format("2006-01-02")], and whether [os.MkdirAll] on a
    directory and a write to a rolling file fail. *)
Record Env := {
  today : string;
  mkdir_err : string -> option string;
  write_err : string -> option string
}.

Definition set_logger (l : option Logger) (w : World) : World :=
  {| logger := l; sugarLogger := sugarLogger w; once := once w;
     requestLogger := requestLogger w; reqLogOnce := reqLogOnce w;
     goroutines := goroutines w; dirs := dirs w; written := written w;
     request_lines := request_lines w |}.
Definition set_sugarLogger (l : option Logger) (w : World) : World :=
  {| logger := logger w; sugarLogger := l; once := once w;
     requestLogger := requestLogger w; reqLogOnce := reqLogOnce w;
     goroutines := goroutines w; dirs := dirs w; written := written w;
     request_lines := request_lines w |}.
Definition set_once (b : bool) (w : World) : World :=
  {| logger := logger w; sugarLogger := sugarLogger w; once := b;
     requestLogger := requestLogger w; reqLogOnce := reqLogOnce w;
     goroutines := goroutines w; dirs := dirs w; written := written w;
     request_lines := request_lines w |}.
Definition set_requestLogger (r : option RequestLogger) (w : World) : World :=
  {| logger := logger w; sugarLogger := sugarLogger w; once := once w;
     requestLogger := r; reqLogOnce := reqLogOnce w;
     goroutines := goroutines w; dirs := dirs w; written := written w;
     request_lines := request_lines w |}.
Definition set_reqLogOnce (b : bool) (w : World) : World :=
  {| logger := logger w; sugarLogger := sugarLogger w; once := once w;
     requestLogger := requestLogger w; reqLogOnce := b;
     goroutines := goroutines w; dirs := dirs w; written := written w;
     request_lines := request_lines w |}.
Definition set_goroutines (g : list Goroutine) (w : World) : World :=
  {| logger := logger w; sugarLogger := sugarLogger w; once := once w;
     requestLogger := requestLogger w; reqLogOnce := reqLogOnce w;
     goroutines := g; dirs := dirs w; written := written w;
     request_lines := request_lines w |}.
Definition set_dirs (d : list string) (w : World) : World :=
  {| logger := logger w; sugarLogger := sugarLogger w; once := once w;
     requestLogger := requestLogger w; reqLogOnce := reqLogOnce w;
     goroutines := goroutines w; dirs := d; written := written w;
     request_lines := request_lines w |}.
Definition set_written (o : list (WriteSyncer * Level * string)) (w : World)
    : World :=
  {| logger := logger w; sugarLogger := sugarLogger w; once := once w;
     requestLogger := requestLogger w; reqLogOnce := reqLogOnce w;
     goroutines := goroutines w; dirs := dirs w; written := o;
     request_lines := request_lines w |}.
Definition set_request_lines (o : list (string * string)) (w : World) : World :=
  {| logger := logger w; sugarLogger := sugarLogger w; once := once w;
     requestLogger := requestLogger w; reqLogOnce := reqLogOnce w;
     goroutines := goroutines w; dirs := dirs w; written := written w;
     request_lines := o |}.

(** How a call ends: it returns, it panics, the process exits, or the
    goroutine waits for ever on a mutex. *)
Inductive outcome (A : Type) :=
| Ok (a : A) (w : World)
| Panic (v : string) (w : World)
| Exit (code : Z) (w : World)
| Blocked (w : World).
Arguments Ok {A} a w.
Arguments Panic {A} v w.
Arguments Exit {A} code w.
Arguments Blocked {A} w.

Definition M (A : Type) : Type := World -> outcome A.

Definition ret {A} (a : A) : M A := fun w => Ok a w.

Definition bind {A B} (m : M A) (k : A -> M B) : M B :=
  fun w => match m w with
           | Ok a w' => k a w'
           | Panic v w' => Panic v w'
           | Exit c w' => Exit c w'
           | Blocked w' => Blocked w'
           end.

Definition get : M World := fun w => Ok w w.
Definition modify (f : World -> World) : M unit := fun w => Ok tt (f w).
Definition panic {A} (v : string) : M A := fun w => Panic v w.
Definition exit {A} (code : Z) : M A := fun w => Exit code w.
Definition block {A} : M A := fun w => Blocked w.

Declare Scope go_scope.
Delimit Scope go_scope with go.
Notation "'let*' x := m 'in' k" := (bind m (fun x => k))
  (at level 10, x name, m at level 100, k at level 200) : go_scope.
Notation "m ;; k" := (bind m (fun _ => k))
  (at level 100, k at level 200, only parsing, right associativity)
  : go_scope.
Local Open Scope go_scope.

Definition nil_dereference : string :=
  "runtime error: invalid memory address or nil pointer dereference".

(** [o.Do(f)] of [sync.Once], on the flag read by [done] and written by
    [set_done]: [f] runs if the flag is down, and the flag goes up when
    [f] returns or panics. *)
Definition Once_Do (done : World -> bool) (set_done : bool -> World -> World)
    (f : M unit) : M unit :=
  fun w =>
    if done w then Ok tt w
    else match f w with
         | Ok _ w' => Ok tt (set_done true w')
         | Panic v w' => Panic v (set_done true w')
         | Exit c w' => Exit c w'
         | Blocked w' => Blocked w'
         end.

Section with_env.
Variable env : Env.

(** [os.MkdirAll(path, 0755)]. *)
Definition MkdirAll (path : string) : M (option string) :=
  fun w => match mkdir_err env path with
           | Some e => Ok (Some e) w
           | None => Ok None (set_dirs (dirs w ++ [path]) w)
           end.

(** A core writes the entry if its level enabler accepts the level. *)
Definition core_write (lvl : Level) (msg : string) (c : Core) (w : World)
    : World :=
  if core_enab c lvl
  then set_written (written w ++ [(core_out c, lvl, msg)]) w
  else w.

(** [Debug], [Info], [Warn], [Error], [Panic] and [Fatal] of
    [zap.Logger] on the logger [l]: on the nil logger the call
    dereferences it; otherwise every core of the tee sees the entry, and
    then an entry at the panic level panics and a fatal one ends the
    process. *)
Definition log_at (l : option Logger) (lvl : Level) (msg : string) : M unit :=
  match l with
  | None => panic nil_dereference
  | Some lg =>
      modify (fun w => foldl (fun w c => core_write lvl msg c w) w (cores lg)) ;;
      if lvl =? FatalLevel then exit 1
      else if lvl =? PanicLevel then panic msg
      else ret tt
  end.

(** [InitLoggerWithConfig(config)]. *)
Definition InitLoggerWithConfig (config : LogConfig) : M unit :=
  Once_Do once set_once (
    let* err := MkdirAll (LogDir config) in
    match err with
    | Some e => panic ("无法创建日志目录: " +:+ e)
    | None =>
        let highPriority := fun lvl : Level => ErrorLevel <=? lvl in
        let lowPriority := fun lvl : Level => lvl <? ErrorLevel in
        let '(logFilename, errorLogFilename) :=
          if RotateDaily config then
            (Filepath.Join [LogDir config; today env +:+ ".log"],
             Filepath.Join [LogDir config; today env +:+ "_error.log"])
          else
            (Filepath.Join [LogDir config; "info_" +:+ LogFileName config],
             Filepath.Join [LogDir config; "error_" +:+ LogFileName config]) in
        let infoLogFile := {|
          Lumberjack.Filename := logFilename;
          Lumberjack.MaxSize := MaxSize config;
          Lumberjack.MaxBackups := MaxBackups config;
          Lumberjack.MaxAge := MaxAge config;
          Lumberjack.Compress := Compress config |} in
        let errorLogFile := {|
          Lumberjack.Filename := errorLogFilename;
          Lumberjack.MaxSize := MaxSize config;
          Lumberjack.MaxBackups := MaxBackups config;
          Lumberjack.MaxAge := MaxAge config;
          Lumberjack.Compress := Compress config |} in
        let infoFileWriter := File infoLogFile in
        let errorFileWriter := File errorLogFile in
        let cores := [] in
        let cores := cores ++ [NewCore errorFileWriter highPriority;
                               NewCore infoFileWriter lowPriority] in
        let cores :=
          if ConsoleOutput config then
            let consoleDebugging := Stdout in
            let consoleErrors := Stderr in
            cores ++ [NewCore consoleErrors highPriority;
                      NewCore consoleDebugging lowPriority]
          else cores in
        modify (set_logger (Some (New cores))) ;;
        modify (fun w => set_sugarLogger (logger w) w) ;;
        let* w := get in
        log_at (logger w) InfoLevel "日志系统初始化成功"
    end).

(** [InitLogger()]. *)
Definition InitLogger : M unit := InitLoggerWithConfig defaultLogConfig.

(** [GetLogger()]. *)
Definition GetLogger : M (option Logger) :=
  let* w := get in
  (if logger w is None then InitLogger else ret tt) ;;
  let* w := get in
  ret (logger w).

Definition Debug (msg : string) : M unit :=
  let* l := GetLogger in log_at l DebugLevel msg.
Definition Info (msg : string) : M unit :=
  let* l := GetLogger in log_at l InfoLevel msg.
Definition Warn (msg : string) : M unit :=
  let* l := GetLogger in log_at l WarnLevel msg.
Definition Error (msg : string) : M unit :=
  let* l := GetLogger in log_at l ErrorLevel msg.
Definition Fatal (msg : string) : M unit :=
  let* l := GetLogger in log_at l FatalLevel msg.


(** ** utils/request_logger.go *)

(** The text [json.Marshal] produces for a record it accepts. *)
Variable json_text : ReqLog.RequestLog -> string.

(** [json.Marshal(reqLog)]: the encoding or an error. *)
Definition json_Marshal (reqLog : ReqLog.RequestLog) : string + string :=
  if ReqLog.marshals reqLog then inl (json_text reqLog)
  else inr "json: unsupported value".

(** [rl.mutex.Lock()] on the receiver [requestLogger]: a nil receiver
    is dereferenced, a held mutex is waited for. *)
Definition mutex_Lock : M RequestLogger :=
  let* w := get in
  match requestLogger w with
  | None => panic nil_dereference
  | Some rl =>
      if locked rl then block
      else
        let rl := {| config := config rl; writer := writer rl;
                     locked := true |} in
        modify (set_requestLogger (Some rl)) ;; ret rl
  end.

(** [rl.mutex.Unlock()], as deferred: it runs when the function
    returns and when it panics. *)
Definition unlock (w : World) : World :=
  match requestLogger w with
  | Some rl => set_requestLogger
                 (Some {| config := config rl; writer := writer rl;
                          locked := false |}) w
  | None => w
  end.

Definition defer_Unlock {A} (body : M A) : M A :=
  fun w => match body w with
           | Ok a w' => Ok a (unlock w')
           | Panic v w' => Panic v (unlock w')
           | Exit c w' => Exit c w'
           | Blocked w' => Blocked w'
           end.

(** [(rl *RequestLogger) updateWriter()], on the receiver
    [requestLogger]. *)
Definition updateWriter : M unit :=
  let* rl := mutex_Lock in
  defer_Unlock (
    let logFilename :=
      if RotateDaily (config rl) then
        Filepath.Join [LogDir (config rl); "requests";
                       "requests-" +:+ today env +:+ ".log"]
      else
        Filepath.Join [LogDir (config rl); "requests"; "requests.log"] in
    modify (set_requestLogger (Some {|
      config := config rl;
      writer := Some {|
        Lumberjack.Filename := logFilename;
        Lumberjack.MaxSize := MaxSize (config rl);
        Lumberjack.MaxBackups := MaxBackups (config rl);
        Lumberjack.MaxAge := MaxAge (config rl);
        Lumberjack.Compress := Compress (config rl) |};
      locked := true |}))).

(** One turn of the loop of the goroutine that [InitRequestLogger]
    starts: it updates the writer and then sleeps until midnight. *)
Definition run_goroutine (g : Goroutine) : M unit :=
  match g with
  | DailyRotation => updateWriter
  end.

(** [InitRequestLogger(config)]. *)
Definition InitRequestLogger (cfg : LogConfig) : M unit :=
  Once_Do reqLogOnce set_reqLogOnce (
    let logDir := LogDir cfg in
    let logDir :=
      if decide (logDir = "") then "logs/requests"
      else Filepath.Join [logDir; "requests"] in
    let* err := MkdirAll logDir in
    match err with
    | Some e => Error "无法创建请求日志目录" (* return *)
    | None =>
        modify (set_requestLogger
                  (Some {| config := cfg; writer := None;
                           locked := false |})) ;;
        (if RotateDaily cfg
         then modify (fun w => set_goroutines
                                 (goroutines w ++ [DailyRotation]) w)
         else updateWriter) ;;
        Info "请求日志系统初始化成功"
    end).

(** [requestLogger.writer.Write(jsonData)]: the line reaches the file
    or the write fails. *)
Definition writer_Write (f : Lumberjack.Logger) (data : string)
    : M (option string) :=
  match write_err env (Lumberjack.Filename f) with
  | Some e => ret (Some e)
  | None =>
      modify (fun w => set_request_lines
                         (request_lines w ++ [(Lumberjack.Filename f, data)]) w) ;;
      ret None
  end.

(** [LogRequest(reqLog)]. *)
Definition LogRequest (reqLog : ReqLog.RequestLog) : M unit :=
  let* w := get in
  (if requestLogger w is None
   then InitRequestLogger defaultLogConfig else ret tt) ;;
  match json_Marshal reqLog with
  | inr err => Error "请求日志序列化失败" (* return *)
  | inl jsonData =>
      let jsonData := jsonData +:+ String "010" "" in
      let* _ := mutex_Lock in
      defer_Unlock (
        let* w := get in
        (if (requestLogger w ≫= writer) is None
         then updateWriter else ret tt) ;;
        let* w := get in
        match requestLogger w ≫= writer with
        | None => panic nil_dereference
        | Some f =>
            let* err := writer_Write f jsonData in
            match err with
            | Some e => Error "请求日志写入失败"
            | None => ret tt
            end
        end)
  end.

End with_env.

End Log.
(* ===================================================================== *)
(** * github.com/golang-jwt/jwt/v5, as far as the program uses it *)
(* ===================================================================== *)

Module Jwt.

(** [jwt.NumericDate]: a [time.Time]. *)
Definition NumericDate := Time.Time.

(** [jwt.TimePrecision] is a second: [jwt.NewNumericDate(t)] truncates
    [t] to it. *)
Definition NewNumericDate (t : Time.Time) : NumericDate :=
  Time.Truncate_Second t.

(** [jwt.RegisteredClaims]. *)
Record RegisteredClaims := {
  Issuer : string;
  Subject : string;
  Audience : list string;
  ExpiresAt : option NumericDate;
  NotBefore : option NumericDate;
  IssuedAt : option NumericDate;
  ID : string
}.

Inductive HashAlg := SHA256 | SHA384 | SHA512.

(** A value of the header of a token: a string, or another JSON value,
    kept as its text. *)
Inductive HeaderValue :=
| HStr (s : string)
| HOther (text : string).

(** The registered signing methods, by the name in the [alg] header. *)
Inductive SigningMethod :=
| HMAC (alg : string) (h : HashAlg)
| OtherMethod (alg : string).

Definition SigningMethodHS256 : SigningMethod := HMAC "HS256" SHA256.

(** [jwt.GetSigningMethod(alg)]. *)
Definition GetSigningMethod (alg : string) : option SigningMethod :=
  if decide (alg = "HS256") then Some (HMAC alg SHA256)
  else if decide (alg = "HS384") then Some (HMAC alg SHA384)
  else if decide (alg = "HS512") then Some (HMAC alg SHA512)
  else if decide (alg ∈ ["RS256"; "RS384"; "RS512"; "ES256"; "ES384"; "ES512";
                         "PS256"; "PS384"; "PS512"; "EdDSA"; "none"])
  then Some (OtherMethod alg)
  else None.

Definition Alg (m : SigningMethod) : string :=
  match m with HMAC alg _ => alg | OtherMethod alg => alg end.

(** The errors of the package that [ParseWithClaims] can return here;
    the claims error lists what the validator found. *)
Inductive ClaimsError := ErrTokenExpired | ErrTokenNotValidYet.

Inductive Error :=
| ErrTokenMalformed
| ErrTokenUnverifiable
| ErrTokenSignatureInvalid
| ErrTokenInvalidClaims (errs : list ClaimsError)
| ErrInvalidKeyType.

(** The validator of the package with its default options: the clock is
    read once; [exp], if there is one, must be after [now]; [nbf], if
    there is one, must not be after [now]; [iat] is not checked. *)
Definition Validate (now : Time.Time) (c : RegisteredClaims)
    : list ClaimsError :=
  (match ExpiresAt c with
   | Some exp => if Time.Before now exp then [] else [ErrTokenExpired]
   | None => []
   end) ++
  (match NotBefore c with
   | Some nbf => if Time.Before now nbf then [ErrTokenNotValidYet] else []
   | None => []
   end).

End Jwt.

(* ===================================================================== *)
(** * middleware/jwt.go: session tokens *)
(* ===================================================================== *)

Module Session.
Import Jwt.

(** [Claims]: the user identifier, a [uint], and the registered claims. *)
Record Claims := {
  UserID : Z;
  Registered : RegisteredClaims
}.

(** What the token package computes with the standard library: the
    base64url coding of a segment, the JSON coding of the header and of
    the claims, and the keyed hash of the signing string. *)
Record Codec := {
  EncodeSegment : string -> string;
  DecodeSegment : string -> option string;
  Marshal_header : gmap string HeaderValue -> string;
  Unmarshal_header : string -> option (gmap string HeaderValue);
  Marshal_claims : Claims -> string;
  Unmarshal_claims : string -> option Claims;
  hmac : HashAlg -> string -> string -> string
}.

(** The claims [GenerateToken] issues: the subject label, a time of
    expiry and a time of issue. *)
Definition user_token_claims (userID : Z) (exp iat : NumericDate) : Claims :=
  {| UserID := userID;
     Registered := {|
       Issuer := "";
       Subject := "user_token";
       Audience := [];
       ExpiresAt := Some exp;
       NotBefore := None;
       IssuedAt := Some iat;
       ID := "" |} |}.

(** The header [jwt.NewWithClaims] gives a token of the method [alg]. *)
Definition new_header (alg : string) : gmap string HeaderValue :=
  {[ "typ" := HStr "JWT"; "alg" := HStr alg ]}.

(** Two dates at the same instant; the JSON coding of a date keeps its
    instant, in whole seconds, and not its location. *)
Definition same_date (a b : option NumericDate) : Prop :=
  match a, b with
  | Some x, Some y => Time.unix x = Time.unix y /\ Time.nsec x = Time.nsec y
  | None, None => True
  | _, _ => False
  end.

(** Claims that agree on the user and on the instants of their dates. *)
Definition same_claims (c c' : Claims) : Prop :=
  UserID c = UserID c' /\
  same_date (ExpiresAt (Registered c)) (ExpiresAt (Registered c')) /\
  same_date (NotBefore (Registered c)) (NotBefore (Registered c')) /\
  same_date (IssuedAt (Registered c)) (IssuedAt (Registered c')).

(** What the model takes for granted of the codings: a coded segment has
    no dot and decodes to what was coded; the header of a new HS256 token
    decodes to a header with that [alg]; the claims [GenerateToken]
    issues, with dates of whole seconds, decode to the same claims. *)
Record Codec_ok (lib : Codec) : Prop := {
  segment_roundtrip : forall s, DecodeSegment lib (EncodeSegment lib s) = Some s;
  segment_no_dot : forall s,
    Strings.Split (EncodeSegment lib s) "." = [EncodeSegment lib s];
  header_roundtrip :
    exists h, Unmarshal_header lib (Marshal_header lib (new_header "HS256")) = Some h /\
              h !! "alg" = Some (HStr "HS256");
  claims_roundtrip : forall userID exp iat,
    Time.nsec exp = 0 -> Time.nsec iat = 0 ->
    exists c, Unmarshal_claims lib (Marshal_claims lib (user_token_claims userID exp iat))
              = Some c /\
              same_claims (user_token_claims userID exp iat) c
}.

Section with_codec.
Variable lib : Codec.

(** [jwt.Token]. *)
Record Token := {
  Raw : string;
  Method : option SigningMethod;
  Header : gmap string HeaderValue;
  TokenClaims : Claims;
  Signature : string;
  Valid : bool
}.

(** [jwt.NewWithClaims(method, claims)]. *)
Definition NewWithClaims (method : SigningMethod) (claims : Claims) : Token :=
  {| Raw := "";
     Method := Some method;
     Header := new_header (Alg method);
     TokenClaims := claims;
     Signature := "";
     Valid := false |}.

(** [method.Sign(signingString, key)] with a [[]byte] key. *)
Definition Sign (m : SigningMethod) (signingString key : string)
    : string + Error :=
  match m with
  | HMAC _ h => inl (hmac lib h key signingString)
  | OtherMethod _ => inr ErrInvalidKeyType
  end.

(** [method.Verify(signingString, sig, key)] with a [[]byte] key. *)
Definition Verify (m : SigningMethod) (signingString sig key : string)
    : option Error :=
  match m with
  | HMAC _ h =>
      if decide (sig = hmac lib h key signingString) then None
      else Some ErrTokenSignatureInvalid
  | OtherMethod _ => Some ErrInvalidKeyType
  end.

(** [token.SigningString()]. *)
Definition SigningString (t : Token) : string :=
  EncodeSegment lib (Marshal_header lib (Header t)) +:+ "." +:+
  EncodeSegment lib (Marshal_claims lib (TokenClaims t)).

(** [token.SignedString(key)]. *)
Definition SignedString (t : Token) (key : string) : string + Error :=
  match Method t with
  | None => inr ErrTokenUnverifiable
  | Some m =>
      let sstr := SigningString t in
      match Sign m sstr key with
      | inr e => inr e
      | inl sig => inl (sstr +:+ "." +:+ EncodeSegment lib sig)
      end
  end.

(** [jwt.ParseWithClaims(tokenString, &Claims{}, keyFunc)] at the time
    [now], for a key function that returns the [[]byte] [key] for
    every token. *)
Definition ParseWithClaims (now : Time.Time) (tokenString key : string)
    : Token + Error :=
  match Strings.Split tokenString "." with
  | [p0; p1; p2] =>
      match DecodeSegment lib p0 ≫= Unmarshal_header lib with
      | None => inr ErrTokenMalformed
      | Some header =>
          match DecodeSegment lib p1 ≫= Unmarshal_claims lib with
          | None => inr ErrTokenMalformed
          | Some claims =>
              match header !! "alg" with
              | Some (HStr alg) =>
                  match GetSigningMethod alg with
                  | None => inr ErrTokenUnverifiable
                  | Some method =>
                      match DecodeSegment lib p2 with
                      | None => inr ErrTokenMalformed
                      | Some sig =>
                          let text := p0 +:+ "." +:+ p1 in
                          match Verify method text sig key with
                          | Some _ => inr ErrTokenSignatureInvalid
                          | None =>
                              match Validate now (Registered claims) with
                              | [] =>
                                  inl {| Raw := tokenString;
                                         Method := Some method;
                                         Header := header;
                                         TokenClaims := claims;
                                         Signature := sig;
                                         Valid := true |}
                              | errs => inr (ErrTokenInvalidClaims errs)
                              end
                          end
                      end
                  end
              | _ => inr ErrTokenUnverifiable
              end
          end
      end
  | _ => inr ErrTokenMalformed
  end.

(** What [ParseToken] returns besides the package's errors. *)
Inductive ParseError :=
| JwtError (e : Error)
| TokenInvalid.

(** [GenerateToken(userID, secret, expire)]; [now_exp] and [now_iat]
    are the two readings of the clock, in the order they are made. *)
Definition GenerateToken (now_exp now_iat : Time.Time)
    (userID : Z) (secret : string) (expire : Time.Duration)
    : string + Error :=
  let claims := {|
    UserID := userID;
    Registered := {|
      Issuer := "";
      Subject := "user_token";
      Audience := [];
      ExpiresAt := Some (NewNumericDate (Time.Add now_exp expire));
      NotBefore := None;
      IssuedAt := Some (NewNumericDate now_iat);
      ID := "" |} |} in
  let token := NewWithClaims SigningMethodHS256 claims in
  SignedString token secret.

(** [ParseToken(tokenString, secret)] at the time [now]. *)
Definition ParseToken (now : Time.Time) (tokenString secret : string)
    : Claims + ParseError :=
  match ParseWithClaims now tokenString secret with
  | inr err => inr (JwtError err)
  | inl token =>
      if negb (Valid token) then inr TokenInvalid
      else inl (TokenClaims token)
  end.

End with_codec.

End Session.
(* ===================================================================== *)
(** * Machine integers, strconv and net/http headers *)
(* ===================================================================== *)

Module Int64.

Definition min_int : Z := - 2 ^ 63.
Definition max_int : Z := 2 ^ 63 - 1.

Definition in_range (z : Z) : Prop := min_int <= z <= max_int.

(** The value an [int64] holds after an operation whose exact result
    is [z]. *)
Definition wrap (z : Z) : Z := (z + 2 ^ 63) mod 2 ^ 64 - 2 ^ 63.

Definition sub (a b : Z) : Z := wrap (a - b).

(** [float64(n)] for an [int64] [n]. *)
Definition to_float (n : Z) : PrimFloat.float :=
  if n <? 0 then PrimFloat.opp (PrimFloat.of_uint63 (Uint63.of_Z (- n)))
  else PrimFloat.of_uint63 (Uint63.of_Z n).

(** [int64(f)] for a finite [f] within the range of [int64]: the
    fraction is discarded. *)
Definition of_float (f : PrimFloat.float) : Z :=
  match FloatOps.Prim2SF f with
  | SpecFloat.S754_finite s m e =>
      let v := if 0 <=? e then Z.pos m * 2 ^ e else Z.pos m / 2 ^ (- e) in
      if s then - v else v
  | _ => 0
  end.

End Int64.

Module Duration.

(** [d.Seconds()]: the duration as a floating-point number of seconds. *)
Definition Seconds (d : Time.Duration) : PrimFloat.float :=
  let sec := Z.quot d Time.Second in
  let nsec := Z.rem d Time.Second in
  PrimFloat.add (Int64.to_float sec)
                (PrimFloat.div (Int64.to_float nsec) 1e9%float).

End Duration.

Module Strconv.

Definition is_digit (c : ascii) : bool :=
  let n := N_of_ascii c in (48 <=? n)%N && (n <=? 57)%N.

Fixpoint digits (s : string) (acc : Z) : option Z :=
  match s with
  | EmptyString => Some acc
  | String c s' =>
      if is_digit c
      then digits s' (10 * acc + (Z.of_N (N_of_ascii c) - 48))
      else None
  end.

(** [strconv.ParseInt(s, 10, 64)]: an optional sign and decimal digits,
    within the range of [int64]; [None] is the error. *)
Definition ParseInt (s : string) : option Z :=
  let '(neg, body) :=
    match s with
    | String "+" s' => (false, s')
    | String "-" s' => (true, s')
    | _ => (false, s)
    end in
  match body with
  | EmptyString => None
  | _ =>
      match digits body 0 with
      | None => None
      | Some n =>
          let v := if neg then - n else n in
          if (Int64.min_int <=? v) && (v <=? Int64.max_int) then Some v
          else None
      end
  end.

End Strconv.

Module Http.

Definition is_lower (c : ascii) : bool :=
  let n := N_of_ascii c in (97 <=? n)%N && (n <=? 122)%N.
Definition is_upper (c : ascii) : bool :=
  let n := N_of_ascii c in (65 <=? n)%N && (n <=? 90)%N.
Definition to_upper (c : ascii) : ascii :=
  if is_lower c then ascii_of_N (N_of_ascii c - 32) else c.
Definition to_lower (c : ascii) : ascii :=
  if is_upper c then ascii_of_N (N_of_ascii c + 32) else c.

(** The bytes a header field name may have. *)
Definition is_token (c : ascii) : bool :=
  is_lower c || is_upper c || Strconv.is_digit c ||
  bool_decide (c ∈ String.list_ascii_of_string "!#$%&'*+-.^_`|~").

Fixpoint canonical (upper : bool) (s : string) : string :=
  match s with
  | EmptyString => EmptyString
  | String c s' =>
      String (if upper then to_upper c else to_lower c)
             (canonical (Ascii.eqb c "-") s')
  end.

(** [textproto.CanonicalMIMEHeaderKey]: the first letter and every
    letter after a hyphen in upper case, the others in lower case; a
    name with a byte that is not allowed is left as it is. *)
Definition CanonicalMIMEHeaderKey (s : string) : string :=
  if forallb is_token (String.list_ascii_of_string s)
  then canonical true s else s.

(** [http.Header]: canonical field names to their values. *)
Abbreviation Header := (gmap string (list string)).

(** [h.Get(key)]: the first value of the field, or the empty string. *)
Definition Header_Get (h : Header) (key : string) : string :=
  match h !! CanonicalMIMEHeaderKey key with
  | Some (v :: _) => v
  | _ => ""
  end.

(** [url.Values]. *)
Abbreviation Values := (gmap string (list string)).

Definition StatusBadRequest : Z := 400.
Definition StatusUnauthorized : Z := 401.

End Http.

(* ===================================================================== *)
(** * package middleware: gin contexts, [Signature] and [JWTAuth] *)
(* ===================================================================== *)

Module Middleware.
Import GoString GoMap.

(** [SignatureConfig]. *)
Record SignatureConfig := {
  AppKey : string;
  AppSecret : string;
  Expire : Time.Duration
}.

(** [SignatureParams]. *)
Record SignatureParams := {
  p_AppKey : string;
  p_Timestamp : Z;
  p_Nonce : string;
  p_Sign : string
}.

(** The part of [config.Config] the middleware reads: [cfg.JWT]. *)
Record JWTConfig := {
  Secret : string;
  JWTExpire : Time.Duration
}.

(** [http.Request], as far as the middleware looks at it. *)
Record Request := {
  Method : string;
  URL_Path : string;
  Header : Http.Header;
  URL_Query : Http.Values;
  PostForm : Http.Values
}.

(** A value stored in the context with [c.Set]. *)
Inductive Any :=
| AnyUint (n : Z)
| AnySignatureParams (p : SignatureParams).

(** A JSON response: the status and the fields of the object. *)
Record Response := {
  status : Z;
  body : list (string * Json.Value)
}.

(** [gin.Context].  [aborted] says that the index of the chain was set
    to the abort index, [finished] that the chain ran to its end;
    [handled] counts the runs of the business handler, [stdout] holds
    what [log.Printf] and [fmt.Printf] wrote. *)
Record Context := {
  request : Request;
  Keys : gmap string Any;
  responses : list Response;
  aborted : bool;
  finished : bool;
  handled : nat;
  stdout : list string
}.

Definition set_Keys (k : gmap string Any) (c : Context) : Context :=
  {| request := request c; Keys := k; responses := responses c;
     aborted := aborted c; finished := finished c; handled := handled c;
     stdout := stdout c |}.
Definition set_responses (r : list Response) (c : Context) : Context :=
  {| request := request c; Keys := Keys c; responses := r;
     aborted := aborted c; finished := finished c; handled := handled c;
     stdout := stdout c |}.
Definition set_aborted (b : bool) (c : Context) : Context :=
  {| request := request c; Keys := Keys c; responses := responses c;
     aborted := b; finished := finished c; handled := handled c;
     stdout := stdout c |}.
Definition set_finished (b : bool) (c : Context) : Context :=
  {| request := request c; Keys := Keys c; responses := responses c;
     aborted := aborted c; finished := b; handled := handled c;
     stdout := stdout c |}.
Definition set_handled (n : nat) (c : Context) : Context :=
  {| request := request c; Keys := Keys c; responses := responses c;
     aborted := aborted c; finished := finished c; handled := n;
     stdout := stdout c |}.
Definition set_stdout (o : list string) (c : Context) : Context :=
  {| request := request c; Keys := Keys c; responses := responses c;
     aborted := aborted c; finished := finished c; handled := handled c;
     stdout := o |}.

(** A fresh context for a request. *)
Definition new_context (r : Request) : Context :=
  {| request := r; Keys := ∅; responses := []; aborted := false;
     finished := false; handled := 0%nat; stdout := [] |}.

(** How the call of a handler ends. *)
Inductive result :=
| Done (c : Context)
| Panicked (v : string) (c : Context).

(** [gin.HandlerFunc]: the first argument is what [c.Next()] does, the
    rest of the chain. *)
Definition HandlerFunc := (Context -> result) -> Context -> result.

(** The loop of [c.Next()] over the handlers that are left: it stops
    when the context is aborted, and a handler that called [c.Next()]
    itself has run the rest of the chain already. *)
Fixpoint Next (handlers : list HandlerFunc) (c : Context) : result :=
  match handlers with
  | [] => if aborted c then Done c else Done (set_finished true c)
  | h :: rest =>
      if aborted c || finished c then Done c
      else match h (Next rest) c with
           | Done c' =>
               if aborted c' || finished c' then Done c' else Next rest c'
           | Panicked v c' => Panicked v c'
           end
  end.

(** The business handler at the end of a chain: it does [f] to the
    context, where it can abort the chain but not move its index
    otherwise, and its run is counted. *)
Definition business (f : Context -> Context) : HandlerFunc :=
  fun _ c =>
    let c' := f c in
    Done (set_handled (S (handled c))
            (set_finished (finished c)
               (set_aborted (aborted c || aborted c') c'))).

(** ** Statements of a function body *)

Inductive flow :=
| Continue (c : Context)
| Return (c : Context)
| Panic (v : string) (c : Context).

Definition stmt := Context -> flow.

Definition seq (s1 s2 : stmt) : stmt :=
  fun c => match s1 c with
           | Continue c' => s2 c'
           | Return c' => Return c'
           | Panic v c' => Panic v c'
           end.

Definition skip : stmt := Continue.
Definition return_ : stmt := Return.
Definition exec (f : Context -> Context) : stmt := fun c => Continue (f c).
Definition call (f : Context -> result) : stmt :=
  fun c => match f c with
           | Done c' => Continue c'
           | Panicked v c' => Panic v c'
           end.
Definition body_of (s : stmt) : Context -> result :=
  fun c => match s c with
           | Continue c' | Return c' => Done c'
           | Panic v c' => Panicked v c'
           end.

Notation "s1 ;; s2" := (seq s1 s2)
  (at level 100, s2 at level 200, only parsing, right associativity).

(** ** gin.Context methods ([c.Set] is [Context_Set]) *)

Definition Context_Set (key : string) (v : Any) : stmt :=
  exec (fun c => set_Keys (<[key := v]> (Keys c)) c).
Definition Abort : stmt := exec (set_aborted true).
Definition JSON (code : Z) (obj : list (string * Json.Value)) : stmt :=
  exec (fun c => set_responses
                   (responses c ++ [{| status := code; body := obj |}]) c).
Definition AbortWithStatusJSON (code : Z) (obj : list (string * Json.Value))
    : stmt :=
  Abort ;; JSON code obj.
Definition Printf (line : string) : stmt :=
  exec (fun c => set_stdout (stdout c ++ [line]) c).
Definition GetHeader (c : Context) (key : string) : string :=
  Http.Header_Get (Header (request c)) key.

(** ** middleware/error.go *)

(** [ErrorResponse] as the JSON object it is written as: [error] is
    left out when empty, [details] is never set here. *)
Definition ErrorResponse (code : Z) (message error : string)
    : list (string * Json.Value) :=
  [("code", Json.Int code); ("message", Json.Str message)] ++
  (if decide (error = "") then [] else [("error", Json.Str error)]).

(** [ErrorWrapper(c, statusCode, code, message, err)]; [mode] is
    [gin.Mode()]. *)
Definition ErrorWrapper (mode : string) (statusCode code : Z)
    (message : string) (err : option string) : stmt :=
  let errStr := match err with Some e => e | None => "" end in
  let response := ErrorResponse code message errStr in
  (match err with
   | Some e => if decide (mode = "debug")
               then Printf ("Error: " +:+ e) else skip
   | None => skip
   end) ;;
  AbortWithStatusJSON statusCode response.

(** ** middleware/signature.go *)

(** What [Signature] reads besides the request: the clock, the mode of
    gin, and the orders in which its three [range] loops over maps
    deliver the keys. *)
Record SignatureEnv := {
  now : Z;
  mode : string;
  visitQuery : list string;
  visitForm : list string;
  visitAll : list string
}.

(** [c.ShouldBindQuery(&params)]: the fields with a [form] tag are taken
    from the query, the first value of each; an absent field keeps its
    zero value, an empty integer reads as zero, and an integer that does
    not parse is an error. *)
Definition first_value (q : Http.Values) (key : string) : option string :=
  match q !! key with
  | Some (v :: _) => Some v
  | Some [] => Some ""
  | None => None
  end.

Definition ShouldBindQuery (q : Http.Values) : SignatureParams + string :=
  let appKey := default "" (first_value q "app_key") in
  let timestamp :=
    match first_value q "timestamp" with
    | None => Some 0
    | Some v => Strconv.ParseInt (if decide (v = "") then "0" else v)
    end in
  match timestamp with
  | None => inr "strconv.ParseInt: parsing timestamp"
  | Some ts =>
      inl {| p_AppKey := appKey;
             p_Timestamp := ts;
             p_Nonce := default "" (first_value q "nonce");
             p_Sign := default "" (first_value q "sign") |}
  end.

(** The test of line 65, [now-params.Timestamp >
    int64(config.Expire.Seconds())], on [int64] values. *)
Definition expired (now timestamp : Z) (Expire : Time.Duration) : bool :=
  Int64.sub now timestamp >? Int64.of_float (Duration.Seconds Expire).

(** One of the loops of lines 76 to 85: every key but [sign] is copied
    with its first value; indexing an empty list of values panics. *)
Fixpoint copy_params (visit : list string) (values : Http.Values)
    (allParams : gmap string string) : gmap string string + string :=
  match visit with
  | [] => inl allParams
  | key :: visit' =>
      if decide (key <> "sign") then
        match values !! key with
        | Some (v :: _) => copy_params visit' values (<[key := v]> allParams)
        | _ => inr "runtime error: index out of range [0] with length 0"
        end
      else copy_params visit' values allParams
  end.

(** Lines 70 to 85: the parameters of the query and of the form, merged. *)
Definition collect_params (env : SignatureEnv) (queryParams formParams : Http.Values)
    : gmap string string + string :=
  match copy_params (visitQuery env) queryParams ∅ with
  | inr v => inr v
  | inl allParams => copy_params (visitForm env) formParams allParams
  end.

(** Lines 87 to 108: the signature of the merged parameters. *)
Definition calculatedSign (visit : list string) (allParams : gmap string string)
    (appSecret : string) : string :=
  let keys := foldl (fun keys k => keys ++ [k]) [] visit in
  let keys := sort_Strings keys in
  let signStr :=
    foldl (fun signStr k =>
             let signStr := WriteString signStr k in
             let signStr := WriteString signStr "=" in
             let signStr := WriteString signStr (index allParams k) in
             WriteString signStr "&")
          "" keys in
  let signStr := WriteString signStr "app_secret=" in
  let signStr := WriteString signStr appSecret in
  Hex.EncodeToString (MD5.Sum (bytes signStr)).

(** Lines 37 to 120 of [Signature], which no request reaches. *)
Definition Signature_checks (config : SignatureConfig) (env : SignatureEnv)
    (next : Context -> result) : stmt :=
  (fun c => Printf ("收到请求: " +:+ Method (request c) +:+ " " +:+
                    URL_Path (request c)) c) ;;
  (fun c => if decide (Method (request c) = "OPTIONS")
            then (call next ;; return_) c
            else skip c) ;;
  (fun c =>
     let sign := Http.Header_Get (Header (request c)) "signature" in
     if decide (sign = "") then
       match ShouldBindQuery (URL_Query (request c)) with
       | inr err =>
           (Printf ("签名验证失败: " +:+ err) ;;
            ErrorWrapper (mode env) Http.StatusBadRequest 400
                         "签名参数错误" (Some err) ;;
            return_) c
       | inl params =>
           if decide (p_AppKey params <> AppKey config) then
             (ErrorWrapper (mode env) Http.StatusBadRequest 400
                           "无效的AppKey" None ;;
              return_) c
           else if expired (now env) (p_Timestamp params) (Expire config) then
             (ErrorWrapper (mode env) Http.StatusBadRequest 400
                           "签名已过期" None ;;
              return_) c
           else
             let queryParams := URL_Query (request c) in
             let formParams := PostForm (request c) in
             match collect_params env queryParams formParams with
             | inr v => Panic v c
             | inl allParams =>
                 let calculated :=
                   calculatedSign (visitAll env) allParams (AppSecret config) in
                 if decide (calculated <> p_Sign params) then
                   (ErrorWrapper (mode env) Http.StatusBadRequest 400
                                 "签名验证失败" None ;;
                    return_) c
                 else
                   Context_Set "signatureParams" (AnySignatureParams params) c
             end
       end
     else skip c) ;;
  call next.

(** [Signature(config)]. *)
Definition Signature (config : SignatureConfig) (env : SignatureEnv)
    : HandlerFunc :=
  fun next =>
    body_of (
      (* 临时禁用签名验证 *)
      call next ;;
      return_ ;;
      Signature_checks config env next).

(** ** middleware/jwt.go *)

Section jwt.
Variable lib : Session.Codec.

(** The text of an error of [ParseToken]. *)
Variable error_text : Session.ParseError -> string.

(** Lines 9 to 43 of the body of [JWTAuth], which no request
    reaches; [now] is the time at which the token is validated. *)
Definition JWTAuth_checks (cfg : JWTConfig) (now : Time.Time)
    (next : Context -> result) : stmt :=
  fun c =>
    let authHeader := GetHeader c "Authorization" in
    if decide (authHeader = "") then
      (JSON Http.StatusUnauthorized
            [("code", Json.Int 401); ("message", Json.Str "请先登录")] ;;
       Abort ;;
       return_) c
    else
      let parts := Strings.SplitN authHeader " " 2 in
      if negb (bool_decide (length parts = 2%nat) &&
               bool_decide (parts !! 0%nat = Some "Bearer")) then
        (JSON Http.StatusUnauthorized
              [("code", Json.Int 401);
               ("message", Json.Str "无效的认证格式")] ;;
         Abort ;;
         return_) c
      else
        let token := default "" (parts !! 1%nat) in
        match Session.ParseToken lib now token (Secret cfg) with
        | inr err =>
            (JSON Http.StatusUnauthorized
                  [("code", Json.Int 401);
                   ("message", Json.Str ("认证失败: " +:+ error_text err))] ;;
             Abort ;;
             return_) c
        | inl claims =>
            (Context_Set "userID" (AnyUint (Session.UserID claims)) ;;
             call next) c
        end.

(** [JWTAuth(cfg)]. *)
Definition JWTAuth (cfg : JWTConfig) (now : Time.Time) : HandlerFunc :=
  fun next =>
    body_of (
      (* 临时禁用JWT验证 *)
      Context_Set "userID" (AnyUint 1) ;;
      call next ;;
      return_ ;;
      JWTAuth_checks cfg now next).

End jwt.

End Middleware.
(* ===================================================================== *)
(** * The operations of the specification, on the code *)
(* ===================================================================== *)

Module GuardSpec.
Import GoMap Middleware.

(** The query of a request that carries the parameters [P] and the
    signature [providedDigest] as its [sign] field. *)
Definition signed_query (P : gmap string string) (providedDigest : string)
    : Http.Values :=
  (fun v => [v]) <$> <["sign" := providedDigest]> P.

(** [verify(params, providedDigest, secret)]: what lines 70 to 114 of
    [Signature] decide for such a request with an empty form. *)
Definition verify (env : SignatureEnv) (P : gmap string string)
    (providedDigest secret : string) : bool :=
  match collect_params env (signed_query P providedDigest) ∅ with
  | inl allParams =>
      negb (bool_decide
              (calculatedSign (visitAll env) allParams secret
               <> default "" (first_value (signed_query P providedDigest) "sign")))
  | inr _ => false
  end.

(** The orders of the three loops are orders the maps of that request
    can be traversed in. *)
Definition env_ranges (env : SignatureEnv) (P : gmap string string)
    (providedDigest : string) : Prop :=
  range_order (signed_query P providedDigest) (visitQuery env) /\
  range_order (∅ : Http.Values) (visitForm env) /\
  range_order (delete "sign" P) (visitAll env).

(** [isFresh(timestamp, now, window)]: the request is not rejected by
    the test of line 65. *)
Definition isFresh (timestamp now : Z) (window : Time.Duration) : bool :=
  negb (expired now timestamp window).

(** The window in seconds, [int64(config.Expire.Seconds())]. *)
Definition window_seconds (window : Time.Duration) : Z :=
  Int64.of_float (Duration.Seconds window).

End GuardSpec.
(* ===================================================================== *)
(** * Notions and data the statements use *)
(* ===================================================================== *)

(** ** Requests and environments of the signing scenario *)

Section signing_scenario.
Import GoString GoMap Utils Middleware.

(** Orders for the loops of a request that carries [foo], [bar] and
    [sign]. *)
Definition demo_env : SignatureEnv :=
  {| now := 1700000000; mode := "debug";
     visitQuery := ["sign"; "foo"; "bar"]; visitForm := [];
     visitAll := ["foo"; "bar"] |}.

(** The scenario of the specification: [app_key=demo], a timestamp, the
    nonce [abc], and the parameters [foo=1] and [bar=2], signed with the
    secret [s3cr3t]. *)
Definition demo_config : SignatureConfig :=
  {| AppKey := "demo"; AppSecret := "s3cr3t"; Expire := 300 * Time.Second |}.

(** The parameters as [GenerateAPIParams] signs them. *)
Definition demo_signed : gmap string string :=
  GenerateAPIParams ["foo"; "bar"; "app_key"; "timestamp"; "nonce"]
                    "1700000000" "abc" "demo" "s3cr3t"
                    {[ "foo" := "1"; "bar" := "2" ]}.

(** A request with the given parameters in its query. *)
Definition demo_request (params : gmap string string) : Request :=
  {| Method := "GET"; URL_Path := "/api/v1/users"; Header := ∅;
     URL_Query := (fun v => [v]) <$> params; PostForm := ∅ |}.

(** The clock ten seconds after the timestamp, and orders for the loops
    over the six fields of the query. *)
Definition demo_pipeline_env : SignatureEnv :=
  {| now := 1700000010; mode := "release";
     visitQuery := ["sign"; "nonce"; "foo"; "timestamp"; "bar"; "app_key"];
     visitForm := [];
     visitAll := ["timestamp"; "app_key"; "foo"; "nonce"; "bar"] |}.

(** The request with [bar] changed to [3] and the old signature. *)
Definition tampered_request : Request :=
  demo_request (<["bar" := "3"]> demo_signed).

(** The clock a thousand million seconds after the timestamp, with the
    same orders for the loops. *)
Definition stale_env : SignatureEnv :=
  {| now := 2700000000; mode := "release";
     visitQuery := ["sign"; "nonce"; "foo"; "timestamp"; "bar"; "app_key"];
     visitForm := [];
     visitAll := ["timestamp"; "app_key"; "foo"; "nonce"; "bar"] |}.


(** A request that is not an [OPTIONS] request, has no [signature]
    header, and whose query binds to [params] with the configured
    [app_key]. *)
Definition checked (config : SignatureConfig) (c : Context)
    (params : SignatureParams) : Prop :=
  Method (request c) <> "OPTIONS" /\
  Http.Header_Get (Header (request c)) "signature" = "" /\
  ShouldBindQuery (URL_Query (request c)) = inl params /\
  p_AppKey params = AppKey config.

(** The answer [ErrorWrapper] writes for a message, with no error value. *)
Definition rejected_with (message : string) (c c' : Context) : Prop :=
  aborted c' = true /\ handled c' = handled c /\
  responses c' = responses c ++
                 [{| status := 400; body := ErrorResponse 400 message "" |}].

End signing_scenario.

(** ** Session tokens *)

Section session_notions.
Import Jwt Session Middleware.

(** The instant of a time, in nanoseconds since the epoch. *)
Definition instant (t : Time.Time) : Z := Time.unix t * Time.Second + Time.nsec t.

(** The nanoseconds of a time lie within its second. *)
Definition normal (t : Time.Time) : Prop := 0 <= Time.nsec t < Time.Second.

(** The claims of a token issued for [userID]. *)
Definition issued_claims (now_exp now_iat : Time.Time) (userID : Z)
    (expire : Time.Duration) : Claims :=
  user_token_claims userID (NewNumericDate (Time.Add now_exp expire))
                    (NewNumericDate now_iat).

(** A codec to try the token functions on: every value is written as
    the decimal digits of its code as a countable type, and read back from
    them; the keyed hash puts the key in front of the message. *)
Definition digits_of `{Countable A} (a : A) : string :=
  NilEmpty.string_of_uint (Pos.to_uint (encode a)).

Definition of_digits `{Countable A} (s : string) : option A :=
  match NilEmpty.uint_of_string s with
  | Some u => match Pos.of_uint u with
              | Npos p => decode p
              | N0 => None
              end
  | None => None
  end.

#[global] Instance Time_eq_dec : EqDecision Time.Time.
Proof. solve_decision. Defined.
#[global] Instance Time_countable : Countable Time.Time.
Proof.
  apply (inj_countable' (fun t => (Time.unix t, Time.nsec t, Time.offset t))
           (fun '(u, n, o) => {| Time.unix := u; Time.nsec := n; Time.offset := o |})).
  by intros [].
Defined.

#[global] Instance RegisteredClaims_eq_dec : EqDecision RegisteredClaims.
Proof. solve_decision. Defined.
#[global] Instance RegisteredClaims_countable : Countable RegisteredClaims.
Proof.
  apply (inj_countable'
           (fun r => (Issuer r, Subject r, Audience r, ExpiresAt r,
                      NotBefore r, IssuedAt r, ID r))
           (fun '(i, s, a, e, n, t, d) =>
              {| Issuer := i; Subject := s; Audience := a; ExpiresAt := e;
                 NotBefore := n; IssuedAt := t; ID := d |})).
  by intros [].
Defined.

#[global] Instance Claims_eq_dec : EqDecision Claims.
Proof. solve_decision. Defined.
#[global] Instance Claims_countable : Countable Claims.
Proof.
  apply (inj_countable' (fun c => (UserID c, Registered c))
           (fun '(u, r) => {| UserID := u; Registered := r |})).
  by intros [].
Defined.

#[global] Instance HeaderValue_eq_dec : EqDecision HeaderValue.
Proof. solve_decision. Defined.
#[global] Instance HeaderValue_countable : Countable HeaderValue.
Proof.
  apply (inj_countable'
           (fun v => match v with HStr s => inl s | HOther s => inr s end)
           (fun v => match v with inl s => HStr s | inr s => HOther s end)).
  by intros [].
Defined.

Definition digits_codec : Codec := {|
  EncodeSegment := digits_of;
  DecodeSegment := of_digits;
  Marshal_header := digits_of;
  Unmarshal_header := of_digits;
  Marshal_claims := digits_of;
  Unmarshal_claims := of_digits;
  hmac := fun _ key message => key +:+ message
|}.

(** Half past the tenth second after the epoch. *)
Definition half_past_ten : Time.Time :=
  {| Time.unix := 10; Time.nsec := 500000000; Time.offset := 0 |}.

(** A request on an authenticated route with a header that does not
    begin with [Bearer]. *)
Definition no_bearer_request : Request :=
  {| Method := "GET"; URL_Path := "/api/v1/users";
     Header := {[ "Authorization" := ["Token abc"] ]};
     URL_Query := ∅; PostForm := ∅ |}.

(** The same request without the header. *)
Definition no_header_request : Request :=
  {| Method := "GET"; URL_Path := "/api/v1/users"; Header := ∅;
     URL_Query := ∅; PostForm := ∅ |}.

(** A header is malformed when it is missing or empty, or is not
    [Bearer], a space and a token. *)
Definition malformed (authHeader : string) : Prop :=
  authHeader = "" \/ forall token, authHeader <> "Bearer " +:+ token.

End session_notions.

(** ** Logging *)

Section logging_notions.
Import Zapcore Log.

(** The world a call leaves, however it ends. *)
Definition world_of {A} (o : outcome A) : World :=
  match o with Ok _ w | Panic _ w | Exit _ w | Blocked w => w end.

(** The entries a logger writes for a record: one per core whose
    enabler accepts the level, in the order of the cores. *)
Definition entries (l : Logger) (lvl : Level) (msg : string)
    : list (WriteSyncer * Level * string) :=
  (fun c => (core_out c, lvl, msg)) <$>
    filter (fun c => core_enab c lvl = true) (cores l).

(** An entry written to a rolling file. *)
Definition is_file (e : WriteSyncer * Level * string) : Prop :=
  match e.1.1 with File _ => True | _ => False end.

#[global] Instance is_file_dec e : Decision (is_file e).
Proof. unfold is_file. destruct (e.1.1); apply _. Defined.

(** The structured logger is up, or its first use can bring it up with
    the default configuration. *)
Definition logger_ready (env : Env) (w : World) : Prop :=
  is_Some (logger w) \/
  (once w = false /\ mkdir_err env (LogDir defaultLogConfig) = None).

(** From [w] to [w'] the package has at most created directories,
    brought up the structured logger and written records through it: the
    recorder, its guard, the goroutines and the request log files are as
    they were. *)
Definition logged_only (w w' : World) : Prop :=
  requestLogger w' = requestLogger w /\ reqLogOnce w' = reqLogOnce w /\
  goroutines w' = goroutines w /\ request_lines w' = request_lines w.

(** The message [LogRequest] logs when [json.Marshal] fails. *)
Definition serialization_failed : string := "请求日志序列化失败".

(** The directory [InitRequestLogger] creates. *)
Definition request_log_dir (cfg : LogConfig) : string :=
  if decide (LogDir cfg = "") then "logs/requests"
  else Filepath.Join [LogDir cfg; "requests"].

(** The world after the lazy initialization at the head of
    [LogRequest]. *)
Definition after_lazy_init (env : Env) (w w0 : World) : Prop :=
  match requestLogger w with
  | Some _ => w0 = w
  | None => InitRequestLogger env defaultLogConfig w = Ok tt w0
  end.

(** A file system in which [logs] can be created and [logs/requests]
    cannot. *)
Definition no_requests_dir : Env :=
  {| today := "2025-05-04";
     mkdir_err := fun path =>
       if decide (path = "logs/requests") then Some "permission denied"
       else None;
     write_err := fun _ => None |}.

(** The state of the package before anything has run. *)
Definition initial : World :=
  {| logger := None; sugarLogger := None; once := false;
     requestLogger := None; reqLogOnce := false; goroutines := [];
     dirs := []; written := []; request_lines := [] |}.

(** The state after [InitLogger()]. *)
Definition started : World :=
  world_of (InitLogger no_requests_dir initial).

(** The logger of that state. *)
Definition started_logger : Logger :=
  default (New []) (logger started).

(** A stand-in for the text of an encoded record. *)
Definition some_text : ReqLog.RequestLog -> string := fun _ => "{}".

(** An entry with a latency that is not a number, which
    [json.Marshal] refuses, and the same entry with a latency of a
    millisecond and a half. *)
Definition entry (latency : PrimFloat.float) : ReqLog.RequestLog :=
  {| ReqLog.Time := {| Time.unix := 1746316800; Time.nsec := 0;
                       Time.offset := 28800 |};
     ReqLog.Method := "GET"; ReqLog.Path := "/ping"; ReqLog.Query := "";
     ReqLog.Status := 200; ReqLog.IP := "127.0.0.1";
     ReqLog.UserAgent := "curl"; ReqLog.LatencyMs := latency;
     ReqLog.RequestID := ""; ReqLog.Error := "";
     ReqLog.Params := ∅; ReqLog.Headers := ∅; ReqLog.ExtraInfo := ∅ |}.

End logging_notions.

(* ===================================================================== *)
(** * More of the code, and the notions its properties use *)
(* ===================================================================== *)

(** ** utils/logger.go: the other accessors *)

Section logger_accessors.
Import Zapcore Log.
Local Open Scope go_scope.

Variable env : Env.

(** [GetSugarLogger()]. *)
Definition GetSugarLogger : M (option Logger) :=
  let* w := get in
  (if sugarLogger w is None then InitLogger env else ret tt) ;;
  let* w := get in
  ret (sugarLogger w).

(** [logger.Sync()] flushes the cores; [sync_err] is the error this
    returns, if any. *)
Variable sync_err : Logger -> World -> option string.

(** [Sync()]. *)
Definition Sync : M (option string) :=
  let* w := get in
  match logger w with
  | Some l => ret (sync_err l w)
  | None => ret None
  end.

End logger_accessors.

(** ** main.go: the logging set-up of [main] *)

Section main_setup.
Import Zapcore Log.
Local Open Scope go_scope.

(** [cfg.Logger], the part of [config.Config] that [main] reads for
    the loggers. *)
Record ConfigLogger := {
  cfg_Dir : string;
  cfg_FileName : string;
  cfg_MaxSize : Z;
  cfg_MaxBackups : Z;
  cfg_MaxAge : Z;
  cfg_Compress : bool;
  cfg_ConsoleOutput : bool;
  cfg_RotateDaily : bool
}.

Variable env : Env.

(** The statements of [main] from the log configuration to the first
    record, [utils.Info("应用程序启动")]. *)
Definition main_logging (cfg : ConfigLogger) : M unit :=
  let logFileName := "app.log" in
  let logFileName :=
    if decide (cfg_FileName cfg <> "") then cfg_FileName cfg else logFileName in
  let maxSize := 100 in
  let maxSize := if 0 <? cfg_MaxSize cfg then cfg_MaxSize cfg else maxSize in
  let maxBackups := 10 in
  let maxBackups :=
    if 0 <? cfg_MaxBackups cfg then cfg_MaxBackups cfg else maxBackups in
  let maxAge := 30 in
  let maxAge := if 0 <? cfg_MaxAge cfg then cfg_MaxAge cfg else maxAge in
  InitLoggerWithConfig env {|
    LogDir := "logs";
    LogFileName := logFileName;
    MaxSize := maxSize;
    MaxBackups := maxBackups;
    MaxAge := maxAge;
    Compress := cfg_Compress cfg;
    ConsoleOutput := true;
    RotateDaily := true |} ;;
  InitRequestLogger env {|
    LogDir := "logs";
    LogFileName := "";
    MaxSize := maxSize;
    MaxBackups := maxBackups;
    MaxAge := maxAge;
    Compress := cfg_Compress cfg;
    ConsoleOutput := false;
    RotateDaily := true |} ;;
  Info env "应用程序启动".

End main_setup.

(** ** utils/request_logger.go *)

Section request_logger_notions.
Import Log.

(** The name [updateWriter] gives the request log file of a
    configuration. *)
Definition request_log_file (env : Env) (cfg : LogConfig) : string :=
  if RotateDaily cfg
  then Filepath.Join [LogDir cfg; "requests";
                      "requests-" +:+ today env +:+ ".log"]
  else Filepath.Join [LogDir cfg; "requests"; "requests.log"].

(** The rolling file [updateWriter] opens: that name, and the rotation
    settings of the configuration. *)
Definition writer_file (env : Env) (cfg : LogConfig) : Lumberjack.Logger :=
  {| Lumberjack.Filename := request_log_file env cfg;
     Lumberjack.MaxSize := MaxSize cfg;
     Lumberjack.MaxBackups := MaxBackups cfg;
     Lumberjack.MaxAge := MaxAge cfg;
     Lumberjack.Compress := Compress cfg |}.

(** A recorder as [InitRequestLogger] creates it, before
    [updateWriter] has run: no writer, the mutex free. *)
Definition fresh_recorder (cfg : LogConfig) : RequestLogger :=
  {| config := cfg; writer := None; locked := false |}.

End request_logger_notions.

(** ** middleware/jwt.go *)

Section session_more_notions.
Import Jwt Session Middleware.

(** The text [GenerateToken] signs for a user: the coded header and the
    coded claims of the token, joined by a dot. *)
Definition signed_text (lib : Codec) (now_exp now_iat : Time.Time)
    (userID : Z) (expire : Time.Duration) : string :=
  SigningString lib
    (NewWithClaims SigningMethodHS256
                   (issued_claims now_exp now_iat userID expire)).

(** A request on an authenticated route with the header
    [Authorization: Bearer <token>]. *)
Definition bearer_request (token : string) : Request :=
  {| Method := "GET"; URL_Path := "/api/v1/users/profile";
     Header := {[ "Authorization" := ["Bearer " +:+ token] ]};
     URL_Query := ∅; PostForm := ∅ |}.

End session_more_notions.

(** ** strconv.FormatInt *)

Module Itoa.

(** The byte of a decimal digit. *)
Definition digit_char (d : Z) : ascii := ascii_of_N (Z.to_N (48 + d)).

(** The loop of [formatBits] for base 10: the digits of [u] are written
    from the last one to the first, in front of [acc]; twenty turns are
    enough for 64 bits. *)
Fixpoint format_digits (turns : nat) (u : Z) (acc : string) : string :=
  match turns with
  | O => acc
  | S turns' =>
      let acc' := String (digit_char (u mod 10)) acc in
      if u <? 10 then acc' else format_digits turns' (u / 10) acc'
  end.

(** [strconv.FormatInt(i, 10)] for an [int64] [i]. *)
Definition FormatInt (i : Z) : string :=
  if i <? 0 then "-" +:+ format_digits 20 (- i) ""
  else format_digits 20 i "".

End Itoa.

(** ** time: the civil date and [Format] *)

Module Clock.

(** The year of the era, the month and the day of the month of a day
    of the era of 400 years, counted from the first of March. *)
Definition date_of_doe (doe : Z) : Z * Z * Z :=
  let yoe := (doe - doe / 1460 + doe / 36524 - doe / 146096) / 365 in
  let doy := doe - (365 * yoe + yoe / 4 - yoe / 100) in
  let mp := (5 * doy + 2) / 153 in
  let d := doy - (153 * mp + 2) / 5 + 1 in
  let m := if mp <? 10 then mp + 3 else mp - 9 in
  (yoe, m, d).

(** [t.Date()] for a day number counted from the epoch: the year, the
    month and the day of the proleptic Gregorian calendar. *)
Definition civil_of_days (days : Z) : Z * Z * Z :=
  let z := days + 719468 in
  let era := z / 146097 in
  let doe := z - era * 146097 in
  let '(yoe, m, d) := date_of_doe doe in
  (yoe + era * 400 + (if m <=? 2 then 1 else 0), m, d).

Fixpoint zeros (n : nat) : string :=
  match n with
  | O => ""
  | S n' => String "0" (zeros n')
  end.

(** [appendInt(b, x, width)]: the decimal digits of [x], with a sign
    when it is negative, padded with zeros to the width. *)
Definition appendInt (x : Z) (width : nat) : string :=
  let digits := Itoa.format_digits 20 (Z.abs x) "" in
  (if x <? 0 then "-" else "") +:+
  zeros (width - String.length digits) +:+ digits.

(** [t.Format("20060102150405.000")]: the year in four digits, the
    month, the day, the hour, the minute and the second in two digits
    each, a dot, and the milliseconds of the second in three digits,
    all of the local time. *)
Definition Format_compact_millis (t : Time.Time) : string :=
  let abs := Time.unix t + Time.offset t in
  let '(year, month, day) := civil_of_days (abs / 86400) in
  let secs := abs mod 86400 in
  appendInt year 4 +:+ appendInt month 2 +:+ appendInt day 2 +:+
  appendInt (secs / 3600) 2 +:+ appendInt (secs mod 3600 / 60) 2 +:+
  appendInt (secs mod 60) 2 +:+ "." +:+
  appendInt (Time.nsec t / 1000000) 3.

End Clock.

(** ** utils/signature.go and middleware/signature.go *)

Section signing_more.
Import GoString GoMap Utils Middleware.

(** The keys [GenerateAPIParams] writes. *)
Definition reserved_keys : list string :=
  ["app_key"; "timestamp"; "nonce"; "sign"].

(** The parameters with the three common fields, as [GenerateAPIParams]
    has them when it computes the signature; [unix] is
    [time.Now().Unix()]. *)
Definition common_params (unix : Z) (nonce appKey : string)
    (params : gmap string string) : gmap string string :=
  <["nonce" := nonce]>
    (<["timestamp" := Itoa.FormatInt unix]> (<["app_key" := appKey]> params)).

(** [GenerateNonce()] at the time [now]. *)
Definition GenerateNonce (now : Time.Time) : string :=
  Clock.Format_compact_millis now.

(** [GetSignatureParams(c)]: nil when nothing is stored under
    [signatureParams]; otherwise the value is asserted to be a
    [*SignatureParams], and the assertion panics on a value of another
    type.  [Signature] stores a [SignatureParams], not a pointer to one,
    and nothing in the program stores a pointer. *)
Definition GetSignatureParams (c : Context) : option SignatureParams + string :=
  match Keys c !! "signatureParams" with
  | Some (AnySignatureParams _) =>
      inr ("interface conversion: interface {} is middleware.SignatureParams, "
           +:+ "not *middleware.SignatureParams")
  | Some (AnyUint _) =>
      inr ("interface conversion: interface {} is uint, "
           +:+ "not *middleware.SignatureParams")
  | None => inl None
  end.

End signing_more.

(** ** middleware/whitelist.go *)

Module WhitelistGo.
Import Middleware.

(** [WhitelistConfig]. *)
Record WhitelistConfig := {
  IPWhitelist : list string;
  PathWhitelist : list string;
  EnableIPWhitelist : bool;
  EnablePathWhitelist : bool
}.

(** The initial value of the package variable [DefaultWhitelistConfig]. *)
Definition DefaultWhitelistConfig : WhitelistConfig :=
  {| IPWhitelist := []; PathWhitelist := [];
     EnableIPWhitelist := false; EnablePathWhitelist := false |}.

(** [cfg.Whitelist], the part of [config.Config] that
    [NewWhitelistConfig] reads. *)
Record ConfigWhitelist := {
  cfg_IPWhitelist : list string;
  cfg_PathWhitelist : list string;
  cfg_EnableIPWhitelist : bool;
  cfg_EnablePathWhitelist : bool
}.

(** [NewWhitelistConfig(cfg)]. *)
Definition NewWhitelistConfig (cfg : ConfigWhitelist) : WhitelistConfig :=
  {| IPWhitelist := cfg_IPWhitelist cfg;
     PathWhitelist := cfg_PathWhitelist cfg;
     EnableIPWhitelist := cfg_EnableIPWhitelist cfg;
     EnablePathWhitelist := cfg_EnablePathWhitelist cfg |}.

(** The loop [for _, x := range list { if v == x { hit } }], where
    [hit] ends with [return]. *)
Fixpoint range_hit (v : string) (items : list string) (hit : stmt) : stmt :=
  match items with
  | [] => skip
  | x :: items' => if decide (v = x) then hit else range_hit v items' hit
  end.

Section with_client_ip.

(** [c.ClientIP()]: what gin takes for the address of the client, from
    the remote address of the connection and the forwarding headers it
    trusts. *)
Variable ClientIP : Request -> string.

(** [Whitelist(config)]. *)
Definition Whitelist (config : WhitelistConfig) : HandlerFunc :=
  fun next =>
    body_of (
      (if EnablePathWhitelist config then
         fun c =>
           let path := URL_Path (request c) in
           range_hit path (PathWhitelist config) (call next ;; return_) c
       else skip) ;;
      (if EnableIPWhitelist config then
         (fun c =>
            let clientIP := ClientIP (request c) in
            range_hit clientIP (IPWhitelist config) (call next ;; return_) c) ;;
         AbortWithStatusJSON 403
           [("code", Json.Int 403);
            ("message", Json.Str "IP地址不在白名单中")] ;;
         return_
       else skip) ;;
      call next).

End with_client_ip.

(** [IsIPInWhitelist(ip, whitelist)]. *)
Fixpoint IsIPInWhitelist (ip : string) (whitelist : list string) : bool :=
  match whitelist with
  | [] => false
  | whitelistIP :: whitelist' =>
      if decide (ip = whitelistIP) then true
      else IsIPInWhitelist ip whitelist'
  end.

(** [IsPathInWhitelist(path, whitelist)]. *)
Fixpoint IsPathInWhitelist (path : string) (whitelist : list string) : bool :=
  match whitelist with
  | [] => false
  | whitelistPath :: whitelist' =>
      if decide (path = whitelistPath) then true
      else IsPathInWhitelist path whitelist'
  end.

(** The loop [for i, x := range list { if x == v { list = append(list[:i],
    list[i+1:]...); break } }]: [rest] is what is left to visit from the
    index [i] on. *)
Fixpoint remove_first_from (v : string) (items : list string) (i : nat)
    (rest : list string) : list string :=
  match rest with
  | [] => items
  | x :: rest' =>
      if decide (x = v) then take i items ++ drop (S i) items
      else remove_first_from v items (S i) rest'
  end.

(** The four functions that update [DefaultWhitelistConfig], on the
    value of the variable. *)
Definition AddToIPWhitelist (ip : string) (D : WhitelistConfig)
    : WhitelistConfig :=
  {| IPWhitelist := IPWhitelist D ++ [ip];
     PathWhitelist := PathWhitelist D;
     EnableIPWhitelist := EnableIPWhitelist D;
     EnablePathWhitelist := EnablePathWhitelist D |}.

Definition AddToPathWhitelist (path : string) (D : WhitelistConfig)
    : WhitelistConfig :=
  {| IPWhitelist := IPWhitelist D;
     PathWhitelist := PathWhitelist D ++ [path];
     EnableIPWhitelist := EnableIPWhitelist D;
     EnablePathWhitelist := EnablePathWhitelist D |}.

Definition RemoveFromIPWhitelist (ip : string) (D : WhitelistConfig)
    : WhitelistConfig :=
  {| IPWhitelist := remove_first_from ip (IPWhitelist D) 0 (IPWhitelist D);
     PathWhitelist := PathWhitelist D;
     EnableIPWhitelist := EnableIPWhitelist D;
     EnablePathWhitelist := EnablePathWhitelist D |}.

Definition RemoveFromPathWhitelist (path : string) (D : WhitelistConfig)
    : WhitelistConfig :=
  {| IPWhitelist := IPWhitelist D;
     PathWhitelist :=
       remove_first_from path (PathWhitelist D) 0 (PathWhitelist D);
     EnableIPWhitelist := EnableIPWhitelist D;
     EnablePathWhitelist := EnablePathWhitelist D |}.

(** The answer of the middleware to an address that is not listed. *)
Definition forbidden (c : Context) : Context :=
  set_responses
    (responses c ++
     [{| status := 403;
         body := [("code", Json.Int 403);
                  ("message", Json.Str "IP地址不在白名单中")] |}])
    (set_aborted true c).

End WhitelistGo.

(** ** middleware/error.go: [ErrorHandler] *)

Module ErrorGo.
Import Middleware.

(** [gin.ErrorType], a [uint64], and its values. *)
Definition ErrorType := Z.
Definition ErrorTypeBind : ErrorType := 2 ^ 63.
Definition ErrorTypeRender : ErrorType := 2 ^ 62.
Definition ErrorTypePrivate : ErrorType := 1.
Definition ErrorTypePublic : ErrorType := 2.
Definition ErrorTypeAny : ErrorType := 2 ^ 64 - 1.

(** [gin.Error]: the text of the wrapped error, [err.Error()], and the
    type. *)
Record GinError := {
  Err : string;
  Type_ : ErrorType
}.

(** [ErrorResponse] with its [Details] field, as the JSON object it is
    written as: [details] is left out when nothing was assigned to
    it. *)
Definition ErrorResponse_details (code : Z) (message error : string)
    (details : option (list string)) : list (string * Json.Value) :=
  ErrorResponse code message error ++
  match details with
  | Some lines => [("details", Json.Slice (Json.Str <$> lines))]
  | None => []
  end.

(** [c.Writer.Written()]: whether something was written to the
    response; in this model responses are written with [c.JSON]
    only. *)
Definition Written (c : Context) : bool := bool_decide (responses c <> []).

Section error_handler.

(** [gin.Mode()], the text of [debug.Stack()] at the recovery, and
    [c.Errors] as the handlers left it. *)
Variable mode : string.
Variable stack : string.
Variable Errors : Context -> list GinError.

(** The deferred function of [ErrorHandler], when [recover()] returns
    the value [err]; [errMsg] is [fmt.Sprintf("%v", err)]. *)
Definition recovered (errMsg : string) : stmt :=
  let stackLines := Strings.Split stack "010" in
  Printf ("Panic recovered: " +:+ errMsg +:+ String "010" "Stack trace:" +:+
          String "010" stack +:+ String "010" "") ;;
  let details :=
    if decide (mode = "debug") then
      Some (if (10 <? length stackLines)%nat then take 10 stackLines
            else stackLines)
    else None in
  AbortWithStatusJSON 500
    (ErrorResponse_details 500 "服务器内部错误" errMsg details).

(** Lines 59 to 108: the answer for the last error of [c.Errors]. *)
Definition answer_errors : stmt :=
  fun c =>
    match last (Errors c) with
    | None => skip c
    | Some err =>
        let '(statusCode, response) :=
          if decide (Type_ err = ErrorTypeBind) then
            (400, ErrorResponse 400 "请求参数错误" (Err err))
          else if decide (Type_ err = ErrorTypePrivate) then
            (400, ErrorResponse 400 (Err err) "")
          else if decide (Type_ err = ErrorTypePublic) then
            (500, ErrorResponse 500 (Err err) "")
          else
            (500, ErrorResponse 500 "服务器内部错误" (Err err)) in
        if negb (Written c) then JSON statusCode response c else skip c
    end.

(** [ErrorHandler()]: the deferred function recovers a panic of the
    rest of the chain; otherwise the errors are answered after
    [c.Next()] has returned. *)
Definition ErrorHandler : HandlerFunc :=
  fun next c =>
    match next c with
    | Panicked err c' => body_of (recovered err) c'
    | Done c' => body_of answer_errors c'
    end.

End error_handler.

(** A handler that answers with [ErrorWrapper] and returns, as the
    middlewares of the package do on a refusal. *)
Definition refuse (mode : string) (statusCode code : Z) (message : string)
    (err : option string) : HandlerFunc :=
  fun _ => body_of (ErrorWrapper mode statusCode code message err ;; return_).

End ErrorGo.

(** ** middleware/logger.go *)

Module LoggerGo.
Import Middleware Zapcore Log.
Local Open Scope go_scope.

(** What the middleware reads from gin once the rest of the chain has
    returned: [c.Writer.Status()], [c.ClientIP()], the texts
    [c.Errors.Errors()] and the path parameters [c.Params]. *)
Record Served := {
  Writer_Status : Z;
  ClientIP : string;
  Errors : list string;
  Params : list (string * string)
}.

(** [extractParams(c)], on [c.Params]. *)
Definition extractParams (params : list (string * string))
    : gmap string string :=
  foldl (fun m param => <[param.1 := param.2]> m) ∅ params.

Definition importantHeaders : list string :=
  ["Content-Type"; "Accept"; "Origin"; "Referer";
   "X-Forwarded-For"; "X-Real-IP"; "User-Agent"].

(** [extractHeaders(c)]. *)
Definition extractHeaders (c : Context) : gmap string string :=
  foldl (fun headers name =>
           let value := GetHeader c name in
           if decide (value <> "") then <[name := value]> headers
           else headers)
        ∅ importantHeaders.

(** The loop of lines 48 to 54 over the texts of the errors. *)
Definition collect_errors (errors : list string) : string :=
  foldl (fun errorMsg e =>
           let errorMsg :=
             if decide (errorMsg <> "") then errorMsg +:+ "; " else errorMsg in
           errorMsg +:+ e)
        "" errors.

(** [d.Microseconds()]. *)
Definition Microseconds (d : Time.Duration) : Z := Z.quot d 1000.

Section with_env.
Variable env : Env.

(** The statements of [Logger] after [c.Next()] has returned, as an
    action on the state of the package [utils].  [path] and [query] were
    read from the request before the chain ran, [latency] is
    [end.Sub(start)], [now] is the clock when the record is made, and
    [c] is the context as the chain left it.  The result is the record
    handed to [go utils.LogRequest]. *)
Definition Logger_after (path query : string) (latency : Time.Duration)
    (now : Time.Time) (c : Context) (served : Served)
    : M ReqLog.RequestLog :=
  let status := Writer_Status served in
  let clientIP := ClientIP served in
  let method := Method (request c) in
  let userAgent := GetHeader c "User-Agent" in
  let errorMsg := collect_errors (Errors served) in
  let msg := "[GIN] " +:+ Itoa.FormatInt status +:+ " " +:+ method +:+ " " +:+
             path in
  (if 500 <=? status then Error env msg
   else if 400 <=? status then Warn env msg
   else Info env msg) ;;
  ret {| ReqLog.Time := now;
         ReqLog.Method := method;
         ReqLog.Path := path;
         ReqLog.Query := query;
         ReqLog.Status := status;
         ReqLog.IP := clientIP;
         ReqLog.UserAgent := userAgent;
         ReqLog.LatencyMs :=
           PrimFloat.div (Int64.to_float (Microseconds latency)) 1000;
         ReqLog.RequestID := "";
         ReqLog.Error := errorMsg;
         ReqLog.Params := extractParams (Params served);
         ReqLog.Headers := extractHeaders c;
         ReqLog.ExtraInfo := ∅ |}.

End with_env.

(** The message of the record for a request. *)
Definition gin_message (status : Z) (method path : string) : string :=
  "[GIN] " +:+ Itoa.FormatInt status +:+ " " +:+ method +:+ " " +:+ path.

End LoggerGo.

(** ** models/user and service/user_service.go *)

Module UserGo.
Import Jwt Session Middleware.

(** [user.User], the entity. *)
Record User := {
  ID : Z;
  Username : string;
  Email : string;
  Password : string;
  Nickname : string;
  Avatar : string;
  Status : Z;
  CreatedAt : Time.Time;
  UpdatedAt : Time.Time;
  Deleted : bool
}.

(** The requests of the service, as far as it reads them. *)
Record RegisterRequest := {
  reg_Username : string;
  reg_Email : string;
  reg_Password : string;
  reg_Nickname : string
}.

Record LoginRequest := {
  login_Username : string;
  login_Password : string
}.

Record UpdateProfileRequest := {
  upd_Nickname : string;
  upd_Avatar : string
}.

Record ChangePasswordRequest := {
  OldPassword : string;
  NewPassword : string
}.

(** [repositories.UserRepository], the interface, over the state [R] of
    an implementation.  A user that is found is returned as a value of
    its own; [Create] and [Update] receive a pointer and return the user
    as they leave it; an error is its text. *)
Class UserRepository (R : Type) := {
  FindAll : R -> Z -> Z -> gmap string Json.Value ->
            list User * Z * option string;
  FindByID : R -> Z -> User + string;
  FindByUsername : R -> string -> User + string;
  FindByEmail : R -> string -> User + string;
  Create : R -> User -> R * User * option string;
  Update : R -> User -> R * User * option string;
  Delete : R -> Z -> R * option string
}.

(** [NullUserRepository], the implementation for a database that is
    not available. *)
Inductive NullUserRepository := Null.

#[global] Instance NullUserRepository_repo : UserRepository NullUserRepository := {|
  FindAll := fun _ _ _ _ => ([], 0, Some "MongoDB数据库不可用，无法查询用户");
  FindByID := fun _ _ => inr "MongoDB数据库不可用，无法查询用户";
  FindByUsername := fun _ _ => inr "MongoDB数据库不可用，无法查询用户";
  FindByEmail := fun _ _ => inr "MongoDB数据库不可用，无法查询用户";
  Create := fun r u => (r, u, Some "MongoDB数据库不可用，无法创建用户");
  Update := fun r u => (r, u, Some "MongoDB数据库不可用，无法更新用户");
  Delete := fun r _ => (r, Some "MongoDB数据库不可用，无法删除用户")
|}.

Section service.
Context {R : Type} `{UserRepository R}.

(** [middleware.HashPassword] and [middleware.CheckPasswordHash], of a
    file that is not among the sources, and the text of an error of the
    token package. *)
Variable HashPassword : string -> string + string.
Variable CheckPasswordHash : string -> string -> bool.
Variable lib : Codec.
Variable jwt_error_text : Jwt.Error -> string.

(** [s.cfg.JWT]. *)
Variable cfg : JWTConfig.

Definition nl : string := String "010" "".

(** [Register(req)]; [now1] and [now2] are the two readings of the
    clock. *)
Definition Register (now1 now2 : Time.Time) (req : RegisterRequest) (r : R)
    : R * (User + string) :=
  match FindByUsername r (reg_Username req) with
  | inl _ => (r, inr "用户名已被使用")
  | inr _ =>
      match FindByEmail r (reg_Email req) with
      | inl _ => (r, inr "邮箱已被使用")
      | inr _ =>
          match HashPassword (reg_Password req) with
          | inr err => (r, inr ("密码加密失败: " +:+ err))
          | inl hashedPassword =>
              let newUser := {|
                ID := 0;
                Username := reg_Username req;
                Email := reg_Email req;
                Password := hashedPassword;
                Nickname := reg_Nickname req;
                Avatar := "";
                Status := 1;
                CreatedAt := now1;
                UpdatedAt := now2;
                Deleted := false |} in
              let '(r', newUser, err) := Create r newUser in
              match err with
              | Some e => (r', inr ("创建用户失败: " +:+ e))
              | None => (r', inl newUser)
              end
          end
      end
  end.

(** [Login(req)]: what it prints to the standard output, and what it
    returns; [now_exp] and [now_iat] are the readings of the clock in
    [GenerateToken]. *)
Definition Login (now_exp now_iat : Time.Time) (req : LoginRequest) (r : R)
    : list string * (User * string + string) :=
  let out := ["尝试登录用户: " +:+ login_Username req +:+ nl] in
  match FindByUsername r (login_Username req) with
  | inr err =>
      (out ++ ["用户查找失败: " +:+ err +:+ nl], inr "用户名或密码错误")
  | inl u =>
      let out :=
        out ++ ["找到用户: " +:+ Username u +:+ ", ID: " +:+
                Itoa.FormatInt (ID u) +:+ ", 状态: " +:+
                Itoa.FormatInt (Status u) +:+ nl;
                "数据库密码: " +:+ Password u +:+ nl] in
      if decide (Status u <> 1) then
        (out ++ ["用户状态异常: " +:+ Itoa.FormatInt (Status u) +:+ nl],
         inr "用户已被禁用")
      else
        let passwordMatch := CheckPasswordHash (login_Password req) (Password u) in
        let '(passwordMatch, out) :=
          if negb passwordMatch && bool_decide (Password u = login_Password req)
          then (true,
                out ++ ["警告：使用明文密码匹配成功，应更新为哈希密码" +:+ nl])
          else (passwordMatch, out) in
        let out :=
          out ++ ["密码匹配结果: " +:+
                  (if passwordMatch then "true" else "false") +:+ nl] in
        if negb passwordMatch then (out, inr "用户名或密码错误")
        else
          match GenerateToken lib now_exp now_iat (ID u) (Secret cfg)
                              (JWTExpire cfg) with
          | inr err => (out, inr ("生成令牌失败: " +:+ jwt_error_text err))
          | inl token => (out, inl (u, token))
          end
  end.

(** [GetUserByID(id)]. *)
Definition GetUserByID (id : Z) (r : R) : User + string :=
  match FindByID r id with
  | inr _ => inr "用户不存在"
  | inl u => inl u
  end.

(** [GetUsers(page, pageSize, keyword, status)]. *)
Definition GetUsers (page pageSize : Z) (keyword : string) (status : Z) (r : R)
    : list User * Z * option string :=
  let page := if page <=? 0 then 1 else page in
  let pageSize := if pageSize <=? 0 then 10 else pageSize in
  let filter : gmap string Json.Value := ∅ in
  let filter :=
    if decide (status <> 0) then <["status" := Json.Int status]> filter
    else filter in
  let filter :=
    if decide (keyword <> "") then <["keyword" := Json.Str keyword]> filter
    else filter in
  FindAll r page pageSize filter.

(** [UpdateProfile(id, req)]. *)
Definition UpdateProfile (now : Time.Time) (id : Z) (req : UpdateProfileRequest)
    (r : R) : R * (User + string) :=
  match FindByID r id with
  | inr _ => (r, inr "用户不存在")
  | inl u =>
      let u := {|
        ID := ID u; Username := Username u; Email := Email u;
        Password := Password u;
        Nickname := if decide (upd_Nickname req <> "") then upd_Nickname req
                    else Nickname u;
        Avatar := if decide (upd_Avatar req <> "") then upd_Avatar req
                  else Avatar u;
        Status := Status u; CreatedAt := CreatedAt u;
        UpdatedAt := now; Deleted := Deleted u |} in
      let '(r', u, err) := Update r u in
      match err with
      | Some e => (r', inr ("更新用户资料失败: " +:+ e))
      | None => (r', inl u)
      end
  end.

(** [ChangePassword(id, req)]. *)
Definition ChangePassword (now : Time.Time) (id : Z)
    (req : ChangePasswordRequest) (r : R) : R * option string :=
  match FindByID r id with
  | inr _ => (r, Some "用户不存在")
  | inl u =>
      if negb (CheckPasswordHash (OldPassword req) (Password u)) then
        (r, Some "原密码错误")
      else
        match HashPassword (NewPassword req) with
        | inr err => (r, Some ("密码加密失败: " +:+ err))
        | inl hashedPassword =>
            let u := {|
              ID := ID u; Username := Username u; Email := Email u;
              Password := hashedPassword;
              Nickname := Nickname u; Avatar := Avatar u;
              Status := Status u; CreatedAt := CreatedAt u;
              UpdatedAt := now; Deleted := Deleted u |} in
            let '(r', _, err) := Update r u in
            match err with
            | Some e => (r', Some ("更新密码失败: " +:+ e))
            | None => (r', None)
            end
        end
  end.

(** [DeleteUser(id)]. *)
Definition DeleteUser (id : Z) (r : R) : R * option string :=
  let '(r', err) := Delete r id in
  match err with
  | Some e => (r', Some ("删除用户失败: " +:+ e))
  | None => (r', None)
  end.

End service.

End UserGo.

(** ** Data to run the code on *)

Section more_runs.
Import Zapcore Log Jwt Session Middleware UserGo.

(** A file system in which every directory can be created and every
    write succeeds, one in which [logs] cannot be created, and one in
    which no write succeeds. *)
Definition all_dirs : Env :=
  {| today := "2025-05-04";
     mkdir_err := fun _ => None;
     write_err := fun _ => None |}.

Definition no_logs_dir : Env :=
  {| today := "2025-05-04";
     mkdir_err := fun path =>
       if decide (path = "logs") then Some "permission denied" else None;
     write_err := fun _ => None |}.

(** The state after [InitLogger()] there, and its logger. *)
Definition up : World := world_of (InitLogger all_dirs initial).

Definition up_logger : Logger := default (New []) (logger up).

(** A recorder with its writer set, and one without, in the initial
    state. *)
Definition recording : World :=
  set_requestLogger
    (Some {| config := defaultLogConfig;
             writer := Some (writer_file all_dirs defaultLogConfig);
             locked := false |}) initial.

Definition not_recording_yet : World :=
  set_requestLogger (Some (fresh_recorder defaultLogConfig)) initial.

(** The default configuration with an empty directory. *)
Definition no_dir_config : LogConfig :=
  {| LogDir := ""; LogFileName := "app.log"; MaxSize := 100;
     MaxBackups := 10; MaxAge := 30; Compress := true;
     ConsoleOutput := true; RotateDaily := true |}.

(** A configuration of [main] that asks for another directory and
    file name, and for neither console output nor rotation. *)
Definition custom_logger : ConfigLogger :=
  {| cfg_Dir := "/var/log/app"; cfg_FileName := "server.log";
     cfg_MaxSize := 0; cfg_MaxBackups := 3; cfg_MaxAge := 7;
     cfg_Compress := false; cfg_ConsoleOutput := false;
     cfg_RotateDaily := false |}.

(** A session configuration, a request with an [OPTIONS] method, and
    handlers that return and that panic. *)
Definition hour_sessions : JWTConfig :=
  {| Secret := "secret"; JWTExpire := 3600 * Time.Second |}.

Definition options_request : Request :=
  {| Method := "OPTIONS"; URL_Path := "/api/v1/users"; Header := ∅;
     URL_Query := ∅; PostForm := ∅ |}.

Definition returns : Context -> result := Done.

Definition panics (v : string) : Context -> result := fun c => Panicked v c.

(** The request that carries what [GenerateAPIParams] returns for
    [foo=1] and [bar=2], with the maps traversed in the order of their
    lists of entries, checked ten seconds after the signing. *)
Definition api_params : gmap string string :=
  {[ "foo" := "1"; "bar" := "2" ]}.

Definition api_visit : list string :=
  (map_to_list (common_params 1700000000 "abc" "demo" api_params)).*1.

Definition api_request : Request :=
  demo_request
    (Utils.GenerateAPIParams api_visit (Itoa.FormatInt 1700000000) "abc"
                             "demo" "s3cr3t" api_params).

Definition api_env : SignatureEnv :=
  {| now := 1700000010; mode := "release";
     visitQuery := (map_to_list (URL_Query api_request)).*1;
     visitForm := [];
     visitAll := api_visit |}.

(** A repository to try the service on: the users are kept in a list,
    and every operation succeeds when the user is there. *)
Definition find_user (p : User -> bool) (users : list User) : User + string :=
  match find p users with
  | Some u => inl u
  | None => inr "用户不存在"
  end.

#[global] Instance list_repository : UserRepository (list User) := {|
  FindAll := fun users _ _ _ => (users, Z.of_nat (length users), None);
  FindByID := fun users id => find_user (fun u => bool_decide (ID u = id)) users;
  FindByUsername := fun users name =>
    find_user (fun u => bool_decide (Username u = name)) users;
  FindByEmail := fun users email =>
    find_user (fun u => bool_decide (Email u = email)) users;
  Create := fun users u => (users ++ [u], u, None);
  Update := fun users u =>
    (u :: filter (fun v => ID v <> ID u) users, u, None);
  Delete := fun users id => (filter (fun v => ID v <> id) users, None)
|}.

(** A user whose password is stored as a plain text, a hash check
    that never passes, and a hash function. *)
Definition alice : User :=
  {| ID := 7; Username := "alice"; Email := "alice@example.com";
     Password := "wonderland"; Nickname := "Alice"; Avatar := "";
     Status := 1; CreatedAt := half_past_ten; UpdatedAt := half_past_ten;
     Deleted := false |}.

Definition never_matches : string -> string -> bool := fun _ _ => false.

Definition always_matches : string -> string -> bool := fun _ _ => true.


End more_runs.
(* ===================================================================== *)
(** * Properties *)
(* ===================================================================== *)

(** ** MD5 test vectors (RFC 1321 and the scheme's own strings) *)

Example md5_empty :
  SignerSpec.digest "" = "d41d8cd98f00b204e9800998ecf8427e".
Proof. vm_compute. reflexivity. Qed.

Example md5_secret :
  SignerSpec.digest "app_secret=s3cr3t" = "b2c711f5c49e30b1c5b644799e5db23f".
Proof. vm_compute. reflexivity. Qed.

Example md5_two_blocks :
  SignerSpec.digest
    "aaaaaaaaaaaaaaaaaaaaaaaaaaaaaaaaaaaaaaaaaaaaaaaaaaaaaaaaaaaaaaaaaaaaaaaaaaaaaaaaaaaaaaaaaaaaaaaaaaaa"
  = "36a92cc94a9e0fa21f625f8bfb007adf".
Proof. vm_compute. reflexivity. Qed.

Example GenerateSignature_foo_bar :
  Utils.GenerateSignature ["foo"; "bar"] {[ "foo" := "1"; "bar" := "2" ]} "s3cr3t"
  = "aced630344313879122827e3b7946c0c".
Proof. vm_compute. reflexivity. Qed.

(** ** Strings, byte order and sorting *)

Section go_strings.
Import GoString.

Lemma str_app_cons a (s t : string) : String a s +:+ t = String a (s +:+ t).
Proof. reflexivity. Qed.

Lemma str_app_nil_l (s : string) : "" +:+ s = s.
Proof. reflexivity. Qed.

Lemma str_app_nil_r (s : string) : s +:+ "" = s.
Proof. induction s as [|a s IH]; [done|]. by rewrite str_app_cons, IH. Qed.

Lemma str_app_assoc (s t u : string) : (s +:+ t) +:+ u = s +:+ (t +:+ u).
Proof. induction s as [|a s IH]; [done|]. by rewrite !str_app_cons, IH. Qed.

Lemma bytes_app (s t : string) : bytes (s +:+ t) = bytes s ++ bytes t.
Proof.
  induction s as [|a s IH]; [done|]. rewrite str_app_cons. simpl. by rewrite IH.
Qed.

Lemma bytes_range (s : string) : Forall (fun x => 0 <= x < 256) (bytes s).
Proof.
  induction s as [|a s IH]; constructor; [|done].
  pose proof (N_ascii_bounded a). lia.
Qed.

Lemma of_bytes_bytes (s : string) : of_bytes (bytes s) = s.
Proof.
  induction s as [|a s IH]; [done|]. simpl. rewrite IH. f_equal.
  pose proof (N_ascii_bounded a).
  rewrite Z.mod_small by lia. by rewrite N2Z.id, ascii_N_embedding.
Qed.

Lemma bytes_inj (s t : string) : bytes s = bytes t -> s = t.
Proof. intros H. by rewrite <- (of_bytes_bytes s), H, of_bytes_bytes. Qed.

(** Go's string comparison is the order of the byte sequences. *)
Lemma compare_Lt_bytes_lt (s t : string) :
  String.compare s t = Lt <-> bytes_lt (bytes s) (bytes t).
Proof.
  revert t. induction s as [|a s IH]; intros [|b t]; simpl.
  - split; [done | inversion 1].
  - split; [constructor | done].
  - split; [done | inversion 1].
  - unfold Ascii.compare.
    destruct (N.compare_spec (N_of_ascii a) (N_of_ascii b)) as [He|Hl|Hg].
    + rewrite He, IH. split; [by constructor|].
      inversion 1; subst; [lia | done].
    + split; [intros _; constructor; lia | done].
    + split; [done|]. inversion 1; subst; [lia|].
      assert (N_of_ascii a = N_of_ascii b) by lia. lia.
Qed.

Lemma lt_bytes_lt (s t : string) : lt s t <-> bytes_lt (bytes s) (bytes t).
Proof.
  unfold lt, String.ltb. rewrite <- compare_Lt_bytes_lt.
  destruct (String.compare s t); naive_solver.
Qed.

Lemma le_ne_bytes_lt (s t : string) :
  String.le s t -> s <> t -> bytes_lt (bytes s) (bytes t).
Proof.
  unfold String.le, String.leb. intros Hle Hne.
  apply compare_Lt_bytes_lt.
  destruct (String.compare s t) eqn:E; [|done|done].
  by apply String.compare_eq_iff in E.
Qed.

Lemma bytes_lt_le (s t : string) :
  bytes_lt (bytes s) (bytes t) -> String.le s t.
Proof.
  intros H%compare_Lt_bytes_lt. unfold String.le, String.leb. by rewrite H.
Qed.

Lemma bytes_lt_irrefl (b : list Z) : ~ bytes_lt b b.
Proof. induction b; inversion 1; subst; [lia | auto]. Qed.

Lemma sort_Strings_Sorted (keys : list string) :
  Sorted String.le (sort_Strings keys).
Proof. apply (Sorted_merge_sort String.le). Qed.

Lemma sort_Strings_Permutation (keys : list string) :
  sort_Strings keys ≡ₚ keys.
Proof. apply merge_sort_Permutation. Qed.

(** The result of [sort.Strings] depends on the elements only, not on
    the order they came in. *)
Lemma sort_Strings_perm (k1 k2 : list string) :
  k1 ≡ₚ k2 -> sort_Strings k1 = sort_Strings k2.
Proof.
  intros Hp. apply (Sorted_unique String.le); try apply sort_Strings_Sorted.
  by rewrite !sort_Strings_Permutation.
Qed.

(** Without duplicates the sorted keys are strictly ascending by byte
    value. *)
Lemma Sorted_le_NoDup_ascending (ks : list string) :
  Sorted String.le ks -> NoDup ks -> SignerSpec.ascending ks.
Proof.
  intros Hs%(Sorted_StronglySorted String.le) Hnd.
  induction Hs as [|k ks Hs IH Hall]; [constructor|].
  apply NoDup_cons in Hnd as [Hk Hnd]. constructor; [by apply IH|].
  destruct ks as [|k' ks]; constructor.
  apply le_ne_bytes_lt.
  - by apply Forall_cons in Hall as [? _].
  - intros ->. apply Hk. by left.
Qed.

End go_strings.

(** ** The canonical signer: [GenerateSignature] *)

Section signer.
Import GoString GoMap Utils SignerSpec.

Lemma collect_keys (visit acc : list string) :
  foldl (fun keys k => keys ++ [k]) acc visit = acc ++ visit.
Proof.
  revert acc. induction visit as [|k visit IH]; intros acc; simpl.
  - by rewrite app_nil_r.
  - by rewrite IH, <- app_assoc.
Qed.

Lemma write_pairs (P : gmap string string) (ks : list string) (acc : string) :
  foldl (fun signStr k =>
           let signStr := WriteString signStr k in
           let signStr := WriteString signStr "=" in
           let signStr := WriteString signStr (index P k) in
           WriteString signStr "&") acc ks
  = acc +:+ pairs_block P ks.
Proof.
  revert acc. induction ks as [|k ks IH]; intros acc; simpl.
  - by rewrite str_app_nil_r.
  - rewrite IH. unfold WriteString. by rewrite !str_app_assoc.
Qed.

(** The signature is the digest of the block of the sorted keys followed
    by the secret term. *)
Lemma GenerateSignature_unfold visit (P : gmap string string) (S : string) :
  GenerateSignature visit P S
  = digest (pairs_block P (sort_Strings visit) +:+ "app_secret=" +:+ S).
Proof.
  unfold GenerateSignature, digest.
  rewrite collect_keys, write_pairs. simpl. unfold WriteString.
  by rewrite str_app_assoc.
Qed.

Lemma range_order_NoDup {V} (m : gmap string V) visit :
  range_order m visit -> NoDup visit.
Proof. intros ->. apply NoDup_fst_map_to_list. Qed.

Lemma range_order_elem {V} (m : gmap string V) visit k :
  range_order m visit -> k ∈ visit <-> is_Some (m !! k).
Proof.
  intros ->. rewrite list_elem_of_fmap. split.
  - intros [[k' v] [-> Hin]]. apply elem_of_map_to_list in Hin. by exists v.
  - intros [v Hv]. exists (k, v). split; [done|]. by apply elem_of_map_to_list.
Qed.

Lemma range_order_empty {V} visit : range_order (∅ : gmap string V) visit -> visit = [].
Proof.
  unfold range_order. rewrite map_to_list_empty. simpl.
  apply Permutation_nil_r.
Qed.

(** Two traversals of maps with the same keys sort to the same list. *)
Lemma sorted_keys_unique {V} (m1 m2 : gmap string V) v1 v2 :
  range_order m1 v1 -> range_order m2 v2 ->
  (forall k, is_Some (m1 !! k) <-> is_Some (m2 !! k)) ->
  sort_Strings v1 = sort_Strings v2.
Proof.
  intros H1 H2 Hdom. apply sort_Strings_perm.
  apply NoDup_Permutation; eauto using range_order_NoDup.
  intros k. by rewrite !range_order_elem by done.
Qed.

Lemma pairs_block_ext (P1 P2 : gmap string string) ks :
  (forall k, k ∈ ks -> P1 !! k = P2 !! k) ->
  pairs_block P1 ks = pairs_block P2 ks.
Proof.
  induction ks as [|k ks IH]; intros H; [done|]. simpl.
  unfold index. rewrite (H k) by left. rewrite IH; [done|].
  intros k' ?. apply H. by right.
Qed.

(** The signature depends on the contents of the map only. *)
Lemma GenerateSignature_ext (P1 P2 : gmap string string) v1 v2 S :
  range_order P1 v1 -> range_order P2 v2 ->
  (forall k, P1 !! k = P2 !! k) ->
  GenerateSignature v1 P1 S = GenerateSignature v2 P2 S.
Proof.
  intros H1 H2 Heq. rewrite !GenerateSignature_unfold.
  rewrite (sorted_keys_unique P1 P2 v1 v2) by (try done; intros k; by rewrite Heq).
  by rewrite (pairs_block_ext P1 P2).
Qed.

(** Strictly ascending keys are sorted by Go's order and pairwise
    distinct. *)
Lemma ascending_Sorted_le ks : ascending ks -> Sorted String.le ks.
Proof.
  induction 1 as [|k ks Hs IH Hhd]; constructor; [done|].
  destruct Hhd; constructor. by apply bytes_lt_le.
Qed.

Lemma ascending_NoDup ks : ascending ks -> NoDup ks.
Proof.
  intros Ha. pose proof (ascending_Sorted_le ks Ha) as Hle.
  apply (Sorted_StronglySorted String.le) in Hle.
  induction Hle as [|k ks Hs IH Hall]; [constructor|].
  apply Sorted_inv in Ha as [Ha Hhd]. constructor; [|by apply IH].
  intros Hin. destruct ks as [|k' ks]; [by apply elem_of_nil in Hin|].
  apply HdRel_inv in Hhd.
  assert (String.le k' k) as Hk'k.
  { apply elem_of_cons in Hin as [->|Hin]; [done|].
    apply StronglySorted_inv in Hs as [_ Hall'].
    eapply Forall_forall in Hall'; [|done]. done. }
  apply Forall_cons in Hall as [Hkk' _].
  assert (k = k') as <- by (by apply (anti_symm String.le)).
  by apply bytes_lt_irrefl in Hhd.
Qed.

Lemma signed_string_unique P S str1 str2 :
  signed_string P S str1 -> signed_string P S str2 -> str1 = str2.
Proof.
  intros (ks1 & Hd1 & Ha1 & ->) (ks2 & Hd2 & Ha2 & ->).
  assert (ks1 = ks2) as ->; [|done].
  apply (Sorted_unique String.le); auto using ascending_Sorted_le.
  apply NoDup_Permutation; auto using ascending_NoDup.
  intros k. by rewrite Hd1, Hd2.
Qed.

Lemma signed_string_sorted visit P S :
  range_order P visit ->
  signed_string P S (pairs_block P (sort_Strings visit) +:+ "app_secret=" +:+ S).
Proof.
  intros Hv. exists (sort_Strings visit). split_and!; [|  |done].
  - intros k. rewrite sort_Strings_Permutation. by apply range_order_elem.
  - apply Sorted_le_NoDup_ascending; [apply sort_Strings_Sorted|].
    rewrite sort_Strings_Permutation. by eapply range_order_NoDup.
Qed.

End signer.

Section signer_claims.
Import GoString GoMap Utils SignerSpec.

Lemma digit_hextable (x : Z) :
  Hex.digit x ∈ String.list_ascii_of_string Hex.hextable.
Proof.
  unfold Hex.digit. generalize (Z.to_nat x) as n. intros n.
  destruct (String.get n Hex.hextable) as [c|] eqn:E; [|simpl; by left].
  do 16 (destruct n as [|n];
         [vm_compute in E; injection E as <-; simpl; set_solver|]).
  discriminate E.
Qed.

(** Every character [hex.EncodeToString] writes is a decimal digit or a
    lowercase letter from [a] to [f], and there are two per byte. *)
Lemma EncodeToString_lowercase (src : list Z) :
  Forall (fun c => c ∈ String.list_ascii_of_string "0123456789abcdef")
         (String.list_ascii_of_string (Hex.EncodeToString src)) /\
  String.length (Hex.EncodeToString src) = (2 * length src)%nat.
Proof.
  induction src as [|v src [IH1 IH2]]; [by split|]. split.
  - simpl. apply Forall_cons; split; [apply digit_hextable|].
    apply Forall_cons; split; [apply digit_hextable | exact IH1].
  - simpl. rewrite IH2. lia.
Qed.

Lemma Sum_length (msg : list Z) : length (MD5.Sum msg) = 16%nat.
Proof. reflexivity. Qed.

(** C1.  For every parameter mapping [P], secret [S] and traversal order
    of the map, [GenerateSignature] returns the lowercase hexadecimal
    encoding of the MD5 digest of the bytes of the one string that the
    specification builds: the keys of [P] in ascending order of byte value,
    [k=v&] for each of them, the last one included, then [app_secret=]
    and [S].  For the empty mapping that string is [app_secret=] followed
    by [S].  The result has 32 characters, all among [0-9a-f]. *)
Theorem GenerateSignature_spec visit (P : gmap string string) (S : string) :
  range_order P visit ->
  (exists str,
      signed_string P S str /\
      (forall str', signed_string P S str' -> str' = str) /\
      GenerateSignature visit P S
      = Hex.EncodeToString (MD5.Sum (bytes str))) /\
  (P = ∅ ->
     signed_string P S ("app_secret=" +:+ S) /\
     GenerateSignature visit P S
     = Hex.EncodeToString (MD5.Sum (bytes ("app_secret=" +:+ S)))) /\
  String.length (GenerateSignature visit P S) = 32%nat /\
  Forall (fun c => c ∈ String.list_ascii_of_string "0123456789abcdef")
         (String.list_ascii_of_string (GenerateSignature visit P S)).
Proof.
  intros Hv. split_and!.
  - eexists. split_and!.
    + by apply signed_string_sorted.
    + intros str' H'. eapply signed_string_unique; [done|].
      by apply signed_string_sorted.
    + apply GenerateSignature_unfold.
  - intros ->. apply range_order_empty in Hv as ->. split; [|done].
    exists []. split_and!; [|constructor|done].
    intros k. rewrite lookup_empty, elem_of_nil. split; [done|].
    by intros [? ?].
  - unfold GenerateSignature.
    by rewrite (proj2 (EncodeToString_lowercase _)), Sum_length.
  - unfold GenerateSignature. apply EncodeToString_lowercase.
Qed.

Lemma GenerateSignature_spec_witness :
  range_order ({[ "foo" := "1"; "bar" := "2" ]} : gmap string string)
              ["foo"; "bar"] /\
  exists str,
    signed_string {[ "foo" := "1"; "bar" := "2" ]} "s3cr3t" str /\
    GenerateSignature ["foo"; "bar"] {[ "foo" := "1"; "bar" := "2" ]} "s3cr3t"
    = Hex.EncodeToString (MD5.Sum (bytes str)).
Proof.
  assert (range_order ({[ "foo" := "1"; "bar" := "2" ]} : gmap string string)
                      ["foo"; "bar"]) as Hv.
  { unfold range_order. vm_compute. reflexivity. }
  split; [exact Hv|].
  destruct (GenerateSignature_spec _ _ "s3cr3t" Hv) as [(str & Hs & _ & He) _].
  exists str. by split.
Defined.

Lemma assign_all_list_to_map (kvs : list (string * string)) :
  assign_all kvs = list_to_map (reverse kvs).
Proof.
  unfold assign_all, list_to_map. generalize (∅ : gmap string string) as m.
  induction kvs as [|kv kvs IH]; intros m; [done|].
  simpl. by rewrite IH, reverse_cons, foldr_app.
Qed.

Lemma assign_all_perm (kvs1 kvs2 : list (string * string)) :
  NoDup kvs1.*1 -> kvs1 ≡ₚ kvs2 -> assign_all kvs1 = assign_all kvs2.
Proof.
  intros Hnd Hp. rewrite !assign_all_list_to_map.
  apply list_to_map_proper.
  - by rewrite reverse_Permutation.
  - by rewrite !reverse_Permutation.
Qed.

(** C7.  Two parameter mappings built from the same key-value pairs,
    assigned in different orders, and traversed in whatever order the
    runtime picks for each, have the same signature under every secret. *)
Theorem GenerateSignature_order_independent
    (kvs1 kvs2 : list (string * string)) (v1 v2 : list string) (S : string) :
  NoDup kvs1.*1 -> kvs1 ≡ₚ kvs2 ->
  range_order (assign_all kvs1) v1 -> range_order (assign_all kvs2) v2 ->
  GenerateSignature v1 (assign_all kvs1) S
  = GenerateSignature v2 (assign_all kvs2) S.
Proof.
  intros Hnd Hp H1 H2. apply GenerateSignature_ext; [done..|].
  intros k. by rewrite (assign_all_perm kvs1 kvs2).
Qed.

End signer_claims.

(** ** The replay guard: the freshness test of [Signature] *)

Section replay_guard.
Import Middleware GuardSpec.

Lemma wrap_in_range (z : Z) : Int64.in_range (Int64.wrap z).
Proof.
  unfold Int64.in_range, Int64.wrap, Int64.min_int, Int64.max_int.
  pose proof (Z.mod_pos_bound (z + 2 ^ 63) (2 ^ 64) ltac:(lia)). lia.
Qed.

Lemma wrap_id (z : Z) : Int64.in_range z -> Int64.wrap z = z.
Proof.
  unfold Int64.in_range, Int64.wrap, Int64.min_int, Int64.max_int.
  intros H. rewrite Z.mod_small by lia. lia.
Qed.

(** The test is the comparison of the wrapped difference with the
    window. *)
Lemma isFresh_wrap (t now : Z) (w : Time.Duration) :
  isFresh t now w = true <-> Int64.wrap (now - t) <= window_seconds w.
Proof.
  unfold isFresh, expired, window_seconds, Int64.sub.
  rewrite negb_true_iff, Z.gtb_ltb, Z.ltb_ge. reflexivity.
Qed.

Example window_300s : window_seconds (300 * Time.Second) = 300.
Proof. vm_compute. reflexivity. Qed.

Example window_fraction : window_seconds 1500000000 = 1.
Proof. vm_compute. reflexivity. Qed.

(** The test of line 65, one of the statements behind the early return
    of [Signature]: for all [int64] timestamps [t], clock readings [now]
    and windows [w], it passes exactly when the difference [now - t],
    computed in [int64] with wrap-around, is at most the window in
    seconds.  Whenever [now - t] is representable in [int64] that is
    [now - t <= w]. *)
Lemma isFresh_line_65 (t now : Z) (w : Time.Duration) :
  Int64.in_range t -> Int64.in_range now ->
  (isFresh t now w = true <-> Int64.wrap (now - t) <= window_seconds w) /\
  (Int64.in_range (now - t) ->
     (isFresh t now w = true <-> now - t <= window_seconds w) /\
     (now - t > window_seconds w -> isFresh t now w = false) /\
     (0 <= window_seconds w -> now - t < 0 -> isFresh t now w = true)) /\
  (0 <= now -> now < t -> Int64.in_range (now - t)).
Proof.
  intros Ht Hnow. split_and!.
  - apply isFresh_wrap.
  - intros Hd. pose proof (isFresh_wrap t now w) as H.
    rewrite (wrap_id _ Hd) in H. split_and!.
    + exact H.
    + intros Hgt. apply not_true_iff_false. intros Hf. apply H in Hf. lia.
    + intros Hw Hneg. apply H. lia.
  - unfold Int64.in_range, Int64.min_int, Int64.max_int in *. lia.
Qed.

(** The subtraction of line 65 wraps: the oldest [int64] timestamp
    passes the test one second after the epoch, although it is
    [2^63 + 1] seconds old and the window is 300 seconds. *)
Example isFresh_overflow :
  Int64.in_range (- 2 ^ 63) /\ Int64.in_range 1 /\
  1 - (- 2 ^ 63) > window_seconds (300 * Time.Second) /\
  isFresh (- 2 ^ 63) 1 (300 * Time.Second) = true.
Proof. vm_compute. repeat split; discriminate. Qed.

End replay_guard.

(** ** The comparison of [Signature] against [GenerateSignature] *)

Section verification.
Import GoString GoMap Utils Middleware GuardSpec.

(** The inline computation of the middleware is the one of
    [GenerateSignature]. *)
Lemma calculatedSign_GenerateSignature visit (P : gmap string string) S :
  calculatedSign visit P S = GenerateSignature visit P S.
Proof. reflexivity. Qed.

(** A loop over values that all have a first element copies the first
    value of every key it visits, [sign] excepted. *)
Lemma copy_params_lookup visit (values : Http.Values) (acc : gmap string string) :
  (forall k, k ∈ visit -> exists v vs, values !! k = Some (v :: vs)) ->
  exists m, copy_params visit values acc = inl m /\
            forall k, m !! k =
                      if decide (k ∈ visit /\ k <> "sign")
                      then values !! k ≫= head else acc !! k.
Proof.
  revert acc. induction visit as [|key visit IH]; intros acc Hv.
  - exists acc. split; [done|]. intros k. case_decide as H; [|done].
    destruct H as [H _]. by apply elem_of_nil in H.
  - assert (forall k, k ∈ visit -> exists v vs, values !! k = Some (v :: vs))
      as Hv' by (intros k Hk; apply Hv; by right).
    simpl. case_decide as Hkey.
    + destruct (Hv key) as (v & vs & Hval); [by left|]. rewrite Hval.
      destruct (IH (<[key := v]> acc) Hv') as (m & -> & Hm).
      exists m. split; [done|]. intros k. rewrite Hm.
      destruct (decide (k = key)) as [->|Hne].
      * rewrite lookup_insert_eq, Hval.
        rewrite (decide_True (P := key ∈ key :: visit /\ _)) by (split; [by left|done]).
        by case_decide.
      * rewrite lookup_insert_ne by done.
        destruct (decide (k ∈ visit /\ k <> "sign")) as [[Hin Hs]|Hn].
        -- by rewrite decide_True by (split; [by right|done]).
        -- rewrite decide_False; [done|]. intros [Hin Hs]. apply Hn.
           split; [|done]. by apply elem_of_cons in Hin as [?|?].
    + assert (key = "sign") as ->.
      { destruct (decide (key = "sign")); [done|]. by exfalso. }
      destruct (IH acc Hv') as (m & -> & Hm).
      exists m. split; [done|]. intros k. rewrite Hm.
      destruct (decide (k ∈ visit /\ k <> "sign")) as [[Hin Hs]|Hn].
      * by rewrite decide_True by (split; [by right|done]).
      * rewrite decide_False; [done|]. intros [Hin Hs]. apply Hn.
        split; [|done]. by apply elem_of_cons in Hin as [?|?].
Qed.

Lemma signed_query_lookup (P : gmap string string) σ k :
  signed_query P σ !! k = (fun v => [v]) <$> (<["sign" := σ]> P !! k).
Proof. unfold signed_query. by rewrite lookup_fmap. Qed.

(** The merged parameters of such a request are its parameters without
    the [sign] field. *)
Lemma collect_params_signed_query env (P : gmap string string) σ :
  env_ranges env P σ ->
  collect_params env (signed_query P σ) ∅ = inl (delete "sign" P).
Proof.
  intros (Hq & Hf & _). unfold collect_params.
  destruct (copy_params_lookup (visitQuery env) (signed_query P σ) ∅)
    as (m & -> & Hm).
  { intros k Hk. apply (range_order_elem _ _ k Hq) in Hk as [vs Hvs].
    rewrite signed_query_lookup in Hvs.
    destruct (<["sign":=σ]> P !! k) as [v|] eqn:E; [|done].
    exists v, []. by rewrite signed_query_lookup, E. }
  apply range_order_empty in Hf as ->. simpl. f_equal.
  apply map_eq. intros k. rewrite Hm. case_decide as Hk.
  - destruct Hk as [_ Hne]. rewrite signed_query_lookup.
    rewrite lookup_insert_ne, lookup_delete_ne by done.
    by destruct (P !! k).
  - rewrite lookup_empty. symmetry.
    destruct (decide (k = "sign")) as [->|Hne]; [by rewrite lookup_delete_eq|].
    rewrite lookup_delete_ne by done.
    destruct (P !! k) as [v|] eqn:E; [|done]. exfalso. apply Hk. split; [|done].
    apply (range_order_elem _ _ k Hq). rewrite signed_query_lookup.
    rewrite lookup_insert_ne, E by done. by eexists.
Qed.

Lemma first_value_sign (P : gmap string string) σ :
  first_value (signed_query P σ) "sign" = Some σ.
Proof.
  unfold first_value. by rewrite signed_query_lookup, lookup_insert_eq.
Qed.

(** The verification compares the signature of the parameters without
    [sign] with the signature the request carries. *)
Lemma verify_unfold env (P : gmap string string) σ S :
  env_ranges env P σ ->
  verify env P σ S
  = bool_decide (GenerateSignature (visitAll env) (delete "sign" P) S = σ).
Proof.
  intros Hr. unfold verify.
  rewrite (collect_params_signed_query env P σ Hr), first_value_sign.
  simpl. rewrite calculatedSign_GenerateSignature.
  repeat case_bool_decide; naive_solver.
Qed.

(** The comparison of lines 70 to 114, statements behind the early
    return of [Signature]: for every parameter mapping [P] without a
    [sign] field, every secret [S] and whatever orders the maps are
    traversed in, it passes for a request that carries [P] and the
    signature of [P] under [S]. *)
Lemma verify_sign_unreachable (env : SignatureEnv) (P : gmap string string)
    (S : string) (visit : list string) :
  P !! "sign" = None ->
  range_order P visit ->
  env_ranges env P (GenerateSignature visit P S) ->
  verify env P (GenerateSignature visit P S) S = true.
Proof.
  intros Hs Hv Hr. rewrite (verify_unfold env P _ S Hr).
  apply bool_decide_eq_true. destruct Hr as (_ & _ & Ha).
  apply GenerateSignature_ext; [done..|].
  intros k. by rewrite delete_id.
Qed.

(** For a mapping that has a [sign] field of its own it does not:
    [GenerateSignature] signs the field, lines 76 to 85 leave it out. *)
Example verify_own_sign_field :
  let P : gmap string string := {[ "sign" := "x" ]} in
  let env := {| now := 0; mode := "debug"; visitQuery := ["sign"];
                visitForm := []; visitAll := [] |} in
  range_order P ["sign"] /\
  env_ranges env P (GenerateSignature ["sign"] P "s3cr3t") /\
  verify env P (GenerateSignature ["sign"] P "s3cr3t") "s3cr3t" = false.
Proof.
  split_and!.
  - unfold range_order. vm_compute. reflexivity.
  - unfold env_ranges, range_order. vm_compute. split_and!; reflexivity.
  - vm_compute. reflexivity.
Qed.

End verification.

(** ** The request pipeline: [Signature] in front of the handler *)

Section pipeline.
Import GoString GoMap Utils Middleware GuardSpec.

(** The middleware hands every request to the rest of the chain and
    returns: nothing after the first two statements of its body runs. *)
Lemma Signature_passes_on config env (next : Context -> result) (c : Context) :
  Signature config env next c = next c.
Proof. unfold Signature, body_of, seq, call, return_. by destruct (next c). Qed.

(** With [Signature] in front of it, the business handler runs once for
    every request, and the middleware writes no response of its own. *)
Lemma Signature_never_rejects config env (f : Context -> Context) (r : Request) :
  exists c,
    Next [Signature config env; business f] (new_context r) = Done c /\
    handled c = 1%nat /\
    responses c = responses (f (new_context r)) /\
    aborted c = aborted (f (new_context r)).
Proof.
  simpl. rewrite Signature_passes_on. simpl.
  destruct (aborted (f (new_context r))); simpl; eexists; (split; [reflexivity|done]).
Qed.

Example demo_signed_sign :
  demo_signed !! "sign" = Some "3f18b10afe4105e0ea8fb149c8181833".
Proof. vm_compute. reflexivity. Qed.

(** C2 on the code: the tampered request is not rejected.  The pipeline
    runs the business handler and no response with an error is written. *)
Theorem Signature_tampered_request_handled :
  exists c,
    Next [Signature demo_config demo_pipeline_env; business id]
         (new_context tampered_request) = Done c /\
    handled c = 1%nat /\ responses c = [] /\ aborted c = false.
Proof.
  destruct (Signature_never_rejects demo_config demo_pipeline_env id
                                    tampered_request) as (c & Hc & Hh & Hr & Ha).
  exists c. by split_and!.
Qed.


(** C5 on the code: a request whose timestamp is too old is not
    rejected.  For every configuration, clock and request whose query
    binds to parameters with a timestamp more than the window before the
    clock, the pipeline runs the business handler, and no response with
    an expiry error, or any other, is written. *)
Theorem Signature_stale_request_handled config env (r : Request)
    (params : SignatureParams) :
  ShouldBindQuery (URL_Query r) = inl params ->
  now env - p_Timestamp params > window_seconds (Expire config) ->
  exists c,
    Next [Signature config env; business id] (new_context r) = Done c /\
    handled c = 1%nat /\ responses c = [] /\ aborted c = false.
Proof.
  intros _ _.
  destruct (Signature_never_rejects config env id r) as (c & Hc & Hh & Hr & Ha).
  exists c. by split_and!.
Qed.

Lemma Signature_stale_request_handled_witness :
  ShouldBindQuery (URL_Query (demo_request demo_signed))
  = inl {| p_AppKey := "demo"; p_Timestamp := 1700000000; p_Nonce := "abc";
           p_Sign := "3f18b10afe4105e0ea8fb149c8181833" |} /\
  now stale_env - 1700000000 > window_seconds (Expire demo_config) /\
  exists c,
    Next [Signature demo_config stale_env; business id]
         (new_context (demo_request demo_signed)) = Done c /\
    handled c = 1%nat /\ responses c = [] /\ aborted c = false.
Proof.
  assert (ShouldBindQuery (URL_Query (demo_request demo_signed))
          = inl {| p_AppKey := "demo"; p_Timestamp := 1700000000;
                   p_Nonce := "abc";
                   p_Sign := "3f18b10afe4105e0ea8fb149c8181833" |}) as Hb
    by (vm_compute; reflexivity).
  assert (now stale_env - 1700000000 > window_seconds (Expire demo_config))
    as Hs by (vm_compute; reflexivity).
  split_and!; [exact Hb|exact Hs|].
  exact (Signature_stale_request_handled demo_config stale_env
           (demo_request demo_signed) _ Hb Hs).
Defined.

(** The statements behind the early return do what the specification
    says: on
    the tampered request they answer 400 and do not run the handler; on
    the request as it was signed they run it. *)
Lemma Signature_checks_reject_tampered :
  exists c,
    body_of (Signature_checks demo_config demo_pipeline_env
                              (Next [business id]))
            (new_context tampered_request) = Done c /\
    handled c = 0%nat /\ aborted c = true /\
    responses c = [{| status := 400;
                      body := ErrorResponse 400 "签名验证失败" "" |}].
Proof. eexists. split; [vm_compute; reflexivity|]. by vm_compute. Qed.

Lemma Signature_checks_accept_signed :
  exists c,
    body_of (Signature_checks demo_config demo_pipeline_env
                              (Next [business id]))
            (new_context (demo_request demo_signed)) = Done c /\
    handled c = 1%nat /\ aborted c = false /\ responses c = [].
Proof. eexists. split; [vm_compute; reflexivity|]. by vm_compute. Qed.

(** On the request as it was signed, checked a thousand million seconds
    later, they answer 400 with the expiry error and do not run the
    handler. *)
Lemma Signature_checks_reject_stale :
  exists c,
    body_of (Signature_checks demo_config stale_env (Next [business id]))
            (new_context (demo_request demo_signed)) = Done c /\
    handled c = 0%nat /\ aborted c = true /\
    responses c = [{| status := 400;
                      body := ErrorResponse 400 "签名已过期" "" |}].
Proof. eexists. split; [vm_compute; reflexivity|]. by vm_compute. Qed.

(** *** What the unreachable statements decide, for every request *)

Ltac run_checks Hm Hh Hb Hk :=
  unfold Signature_checks, body_of, seq, Printf, exec; cbn beta;
  rewrite decide_False by exact Hm; cbn [skip];
  cbn [request set_stdout]; rewrite Hh; rewrite decide_True by done;
  rewrite Hb; rewrite decide_False by (intros Hn; apply Hn; exact Hk).

(** A timestamp that is not fresh is answered with the expiry error, and
    the rest of the chain does not run. *)
Lemma Signature_checks_expired config env next (c : Context) params :
  checked config c params ->
  isFresh (p_Timestamp params) (now env) (Expire config) = false ->
  exists c', body_of (Signature_checks config env next) c = Done c' /\
             rejected_with "签名已过期" c c'.
Proof.
  intros (Hm & Hh & Hb & Hk) Hf. unfold isFresh in Hf.
  apply negb_false_iff in Hf.
  run_checks Hm Hh Hb Hk. rewrite Hf.
  eexists. split; [reflexivity|]. by repeat split.
Qed.

(** With a fresh timestamp, a signature other than the one computed
    from the merged parameters is answered with the signature error, and
    the rest of the chain does not run. *)
Lemma Signature_checks_bad_signature config env next (c : Context) params allParams :
  checked config c params ->
  isFresh (p_Timestamp params) (now env) (Expire config) = true ->
  collect_params env (URL_Query (request c)) (PostForm (request c)) = inl allParams ->
  calculatedSign (visitAll env) allParams (AppSecret config) <> p_Sign params ->
  exists c', body_of (Signature_checks config env next) c = Done c' /\
             rejected_with "签名验证失败" c c'.
Proof.
  intros (Hm & Hh & Hb & Hk) Hf Hc Hne. unfold isFresh in Hf.
  apply negb_true_iff in Hf.
  run_checks Hm Hh Hb Hk. rewrite Hf. cbn [request set_stdout].
  rewrite Hc. rewrite decide_True by exact Hne.
  eexists. split; [reflexivity|]. by repeat split.
Qed.

(** With a fresh timestamp and the computed signature, the parameters
    are stored in the context and the rest of the chain runs. *)
Lemma Signature_checks_accept config env next (c : Context) params allParams :
  checked config c params ->
  isFresh (p_Timestamp params) (now env) (Expire config) = true ->
  collect_params env (URL_Query (request c)) (PostForm (request c)) = inl allParams ->
  calculatedSign (visitAll env) allParams (AppSecret config) = p_Sign params ->
  exists c0,
    Keys c0 = <["signatureParams" := AnySignatureParams params]> (Keys c) /\
    responses c0 = responses c /\ aborted c0 = aborted c /\
    body_of (Signature_checks config env next) c = next c0.
Proof.
  intros (Hm & Hh & Hb & Hk) Hf Hc He. unfold isFresh in Hf.
  apply negb_true_iff in Hf.
  run_checks Hm Hh Hb Hk. rewrite Hf. cbn [request set_stdout].
  rewrite Hc. rewrite decide_False by (intros Hn; by apply Hn).
  unfold Context_Set, exec, call.
  match goal with |- context [next ?x] => exists x end.
  split_and!; [reflexivity..|]. by destruct (next _).
Qed.

End pipeline.

(** ** Session tokens: [GenerateToken] and [ParseToken] *)

Section session_tokens.
Import Jwt Session.

(** A dot after a piece without dots ends the first piece of a split. *)
Lemma Split_dot (a rest : string) :
  Strings.Split a "." = [a] ->
  Strings.Split (a +:+ "." +:+ rest) "." = a :: Strings.Split rest ".".
Proof.
  induction a as [|c a IH]; intros Ha; [done|].
  rewrite str_app_cons. simpl in *.
  destruct (Ascii.eqb c ".") eqn:Ec; [done|].
  destruct (Strings.Split a ".") as [|p ps] eqn:Es.
  - by destruct a.
  - injection Ha as -> ->. by rewrite IH.
Qed.

Lemma instant_Add (t : Time.Time) (d : Time.Duration) :
  instant (Time.Add t d) = instant t + d /\ normal (Time.Add t d).
Proof.
  unfold instant, normal, Time.Add, Time.Second. simpl.
  pose proof (Z.div_mod (Time.unix t * 1000000000 + Time.nsec t + d)
                        1000000000 ltac:(lia)).
  pose proof (Z.mod_pos_bound (Time.unix t * 1000000000 + Time.nsec t + d)
                              1000000000 ltac:(lia)).
  lia.
Qed.

(** A time is before a time of expiry, cut to the whole second, exactly
    when the second after the whole second of the first is not after the
    instant of expiry. *)
Lemma Before_truncated_Add (now t : Time.Time) (d : Time.Duration) :
  normal now ->
  Time.Before now (NewNumericDate (Time.Add t d)) = true
  <-> instant now - Time.nsec now + Time.Second <= instant t + d.
Proof.
  unfold normal, instant, Time.Before, NewNumericDate, Time.Truncate_Second,
    Time.Add, Time.Second. simpl. intros Hn.
  rewrite orb_true_iff, andb_true_iff, Z.ltb_lt, Z.eqb_eq, Z.ltb_lt.
  set (q := (Time.unix t * 1000000000 + Time.nsec t + d) / 1000000000).
  pose proof (Z.div_mod (Time.unix t * 1000000000 + Time.nsec t + d)
                        1000000000 ltac:(lia)) as Hd.
  pose proof (Z.mod_pos_bound (Time.unix t * 1000000000 + Time.nsec t + d)
                              1000000000 ltac:(lia)) as Hm.
  fold q in Hd.
  split; [intros [H|[_ H]]; lia | intros H; left; nia].
Qed.

Section with_codec.
Variable lib : Codec.
Hypothesis lib_ok : Codec_ok lib.

(** The validator looks at the instants of the dates only. *)
Lemma Validate_same_claims now (c c' : Claims) :
  same_claims c c' -> Validate now (Registered c') = Validate now (Registered c).
Proof.
  intros (_ & He & Hn & _). unfold Validate.
  destruct (ExpiresAt (Registered c)) as [e|], (ExpiresAt (Registered c')) as [e'|];
    try done;
    destruct (NotBefore (Registered c)) as [n|], (NotBefore (Registered c')) as [n'|];
    try done; simpl in *; unfold Time.Before;
    repeat match goal with H : _ /\ _ |- _ => destruct H as [-> ->] end; done.
Qed.

(** [GenerateToken] never fails, and [ParseWithClaims] finds in the token
    it returns the claims that went into it; the verdict is the one of the
    validator on them. *)
Lemma ParseWithClaims_GenerateToken now_exp now_iat now userID secret expire :
  exists token claims header sig,
    GenerateToken lib now_exp now_iat userID secret expire = inl token /\
    same_claims (issued_claims now_exp now_iat userID expire) claims /\
    ParseWithClaims lib now token secret
    = match Validate now (Registered (issued_claims now_exp now_iat userID expire)) with
      | [] => inl {| Raw := token;
                     Method := Some SigningMethodHS256;
                     Header := header;
                     TokenClaims := claims;
                     Signature := sig;
                     Valid := true |}
      | errs => inr (ErrTokenInvalidClaims errs)
      end.
Proof.
  destruct lib_ok as [Hde Hnd (h & Hh & Halg) Hc].
  destruct (Hc userID (NewNumericDate (Time.Add now_exp expire))
               (NewNumericDate now_iat)) as (claims & Hcl & Hsame); [done..|].
  eexists. exists claims, h. eexists. split; [reflexivity|]. split; [exact Hsame|].
  unfold issued_claims in Hsame |- *.
  rewrite <- (Validate_same_claims now _ _ Hsame).
  unfold user_token_claims in Hcl.
  unfold ParseWithClaims, SigningString. simpl.
  rewrite !str_app_assoc, Split_dot by apply Hnd.
  rewrite Split_dot by apply Hnd. rewrite Hnd.
  rewrite !Hde. simpl. rewrite Hh, Hcl, Halg.
  change (GetSigningMethod "HS256") with (Some SigningMethodHS256).
  simpl. rewrite decide_True by done. reflexivity.
Qed.

(** C6, as the code has it.  For every subject [userID], secret and
    time to live [expire] of at least one second: a token issued at the
    time [issued] and verified with the same secret [elapsed] later, where
    [elapsed] is zero (at once) or more and at most the time to live less
    a second, is accepted, and the claims returned carry [userID]. *)
Theorem ParseToken_GenerateToken issued now_iat elapsed userID secret expire :
  0 <= elapsed <= expire - Time.Second ->
  exists token claims,
    GenerateToken lib issued now_iat userID secret expire = inl token /\
    ParseToken lib (Time.Add issued elapsed) token secret = inl claims /\
    UserID claims = userID.
Proof.
  intros He.
  destruct (ParseWithClaims_GenerateToken issued now_iat (Time.Add issued elapsed)
              userID secret expire) as (token & claims & h & sig & Hg & Hsame & Hp).
  exists token, claims.
  split; [exact Hg|]. split; [|symmetry; apply Hsame].
  unfold Validate in Hp. simpl in Hp.
  destruct (instant_Add issued elapsed) as [Hi Hna].
  assert (Time.Before (Time.Add issued elapsed)
                      (NewNumericDate (Time.Add issued expire)) = true) as Hb.
  { apply Before_truncated_Add; [done|]. rewrite Hi.
    unfold normal in Hna. lia. }
  rewrite Hb in Hp. unfold ParseToken. by rewrite Hp.
Qed.

(** A token whose time of expiry, cut to the whole second, is not
    after the time of verification is refused as expired. *)
Lemma ParseToken_expired now_exp now_iat now userID secret expire :
  Time.Before now (NewNumericDate (Time.Add now_exp expire)) = false ->
  exists token,
    GenerateToken lib now_exp now_iat userID secret expire = inl token /\
    ParseToken lib now token secret
    = inr (JwtError (ErrTokenInvalidClaims [ErrTokenExpired])).
Proof.
  intros Hb.
  destruct (ParseWithClaims_GenerateToken now_exp now_iat now userID secret expire)
    as (token & claims & h & sig & Hg & _ & Hp).
  exists token. split; [exact Hg|].
  unfold Validate in Hp. simpl in Hp. rewrite Hb in Hp.
  unfold ParseToken. by rewrite Hp.
Qed.

End with_codec.

End session_tokens.

(** ** A codec that meets [Codec_ok] *)

(** Decimal digits have no dot, and reading them back undoes the
    writing. *)
Section digits_codec.
Import Jwt Session.

Lemma of_digits_of `{Countable A} (a : A) : of_digits (digits_of a) = Some a.
Proof.
  unfold of_digits, digits_of.
  rewrite NilEmpty.usu, Unsigned.of_to. apply decode_encode.
Qed.

Lemma string_of_uint_no_dot (u : Decimal.uint) :
  Strings.Split (NilEmpty.string_of_uint u) "."
  = [NilEmpty.string_of_uint u].
Proof. induction u; simpl; [done|by rewrite IHu..]. Qed.

Lemma digits_codec_ok : Codec_ok digits_codec.
Proof.
  split; simpl.
  - intros s. apply of_digits_of.
  - intros s. apply string_of_uint_no_dot.
  - exists (new_header "HS256"). split; [apply of_digits_of|done].
  - intros userID exp iat _ _. eexists. split; [apply of_digits_of|].
    by repeat split.
Qed.

Lemma ParseToken_GenerateToken_witness :
  exists token claims,
    GenerateToken digits_codec half_past_ten half_past_ten 7 "secret"
                  (3600 * Time.Second) = inl token /\
    ParseToken digits_codec (Time.Add half_past_ten 0) token "secret"
    = inl claims /\
    UserID claims = 7.
Proof.
  apply (ParseToken_GenerateToken digits_codec digits_codec_ok
           half_past_ten half_past_ten 0 7 "secret" (3600 * Time.Second));
    vm_compute; try split; congruence.
Defined.

(** The property as the specification words it fails for a time to live below a second:
    a token issued at half past the tenth second to live a nanosecond
    expires at the tenth second, and verifying it at once returns the
    error for an expired token. *)
Lemma ParseToken_GenerateToken_counterexample :
  0 < 1 /\
  exists token,
    GenerateToken digits_codec half_past_ten half_past_ten 7 "secret" 1
    = inl token /\
    ParseToken digits_codec half_past_ten token "secret"
    = inr (JwtError (ErrTokenInvalidClaims [ErrTokenExpired])).
Proof.
  split; [lia|].
  apply (ParseToken_expired digits_codec digits_codec_ok). reflexivity.
Qed.

End digits_codec.

(** ** The session check: [JWTAuth] in front of the handler *)

Section session_check.
Import Jwt Session Middleware.

Variable lib : Codec.
Variable error_text : ParseError -> string.

(** The middleware stores the user identifier 1, hands every request to
    the rest of the chain and returns: the header is never read. *)
Lemma JWTAuth_passes_on cfg now (next : Context -> result) (c : Context) :
  JWTAuth lib error_text cfg now next c
  = next (set_Keys (<["userID" := AnyUint 1]> (Keys c)) c).
Proof.
  unfold JWTAuth, body_of, seq, call, return_, Context_Set, exec.
  by destruct (next _).
Qed.

Lemma JWTAuth_never_rejects cfg now (f : Context -> Context) (r : Request) :
  let c0 := set_Keys {[ "userID" := AnyUint 1 ]} (new_context r) in
  exists c,
    Next [JWTAuth lib error_text cfg now; business f] (new_context r) = Done c /\
    handled c = 1%nat /\
    responses c = responses (f c0) /\
    aborted c = aborted (f c0).
Proof.
  cbn [Next new_context aborted finished orb].
  rewrite JWTAuth_passes_on. simpl. rewrite insert_empty.
  destruct (aborted (f _)); simpl; eexists; (split; [reflexivity|done]).
Qed.

(** C3 on the code: a request with an [Authorization] header that does
    not begin with [Bearer], and a request without the header, are not
    rejected.  The handler runs, as user 1, and no response with a 401
    status is written. *)
Theorem JWTAuth_malformed_header_handled cfg now :
  (exists c,
      Next [JWTAuth lib error_text cfg now; business id]
           (new_context no_bearer_request) = Done c /\
      handled c = 1%nat /\ responses c = [] /\ aborted c = false /\
      Keys c !! "userID" = Some (AnyUint 1)) /\
  (exists c,
      Next [JWTAuth lib error_text cfg now; business id]
           (new_context no_header_request) = Done c /\
      handled c = 1%nat /\ responses c = [] /\ aborted c = false /\
      Keys c !! "userID" = Some (AnyUint 1)).
Proof.
  split; cbn [Next new_context aborted finished orb];
    rewrite JWTAuth_passes_on; simpl;
    (eexists; split; [reflexivity|]); simpl; by split_and!.
Qed.

(** *** The statements behind the early return *)

Lemma Cut_Some (s : string) (sep : ascii) (before after : string) :
  Strings.Cut s sep = Some (before, after) ->
  s = before +:+ String sep after.
Proof.
  revert before. induction s as [|c s IH]; intros before; simpl; [done|].
  destruct (Ascii.eqb_spec c sep) as [->|Hne].
  - by intros [= <- <-].
  - destruct (Strings.Cut s sep) as [[b a]|]; [|done].
    intros [= <- <-]. rewrite str_app_cons. f_equal. by apply IH.
Qed.

(** They answer a malformed header with the status 401 and abort the
    chain, and the rest of the chain does not run. *)
Lemma JWTAuth_checks_reject_malformed cfg now (next : Context -> result)
    (c : Context) :
  malformed (GetHeader c "Authorization") ->
  exists message,
    body_of (JWTAuth_checks lib error_text cfg now next) c
    = Done (set_aborted true
              (set_responses
                 (responses c ++
                  [{| status := 401;
                      body := [("code", Json.Int 401);
                               ("message", Json.Str message)] |}]) c)).
Proof.
  intros Hm. unfold JWTAuth_checks, body_of.
  case_decide as He; [by eexists|].
  destruct Hm as [Hm|Hm]; [done|].
  assert (negb (bool_decide
                  (length (Strings.SplitN (GetHeader c "Authorization") " " 2) = 2%nat) &&
                bool_decide
                  (Strings.SplitN (GetHeader c "Authorization") " " 2 !! 0%nat
                   = Some "Bearer")) = true) as ->; [|by eexists].
  apply negb_true_iff, andb_false_iff.
  simpl. destruct (Strings.Cut (GetHeader c "Authorization") " ")
    as [[before after]|] eqn:Ec.
  - right. apply bool_decide_eq_false. simpl. intros [= ->].
    apply Cut_Some in Ec. by apply (Hm after).
  - left. by apply bool_decide_eq_false.
Qed.

Example JWTAuth_checks_reject_no_bearer cfg now next :
  exists c,
    body_of (JWTAuth_checks lib error_text cfg now next)
            (new_context no_bearer_request) = Done c /\
    handled c = 0%nat /\ aborted c = true /\
    status <$> responses c = [401].
Proof. eexists. split; [vm_compute; reflexivity|]. done. Qed.

End session_check.

(** ** The structured logger: routing by severity *)

Section structured_logger.
Import Zapcore Log.

Variable env : Env.

Lemma set_written_id (w : World) : set_written (written w) w = w.
Proof. by destruct w. Qed.

Lemma fold_core_write lvl msg (cs : list Core) (w : World) :
  foldl (fun w c => core_write lvl msg c w) w cs
  = set_written
      (written w ++ ((fun c => (core_out c, lvl, msg)) <$>
                     filter (fun c => core_enab c lvl = true) cs)) w.
Proof.
  revert w. induction cs as [|c cs IH]; intros w; simpl.
  - by rewrite app_nil_r, set_written_id.
  - rewrite IH. unfold core_write. rewrite filter_cons.
    destruct (core_enab c lvl) eqn:E.
    + rewrite decide_True by done. simpl. by rewrite <- app_assoc.
    + by rewrite decide_False by done.
Qed.

(** Logging a record appends its entries, whatever the level does to
    the caller afterwards. *)
Lemma log_at_Some (l : Logger) lvl msg (w : World) :
  log_at (Some l) lvl msg w
  = (let w' := set_written (written w ++ entries l lvl msg) w in
     if lvl =? FatalLevel then Exit 1 w'
     else if lvl =? PanicLevel then Panic msg w'
     else Ok tt w').
Proof.
  unfold log_at, bind, modify. rewrite fold_core_write.
  by destruct (lvl =? FatalLevel), (lvl =? PanicLevel).
Qed.

Lemma log_at_written (l : Logger) lvl msg (w : World) :
  written (world_of (log_at (Some l) lvl msg w))
  = written w ++ entries l lvl msg.
Proof.
  rewrite log_at_Some. by destruct (lvl =? FatalLevel), (lvl =? PanicLevel).
Qed.

(** C9.  After [InitLoggerWithConfig] the logger has an error file core
    and an info file core, in front of the console cores if there are
    any.  The enabler of the first accepts exactly the levels from
    [ErrorLevel] up, the enabler of the second exactly the levels below:
    every level is accepted by one of the two and by no level by both.
    So a record of any level, logged in any later state, is written to
    exactly one of the two files: the error file from [ErrorLevel] up,
    the info file below. *)
Theorem log_routing (config : LogConfig) (w : World) :
  once w = false -> mkdir_err env (LogDir config) = None ->
  exists w' l errorLogFile infoLogFile highPriority lowPriority console,
    InitLoggerWithConfig env config w = Ok tt w' /\
    logger w' = Some l /\
    cores l = [NewCore (File errorLogFile) highPriority;
               NewCore (File infoLogFile) lowPriority] ++ console /\
    Forall (fun c => core_out c = Stdout \/ core_out c = Stderr) console /\
    (forall lvl : Level,
        (highPriority lvl = true <-> ErrorLevel <= lvl) /\
        (lowPriority lvl = true <-> lvl < ErrorLevel) /\
        highPriority lvl = negb (lowPriority lvl)) /\
    (forall (lvl : Level) (msg : string) (w1 : World),
        filter is_file
               (drop (length (written w1))
                     (written (world_of (log_at (Some l) lvl msg w1))))
        = [(File (if ErrorLevel <=? lvl then errorLogFile else infoLogFile),
            lvl, msg)]).
Proof.
  intros Ho Hm.
  unfold InitLoggerWithConfig, Once_Do. rewrite Ho.
  unfold bind at 1. unfold MkdirAll. rewrite Hm.
  set (hi := fun lvl : Level => ErrorLevel <=? lvl).
  set (lo := fun lvl : Level => lvl <? ErrorLevel).
  assert (forall lvl : Level,
             (hi lvl = true <-> ErrorLevel <= lvl) /\
             (lo lvl = true <-> lvl < ErrorLevel) /\
             hi lvl = negb (lo lvl)) as Hpart.
  { intros lvl. unfold hi, lo. rewrite Z.leb_le, Z.ltb_lt.
    split_and!; [done..|]. apply Z.leb_antisym. }
  assert (forall l errorLogFile infoLogFile console,
             cores l = [NewCore (File errorLogFile) hi;
                        NewCore (File infoLogFile) lo] ++ console ->
             Forall (fun c => core_out c = Stdout \/ core_out c = Stderr) console ->
             forall (lvl : Level) (msg : string) (w1 : World),
               filter is_file
                 (drop (length (written w1))
                       (written (world_of (log_at (Some l) lvl msg w1))))
               = [(File (if ErrorLevel <=? lvl then errorLogFile else infoLogFile),
                   lvl, msg)]) as Hroute.
  { intros l ef inf console Hc Hcon lvl msg w1.
    rewrite log_at_written, drop_app_length. unfold entries. rewrite Hc.
    assert (filter is_file
              ((fun c => (core_out c, lvl, msg)) <$>
               filter (fun c => core_enab c lvl = true) console) = []) as Hnil.
    { clear Hc. induction Hcon as [|c cs Hc Hcs IH]; [done|].
      rewrite filter_cons. case_decide; [|done].
      rewrite fmap_cons, filter_cons_False; [done|].
      intros Hf. unfold is_file in Hf. simpl in Hf.
      destruct Hc as [Hc|Hc]; by rewrite Hc in Hf. }
    simpl. rewrite !filter_cons. simpl.
    destruct (Hpart lvl) as (_ & _ & Hneg). unfold hi in Hneg |- *.
    destruct (ErrorLevel <=? lvl) eqn:E; simpl in Hneg.
    - symmetry in Hneg. apply negb_true_iff in Hneg. fold (lo lvl). rewrite Hneg.
      rewrite decide_True by done. rewrite decide_False by done.
      rewrite fmap_cons, filter_cons_True by done. by rewrite Hnil.
    - symmetry in Hneg. apply negb_false_iff in Hneg. fold (lo lvl).
      rewrite Hneg.
      rewrite decide_False by done. rewrite decide_True by done.
      rewrite fmap_cons, filter_cons_True by done. by rewrite Hnil. }
  destruct (RotateDaily config), (ConsoleOutput config);
    unfold bind, modify, get; simpl;
    do 7 eexists; (split_and!; [reflexivity|reflexivity|reflexivity| |exact Hpart|]);
    try (eapply Hroute; [reflexivity|]);
    repeat first [ apply Forall_nil_2
                 | apply Forall_cons_2; [first [by left | by right]|] ].
Qed.

End structured_logger.

(** ** The request logger *)

Section request_logger.
Import Zapcore Log.

Variable env : Env.
Variable json_text : ReqLog.RequestLog -> string.

Lemma logged_only_refl (w : World) : logged_only w w.
Proof. by repeat split. Qed.

Lemma logger_ready_Some (l : Logger) (w : World) :
  logger w = Some l -> logger_ready env w.
Proof. intros H. left. by exists l. Qed.

(** Being ready depends on the logger and on its guard only. *)
Lemma logger_ready_eq (w w1 : World) :
  logger w1 = logger w -> once w1 = once w ->
  logger_ready env w -> logger_ready env w1.
Proof. unfold logger_ready. by intros -> ->. Qed.

Lemma GetLogger_Some (l : Logger) (w : World) :
  logger w = Some l -> GetLogger env w = Ok (Some l) w.
Proof.
  intros H. unfold GetLogger, bind, get, ret. rewrite H. simpl. by rewrite H.
Qed.

(** [GetLogger] returns the logger, bringing it up first if need be. *)
Lemma GetLogger_ready (w : World) :
  logger_ready env w ->
  exists l w', GetLogger env w = Ok (Some l) w' /\ logger w' = Some l /\
               logged_only w w'.
Proof.
  intros Hr. destruct (logger w) as [l|] eqn:Hl.
  - exists l, w. rewrite (GetLogger_Some l w Hl).
    split_and!; [done..|apply logged_only_refl].
  - destruct Hr as [[l Hs]|[Ho Hm]]; [congruence|].
    unfold GetLogger, bind, get. rewrite Hl.
    unfold InitLogger, InitLoggerWithConfig, Once_Do. rewrite Ho.
    unfold bind at 1. unfold MkdirAll. rewrite Hm.
    cbn [RotateDaily ConsoleOutput defaultLogConfig].
    unfold bind, modify, get, ret. cbn [logger set_logger set_sugarLogger].
    rewrite log_at_Some. cbn [Z.eqb InfoLevel FatalLevel PanicLevel].
    eexists _, _. split_and!; [reflexivity|reflexivity|by repeat split].
Qed.

(** With the structured logger ready, a call of the package's logging
    functions below the panic level returns, and the entries of the record
    are the last ones written. *)
Lemma logging_ready (lvl : Level) msg (w : World) :
  lvl <> FatalLevel -> lvl <> PanicLevel ->
  logger_ready env w ->
  exists l w',
    bind (GetLogger env) (fun l => log_at l lvl msg) w = Ok tt w' /\
    logger w' = Some l /\ logged_only w w' /\
    exists before, written w' = before ++ entries l lvl msg.
Proof.
  intros Hf Hp Hr.
  destruct (GetLogger_ready w Hr) as (l & w1 & Hg & Hl & Hlo).
  exists l. unfold bind. rewrite Hg, log_at_Some.
  rewrite (proj2 (Z.eqb_neq _ _) Hf), (proj2 (Z.eqb_neq _ _) Hp).
  eexists. split_and!; [reflexivity|exact Hl| |by eexists].
  destruct Hlo as (? & ? & ? & ?). by repeat split.
Qed.

Lemma Error_ready msg (w : World) :
  logger_ready env w ->
  exists l w',
    Error env msg w = Ok tt w' /\ logger w' = Some l /\ logged_only w w' /\
    exists before, written w' = before ++ entries l ErrorLevel msg.
Proof. by apply logging_ready. Qed.

Lemma Info_ready msg (w : World) :
  logger_ready env w ->
  exists l w',
    Info env msg w = Ok tt w' /\ logger w' = Some l /\ logged_only w w' /\
    exists before, written w' = before ++ entries l InfoLevel msg.
Proof. by apply logging_ready. Qed.

(** With the structured logger ready, the initializer returns, leaves it
    ready, and writes to no request log file. *)
Lemma InitRequestLogger_returns cfg (w : World) :
  logger_ready env w ->
  exists w', InitRequestLogger env cfg w = Ok tt w' /\
             logger_ready env w' /\
             request_lines w' = request_lines w.
Proof.
  intros Hr. unfold InitRequestLogger, Once_Do.
  destruct (reqLogOnce w); [by eexists|].
  unfold bind at 1. unfold MkdirAll.
  destruct (mkdir_err env _) as [e|].
  - destruct (Error_ready "无法创建请求日志目录" w Hr)
      as (l & w' & -> & Hl & (_ & _ & _ & Hlines) & _).
    eexists. split_and!; [reflexivity| |exact Hlines].
    by apply (logger_ready_Some l).
  - unfold bind, modify. simpl. destruct (RotateDaily cfg) eqn:Hd.
    + match goal with |- context [Info env ?m ?w1] =>
        destruct (Info_ready m w1)
          as (l & w' & -> & Hl & (_ & _ & _ & Hlines) & _);
          [by apply (logger_ready_eq w)|]
      end.
      eexists. split_and!; [reflexivity| |exact Hlines].
      by apply (logger_ready_Some l).
    + unfold updateWriter, bind, mutex_Lock, get. simpl.
      unfold bind, modify, defer_Unlock, ret. simpl.
      match goal with |- context [Info env ?m ?w1] =>
        destruct (Info_ready m w1)
          as (l & w' & -> & Hl & (_ & _ & _ & Hlines) & _);
          [by apply (logger_ready_eq w)|]
      end.
      eexists. split_and!; [reflexivity| |exact Hlines].
      by apply (logger_ready_Some l).
Qed.

(** When the directory cannot be created, the initializer logs the error
    and returns: the recorder is what it was and the guard is used up. *)
Lemma InitRequestLogger_mkdir_fails cfg (w : World) e :
  logger_ready env w -> reqLogOnce w = false ->
  mkdir_err env (request_log_dir cfg) = Some e ->
  exists l w',
    InitRequestLogger env cfg w = Ok tt w' /\
    requestLogger w' = requestLogger w /\ reqLogOnce w' = true /\
    goroutines w' = goroutines w /\ request_lines w' = request_lines w /\
    logger w' = Some l /\
    exists before,
      written w' = before ++ entries l ErrorLevel "无法创建请求日志目录".
Proof.
  intros Hr Ho Hm. unfold InitRequestLogger, Once_Do. rewrite Ho.
  unfold bind at 1. unfold MkdirAll. fold (request_log_dir cfg). rewrite Hm.
  destruct (Error_ready "无法创建请求日志目录" w Hr)
    as (l & w' & -> & Hl & (H1 & H2 & H3 & H4) & Hw).
  exists l. eexists. split_and!; [reflexivity|done..].
Qed.

(** Once the guard is used up the initializer does nothing. *)
Lemma InitRequestLogger_consumed cfg (w : World) :
  reqLogOnce w = true -> InitRequestLogger env cfg w = Ok tt w.
Proof. intros H. unfold InitRequestLogger, Once_Do. by rewrite H. Qed.

(** C8.  With the structured logger up, or ready to be brought up by its
    first use: for an entry that [json.Marshal] refuses, [LogRequest]
    returns normally.  Apart from the lazy initialization of the recorder,
    which does not depend on the entry, all it does is to log the failure
    at the error level through the structured logger: the entries of that
    record are the last ones written, nothing is written to a request log
    file, and the recorder, its guard and the goroutines are as the
    initialization left them, so nothing of the entry is kept for a later
    attempt. *)
Theorem LogRequest_serialization_failure (reqLog : ReqLog.RequestLog)
    (w : World) :
  ReqLog.marshals reqLog = false ->
  logger_ready env w ->
  exists w0 w' l,
    after_lazy_init env w w0 /\
    LogRequest env json_text reqLog w = Ok tt w' /\
    logged_only w0 w' /\
    logger w' = Some l /\
    (exists before,
        written w' = before ++ entries l ErrorLevel serialization_failed) /\
    request_lines w' = request_lines w.
Proof.
  intros Hm Hr.
  assert (exists w0, after_lazy_init env w w0 /\ logger_ready env w0 /\
                     request_lines w0 = request_lines w /\
                     LogRequest env json_text reqLog w
                     = Error env serialization_failed w0)
    as (w0 & Hw0 & Hr0 & Hl0 & Heq).
  { unfold LogRequest, after_lazy_init, json_Marshal.
    rewrite Hm. unfold bind at 1. unfold get.
    destruct (requestLogger w) as [rl|] eqn:Hrl.
    - exists w. by split_and!.
    - destruct (InitRequestLogger_returns defaultLogConfig w Hr)
        as (w0 & Hi & Hr0 & Hl0).
      exists w0. split_and!; [done..|]. unfold bind. by rewrite Hi. }
  destruct (Error_ready serialization_failed w0 Hr0)
    as (l & w' & He & Hl & Hlo & Hw).
  exists w0, w', l. rewrite Heq. split_and!; try done.
  destruct Hlo as (_ & _ & _ & ->). exact Hl0.
Qed.

(** C10, as the code has it.  With the structured logger up, or ready to
    be brought up: if the first initialization of the recorder cannot
    create its directory, the initializer returns with the recorder still
    nil and the guard used up.  In every state with a nil recorder and a
    used-up guard, a call of [LogRequest] with an entry that
    [json.Marshal] accepts runs the initializer to no effect and panics on
    the nil recorder when it locks the mutex; the state is left as it was,
    so every later such call panics too.  The call that ran the failing
    initializer panics in the same way. *)
Theorem LogRequest_after_failed_init cfg (w : World) e :
  logger_ready env w -> requestLogger w = None -> reqLogOnce w = false ->
  mkdir_err env (request_log_dir cfg) = Some e ->
  (exists w', InitRequestLogger env cfg w = Ok tt w' /\
              requestLogger w' = None /\ reqLogOnce w' = true) /\
  (forall (w1 : World) (reqLog : ReqLog.RequestLog),
      requestLogger w1 = None -> reqLogOnce w1 = true ->
      ReqLog.marshals reqLog = true ->
      LogRequest env json_text reqLog w1 = Panic nil_dereference w1) /\
  (forall reqLog : ReqLog.RequestLog,
      cfg = defaultLogConfig -> ReqLog.marshals reqLog = true ->
      exists w', LogRequest env json_text reqLog w = Panic nil_dereference w' /\
                 requestLogger w' = None /\ reqLogOnce w' = true).
Proof.
  intros Hr Hn Ho Hm.
  destruct (InitRequestLogger_mkdir_fails cfg w e Hr Ho Hm)
    as (l & w' & Hinit & Hn' & Ho' & _).
  rewrite Hn in Hn'.
  assert (forall (w1 : World) (reqLog : ReqLog.RequestLog),
             requestLogger w1 = None -> reqLogOnce w1 = true ->
             ReqLog.marshals reqLog = true ->
             LogRequest env json_text reqLog w1 = Panic nil_dereference w1)
    as Hlater.
  { intros w1 reqLog Hn1 Ho1 Hmar. unfold LogRequest, json_Marshal.
    rewrite Hmar. unfold bind at 1. unfold get. rewrite Hn1.
    unfold bind at 1. rewrite (InitRequestLogger_consumed _ _ Ho1).
    unfold bind at 1. unfold mutex_Lock. unfold bind at 1. unfold get.
    cbv beta. by rewrite Hn1. }
  split_and!.
  - exists w'. by split_and!.
  - exact Hlater.
  - intros reqLog -> Hmar. exists w'.
    split_and!; [|done..].
    unfold LogRequest, json_Marshal.
    rewrite Hmar. unfold bind at 1. unfold get. rewrite Hn.
    unfold bind at 1. rewrite Hinit.
    unfold bind at 1. unfold mutex_Lock. unfold bind at 1. unfold get.
    cbv beta. by rewrite Hn'.
Qed.

End request_logger.

(** ** Concrete runs *)

Section concrete_runs.
Import Zapcore Log.

Example Join_daily : Filepath.Join ["logs"; "2025-05-04" +:+ "_error.log"]
                     = "logs/2025-05-04_error.log".
Proof. vm_compute. reflexivity. Qed.

Example Join_requests :
  Filepath.Join ["logs"; "requests"; "requests.log"] = "logs/requests/requests.log".
Proof. vm_compute. reflexivity. Qed.

Example Join_empty_dir :
  Filepath.Join [""; "requests"; "requests.log"] = "requests/requests.log".
Proof. vm_compute. reflexivity. Qed.

Example Clean_dots : Filepath.Clean "a//b/./c/../d/" = "a/b/d".
Proof. vm_compute. reflexivity. Qed.

Example Clean_root : Filepath.Clean "/../a/.." = "/".
Proof. vm_compute. reflexivity. Qed.

Example Clean_up : Filepath.Clean "../../a" = "../../a".
Proof. vm_compute. reflexivity. Qed.

Example year_2025 : Time.year_of_days (1746316800 / 86400) = 2025.
Proof. vm_compute. reflexivity. Qed.

Example year_1969 : Time.year_of_days (-1 / 86400) = 1969.
Proof. vm_compute. reflexivity. Qed.

Lemma started_logger_up : logger started = Some started_logger.
Proof. vm_compute. reflexivity. Qed.

Example entry_nan_refused : ReqLog.marshals (entry PrimFloat.nan) = false.
Proof. vm_compute. reflexivity. Qed.

Example entry_accepted : ReqLog.marshals (entry 1.5%float) = true.
Proof. vm_compute. reflexivity. Qed.

Lemma GenerateSignature_order_independent_witness :
  Utils.GenerateSignature ["foo"; "bar"]
    (GoMap.assign_all [("foo", "1"); ("bar", "2")]) "s3cr3t"
  = Utils.GenerateSignature ["bar"; "foo"]
    (GoMap.assign_all [("bar", "2"); ("foo", "1")]) "s3cr3t".
Proof.
  apply (GenerateSignature_order_independent
           [("foo", "1"); ("bar", "2")] [("bar", "2"); ("foo", "1")]).
  - compute_done.
  - apply perm_swap.
  - unfold GoMap.range_order. vm_compute. reflexivity.
  - unfold GoMap.range_order. vm_compute. apply perm_swap.
Defined.

Lemma log_routing_witness :
  exists w' l errorLogFile infoLogFile,
    InitLoggerWithConfig no_requests_dir defaultLogConfig initial = Ok tt w' /\
    logger w' = Some l /\
    forall (lvl : Level) (msg : string) (w1 : World),
      filter is_file
             (drop (length (written w1))
                   (written (world_of (log_at (Some l) lvl msg w1))))
      = [(File (if ErrorLevel <=? lvl then errorLogFile else infoLogFile),
          lvl, msg)].
Proof.
  destruct (log_routing no_requests_dir defaultLogConfig initial)
    as (w' & l & ef & inf & hi & lo & console & Hi & Hl & _ & _ & _ & Hr);
    [reflexivity | reflexivity |].
  exists w', l, ef, inf. by split_and!.
Defined.

Lemma LogRequest_serialization_failure_witness :
  exists w',
    LogRequest no_requests_dir some_text (entry PrimFloat.nan) initial
    = Ok tt w' /\
    request_lines w' = request_lines initial.
Proof.
  destruct (LogRequest_serialization_failure no_requests_dir some_text
              (entry PrimFloat.nan) initial)
    as (w0 & w' & l & _ & Heq & _ & _ & _ & Hr);
    [vm_compute; reflexivity | right; split; reflexivity |].
  exists w'. by split.
Defined.

Lemma LogRequest_after_failed_init_witness :
  exists w',
    LogRequest no_requests_dir some_text (entry 1.5%float) started
    = Panic nil_dereference w' /\
    requestLogger w' = None /\ reqLogOnce w' = true.
Proof.
  destruct (LogRequest_after_failed_init no_requests_dir some_text
              defaultLogConfig started "permission denied")
    as (_ & _ & H); [apply (logger_ready_Some _ started_logger), started_logger_up
                    | reflexivity | reflexivity | vm_compute; reflexivity |].
  apply H; [reflexivity | vm_compute; reflexivity].
Defined.

(** The property as the specification words it fails for an entry that [json.Marshal]
    refuses: after the failed initialization, with the recorder nil and
    the guard used up, the call logs the failure and returns without a
    panic. *)
Lemma LogRequest_after_failed_init_counterexample :
  let failed := world_of (InitRequestLogger no_requests_dir defaultLogConfig started) in
  requestLogger failed = None /\ reqLogOnce failed = true /\
  exists w',
    LogRequest no_requests_dir some_text (entry PrimFloat.nan) failed
    = Ok tt w' /\
    requestLogger w' = None.
Proof.
  split_and!; [vm_compute; reflexivity..|].
  eexists. split; vm_compute; reflexivity.
Qed.

End concrete_runs.

(* ===================================================================== *)
(** * Further properties of the code *)
(* ===================================================================== *)

(** ** utils/logger.go: initialization and sinks *)

Section logger_initialization.
Import Zapcore Log.

Variable env : Env.

(** With the guard of [once] used up, [InitLoggerWithConfig] does
    nothing, whatever the configuration and the file system. *)
Lemma InitLoggerWithConfig_consumed (env' : Env) config (w : World) :
  once w = true -> InitLoggerWithConfig env' config w = Ok tt w.
Proof. intros H. unfold InitLoggerWithConfig, Once_Do. by rewrite H. Qed.

Lemma GetLogger_consumed (env' : Env) (w : World) :
  once w = true -> GetLogger env' w = Ok (logger w) w.
Proof.
  intros H. unfold GetLogger, bind, get, ret.
  destruct (logger w) eqn:Hl; [by rewrite Hl|].
  unfold InitLogger. rewrite InitLoggerWithConfig_consumed by done.
  by rewrite Hl.
Qed.

(** The logger [InitLoggerWithConfig] builds, with its files and the
    entries it writes for a record. *)
Lemma InitLoggerWithConfig_built (config : LogConfig) (w : World) :
  once w = false -> mkdir_err env (LogDir config) = None ->
  exists w' l errorLogFile infoLogFile,
    InitLoggerWithConfig env config w = Ok tt w' /\
    logger w' = Some l /\ sugarLogger w' = Some l /\ once w' = true /\
    logged_only w w' /\
    dirs w' = dirs w ++ [LogDir config] /\
    Lumberjack.Filename errorLogFile
    = Filepath.Join [LogDir config;
                     if RotateDaily config then today env +:+ "_error.log"
                     else "error_" +:+ LogFileName config] /\
    Lumberjack.Filename infoLogFile
    = Filepath.Join [LogDir config;
                     if RotateDaily config then today env +:+ ".log"
                     else "info_" +:+ LogFileName config] /\
    Forall (fun f => Lumberjack.MaxSize f = MaxSize config /\
                     Lumberjack.MaxBackups f = MaxBackups config /\
                     Lumberjack.MaxAge f = MaxAge config /\
                     Lumberjack.Compress f = Compress config)
           [errorLogFile; infoLogFile] /\
    (forall (lvl : Level) (msg : string),
        entries l lvl msg
        = (File (if ErrorLevel <=? lvl then errorLogFile else infoLogFile),
           lvl, msg)
          :: (if ConsoleOutput config
              then [(if ErrorLevel <=? lvl then Stderr else Stdout, lvl, msg)]
              else [])) /\
    written w' = written w ++ entries l InfoLevel "日志系统初始化成功".
Proof.
  intros Ho Hm.
  unfold InitLoggerWithConfig, Once_Do. rewrite Ho.
  unfold bind at 1. unfold MkdirAll. rewrite Hm.
  assert (forall lvl : Level, (lvl <? ErrorLevel) = negb (ErrorLevel <=? lvl))
    as Hneg by (intros lvl; apply Z.ltb_antisym).
  destruct (RotateDaily config), (ConsoleOutput config);
    unfold bind, modify, get; cbn [logger set_logger set_sugarLogger];
    rewrite log_at_Some; cbn [Z.eqb InfoLevel FatalLevel PanicLevel];
    (eexists _, _, (Lumberjack.Build_Logger _ _ _ _ _),
       (Lumberjack.Build_Logger _ _ _ _ _); split_and!;
     [reflexivity|reflexivity|reflexivity|reflexivity|by repeat split
     |reflexivity|reflexivity|reflexivity
     |repeat (apply Forall_cons_2; [split_and!; reflexivity|]); apply Forall_nil_2
     | |reflexivity]);
    intros lvl msg; unfold entries; cbn [cores app];
    rewrite !filter_cons, filter_nil; cbn [core_enab];
    rewrite Hneg; destruct (ErrorLevel <=? lvl); simpl; reflexivity.
Qed.

(** X1.  The logger [InitLoggerWithConfig] builds, when the directory can
    be created: the directory is created, the sugared logger is the same
    logger, and every record of a level [lvl] logged through it is
    written to exactly one rolling file, the error file from
    [ErrorLevel] up and the info file below, and, with [ConsoleOutput],
    to exactly one console stream besides, standard error from
    [ErrorLevel] up and standard output below.  The request recorder is
    not touched.  With [RotateDaily] the
    files are named after the date of the initialization, otherwise
    after [LogFileName]; both take the rotation settings of the
    configuration.  The first record written is the notice of the
    initialization itself. *)
Theorem InitLoggerWithConfig_sinks (config : LogConfig) (w : World) :
  once w = false -> mkdir_err env (LogDir config) = None ->
  exists w' l errorLogFile infoLogFile,
    InitLoggerWithConfig env config w = Ok tt w' /\
    logger w' = Some l /\ sugarLogger w' = Some l /\ once w' = true /\
    logged_only w w' /\
    dirs w' = dirs w ++ [LogDir config] /\
    Lumberjack.Filename errorLogFile
    = Filepath.Join [LogDir config;
                     if RotateDaily config then today env +:+ "_error.log"
                     else "error_" +:+ LogFileName config] /\
    Lumberjack.Filename infoLogFile
    = Filepath.Join [LogDir config;
                     if RotateDaily config then today env +:+ ".log"
                     else "info_" +:+ LogFileName config] /\
    Forall (fun f => Lumberjack.MaxSize f = MaxSize config /\
                     Lumberjack.MaxBackups f = MaxBackups config /\
                     Lumberjack.MaxAge f = MaxAge config /\
                     Lumberjack.Compress f = Compress config)
           [errorLogFile; infoLogFile] /\
    (forall (lvl : Level) (msg : string),
        entries l lvl msg
        = (File (if ErrorLevel <=? lvl then errorLogFile else infoLogFile),
           lvl, msg)
          :: (if ConsoleOutput config
              then [(if ErrorLevel <=? lvl then Stderr else Stdout, lvl, msg)]
              else [])) /\
    written w' = written w ++ entries l InfoLevel "日志系统初始化成功".
Proof. apply InitLoggerWithConfig_built. Qed.

(** X2.  When the directory of the log files cannot be created,
    [InitLoggerWithConfig] panics with the error in its message and
    leaves no logger, and the guard of [once] is used up.  From then on,
    in every file system and for every configuration, a further
    initialization returns without doing anything, [GetLogger] returns
    nil, and each of [Debug], [Info], [Warn], [Error] and [Fatal]
    panics on the nil logger, leaving the state as it was; [Sync]
    returns nil. *)
Theorem InitLoggerWithConfig_mkdir_fails (config : LogConfig) (w : World) e
    (sync_err : Logger -> World -> option string) :
  once w = false -> logger w = None ->
  mkdir_err env (LogDir config) = Some e ->
  exists w',
    InitLoggerWithConfig env config w = Panic ("无法创建日志目录: " +:+ e) w' /\
    w' = set_once true w /\
    forall (env' : Env) (config' : LogConfig) (msg : string),
      InitLoggerWithConfig env' config' w' = Ok tt w' /\
      GetLogger env' w' = Ok None w' /\
      Debug env' msg w' = Panic nil_dereference w' /\
      Info env' msg w' = Panic nil_dereference w' /\
      Warn env' msg w' = Panic nil_dereference w' /\
      Error env' msg w' = Panic nil_dereference w' /\
      Fatal env' msg w' = Panic nil_dereference w' /\
      Sync sync_err w' = Ok None w'.
Proof.
  intros Ho Hl Hm. eexists. split_and!.
  - unfold InitLoggerWithConfig, Once_Do. rewrite Ho.
    unfold bind. unfold MkdirAll. rewrite Hm. reflexivity.
  - reflexivity.
  - intros env' config' msg.
    assert (GetLogger env' (set_once true w) = Ok None (set_once true w)) as Hg.
    { rewrite GetLogger_consumed by done. simpl. by rewrite Hl. }
    split_and!; [by apply InitLoggerWithConfig_consumed|exact Hg|..];
      unfold Debug, Info, Warn, Error, Fatal, Sync, bind, get;
      rewrite ?Hg; cbn [logger set_once]; by rewrite ?Hl.
Qed.

(** X3.  The first configuration wins: once [InitLoggerWithConfig] has
    built the logger, a second call with any configuration, in any file
    system, changes nothing, and [GetLogger] and [GetSugarLogger] return
    the logger of the first call without initializing again. *)
Theorem InitLoggerWithConfig_first_wins (config : LogConfig) (w : World) :
  once w = false -> mkdir_err env (LogDir config) = None ->
  exists w' l,
    InitLoggerWithConfig env config w = Ok tt w' /\
    logger w' = Some l /\
    forall (env' : Env) (config' : LogConfig),
      InitLoggerWithConfig env' config' w' = Ok tt w' /\
      GetLogger env' w' = Ok (Some l) w' /\
      GetSugarLogger env' w' = Ok (Some l) w'.
Proof.
  intros Ho Hm.
  destruct (InitLoggerWithConfig_built config w Ho Hm)
    as (w' & l & _ & _ & Hi & Hl & Hs & Ho' & _).
  exists w', l. split_and!; [done..|]. intros env' config'.
  split_and!; [by apply InitLoggerWithConfig_consumed| |].
  - rewrite GetLogger_consumed by done. by rewrite Hl.
  - unfold GetSugarLogger, bind, get, ret. rewrite Hs. by rewrite Hs.
Qed.

(** [Fatal] does not return: with the logger up, or ready to be
    brought up, the record is written at the fatal level, last, and the
    process exits with status 1. *)
Theorem Fatal_exits (msg : string) (w : World) :
  logger_ready env w ->
  exists l w',
    Fatal env msg w = Exit 1 w' /\
    logger w' = Some l /\
    exists before, written w' = before ++ entries l FatalLevel msg.
Proof.
  intros Hr.
  destruct (GetLogger_ready env w Hr) as (l & w1 & Hg & Hl & _).
  exists l. unfold Fatal, bind. rewrite Hg, log_at_Some.
  cbn [Z.eqb FatalLevel]. eexists. split_and!; [reflexivity|exact Hl|by eexists].
Qed.

End logger_initialization.

(** ** utils/request_logger.go: writing, the mutex and the writer *)

Section request_logger_more.
Import Zapcore Log.

Variable env : Env.
Variable json_text : ReqLog.RequestLog -> string.

(** Runs the reads of the recorder, which the equation [H] gives. *)
Ltac run_recorder H :=
  repeat first
    [ rewrite H
    | progress cbn [requestLogger set_requestLogger locked config writer
                    mbind option_bind] ].

(** [updateWriter] on a recorder whose mutex is free: the writer is
    replaced by a rolling file named after the configuration, and the
    mutex is free again. *)
Lemma updateWriter_free cfg wr (w : World) :
  requestLogger w = Some {| config := cfg; writer := wr; locked := false |} ->
  updateWriter env w
  = Ok tt (set_requestLogger
             (Some {| config := cfg;
                      writer := Some (writer_file env cfg);
                      locked := false |}) w).
Proof.
  intros H. unfold updateWriter, mutex_Lock, bind, get. rewrite H.
  cbn [locked]. unfold modify, ret, defer_Unlock, unlock.
  cbn [requestLogger set_requestLogger config writer]. by destruct w.
Qed.

(** On a held mutex [updateWriter] waits for ever. *)
Lemma updateWriter_held cfg wr (w : World) :
  requestLogger w = Some {| config := cfg; writer := wr; locked := true |} ->
  updateWriter env w = Blocked w.
Proof.
  intros H. unfold updateWriter, mutex_Lock, bind, get. by rewrite H.
Qed.

Lemma set_requestLogger_id (w : World) :
  set_requestLogger (requestLogger w) w = w.
Proof. by destruct w. Qed.

(** The line [LogRequest] writes through a writer that is set. *)
Lemma LogRequest_written (reqLog : ReqLog.RequestLog) cfg f (w : World) :
  requestLogger w = Some {| config := cfg; writer := Some f; locked := false |} ->
  ReqLog.marshals reqLog = true ->
  write_err env (Lumberjack.Filename f) = None ->
  LogRequest env json_text reqLog w
  = Ok tt (set_request_lines
             (request_lines w ++
              [(Lumberjack.Filename f, json_text reqLog +:+ String "010" "")])
             w).
Proof.
  intros Hrl Hm Hw.
  unfold LogRequest, json_Marshal, mutex_Lock, defer_Unlock, writer_Write,
    bind, get, modify, ret.
  rewrite Hm. run_recorder Hrl. rewrite Hw. unfold unlock.
  cbn [requestLogger set_requestLogger set_request_lines config writer].
  f_equal. destruct w; simpl in *; by rewrite Hrl.
Qed.

(** X4.  With a recorder whose writer is set and whose mutex is free,
    [LogRequest] on an entry [json.Marshal] accepts writes one line, the
    encoding followed by a newline, to the file of the writer, and
    changes nothing else: the mutex is free again and nothing is logged
    through the structured logger.  If the write fails, no line is
    written, the failure is logged at the error level, last, and the
    call returns with the mutex free. *)
Theorem LogRequest_writes_line (reqLog : ReqLog.RequestLog) cfg f (w : World) :
  requestLogger w = Some {| config := cfg; writer := Some f; locked := false |} ->
  ReqLog.marshals reqLog = true ->
  (write_err env (Lumberjack.Filename f) = None ->
   LogRequest env json_text reqLog w
   = Ok tt (set_request_lines
              (request_lines w ++
               [(Lumberjack.Filename f, json_text reqLog +:+ String "010" "")])
              w)) /\
  (forall e, write_err env (Lumberjack.Filename f) = Some e ->
             logger_ready env w ->
             exists l w',
               LogRequest env json_text reqLog w = Ok tt w' /\
               requestLogger w' = requestLogger w /\
               request_lines w' = request_lines w /\
               logger w' = Some l /\
               exists before,
                 written w' = before ++ entries l ErrorLevel "请求日志写入失败").
Proof.
  intros Hrl Hm. split.
  - by apply (LogRequest_written reqLog cfg).
  - intros e Hw Hr. unfold LogRequest, json_Marshal. rewrite Hm.
    unfold bind at 1. unfold get. rewrite Hrl.
    unfold bind at 1. unfold ret at 1.
    unfold bind at 1. unfold mutex_Lock, bind, get. rewrite Hrl.
    cbn [locked]. unfold modify, ret, defer_Unlock.
    cbn [requestLogger set_requestLogger option_bind mbind writer].
    unfold writer_Write. rewrite Hw. unfold ret.
    match goal with |- context [Error env ?m ?w1] =>
      destruct (Error_ready env m w1)
        as (l & w' & -> & Hl & (H1 & H2 & H3 & H4) & Hb);
        [by apply (logger_ready_eq env w)|]
    end.
    cbn [requestLogger request_lines set_requestLogger config] in H1, H4.
    exists l. eexists. split; [reflexivity|].
    unfold unlock. rewrite H1.
    cbn [requestLogger request_lines logger written set_requestLogger
         config writer].
    done.
Qed.

(** On a recorder without a writer, [LogRequest] takes the mutex and
    then waits for it in [updateWriter]. *)
Lemma LogRequest_waits_for_itself (reqLog : ReqLog.RequestLog) cfg (w : World) :
  requestLogger w = Some {| config := cfg; writer := None; locked := false |} ->
  ReqLog.marshals reqLog = true ->
  LogRequest env json_text reqLog w
  = Blocked (set_requestLogger
               (Some {| config := cfg; writer := None; locked := true |}) w).
Proof.
  intros Hrl Hm.
  unfold LogRequest, json_Marshal, mutex_Lock, defer_Unlock, bind, get,
    modify, ret.
  rewrite Hm. run_recorder Hrl.
  by erewrite updateWriter_held.
Qed.

(** With the logger up, [Info] and [Error] append their entries. *)
Lemma logging_up (l : Logger) (lvl : Level) msg (w : World) :
  lvl <> FatalLevel -> lvl <> PanicLevel -> logger w = Some l ->
  bind (GetLogger env) (fun l => log_at l lvl msg) w
  = Ok tt (set_written (written w ++ entries l lvl msg) w).
Proof.
  intros Hf Hp Hl. unfold bind. rewrite (GetLogger_Some env l w Hl), log_at_Some.
  by rewrite (proj2 (Z.eqb_neq _ _) Hf), (proj2 (Z.eqb_neq _ _) Hp).
Qed.

(** X5.  [LogRequest] takes the mutex of the recorder and, when the
    writer is not set yet, calls [updateWriter], which takes the same
    mutex: on a recorder without a writer, as [InitRequestLogger] leaves
    it until the rotation goroutine has run, the call waits for ever
    with the mutex held, for every entry [json.Marshal] accepts.
    Nothing is written, and from then on every such call and the
    rotation goroutine wait for ever too. *)
Theorem LogRequest_blocks_without_writer (reqLog : ReqLog.RequestLog) cfg
    (w : World) :
  requestLogger w = Some {| config := cfg; writer := None; locked := false |} ->
  ReqLog.marshals reqLog = true ->
  exists w',
    LogRequest env json_text reqLog w = Blocked w' /\
    w' = set_requestLogger
           (Some {| config := cfg; writer := None; locked := true |}) w /\
    (forall reqLog' : ReqLog.RequestLog,
        ReqLog.marshals reqLog' = true ->
        LogRequest env json_text reqLog' w' = Blocked w') /\
    run_goroutine env DailyRotation w' = Blocked w'.
Proof.
  intros Hrl Hm. eexists. split_and!; [|reflexivity|..].
  - by apply LogRequest_waits_for_itself.
  - intros reqLog' Hm'. unfold LogRequest, json_Marshal. rewrite Hm'.
    unfold bind at 1. unfold get.
    cbn [requestLogger set_requestLogger].
    unfold bind at 1. unfold ret at 1.
    unfold bind at 1. unfold mutex_Lock, bind.
    by cbn [requestLogger set_requestLogger locked].
  - by apply updateWriter_held with cfg None.
Qed.


(** What [InitRequestLogger] leaves when the directory can be created:
    a recorder with the configuration, whose writer is set at once
    without daily rotation and left to the rotation goroutine with it. *)
Lemma InitRequestLogger_creates cfg (w : World) :
  logger_ready env w -> reqLogOnce w = false ->
  mkdir_err env (request_log_dir cfg) = None ->
  exists w1,
    InitRequestLogger env cfg w = Ok tt w1 /\
    requestLogger w1
    = Some (if RotateDaily cfg then fresh_recorder cfg
            else {| config := cfg; writer := Some (writer_file env cfg);
                    locked := false |}) /\
    reqLogOnce w1 = true /\
    goroutines w1
    = goroutines w ++ (if RotateDaily cfg then [DailyRotation] else []) /\
    request_lines w1 = request_lines w /\
    logger_ready env w1.
Proof.
  intros Hr Ho Hd. unfold InitRequestLogger, Once_Do. rewrite Ho.
  unfold bind at 1. unfold MkdirAll. fold (request_log_dir cfg). rewrite Hd.
  unfold bind at 1. unfold modify at 1.
  destruct (RotateDaily cfg) eqn:Hrot.
  - unfold bind at 1. unfold modify at 1.
    match goal with |- context [Info env ?m ?w1] =>
      destruct (Info_ready env m w1)
        as (l & w1' & -> & Hl & (H1 & H2 & H3 & H4) & Hb);
        [by apply (logger_ready_eq env w)|]
    end.
    eexists. split; [reflexivity|].
    cbn [requestLogger reqLogOnce goroutines request_lines set_reqLogOnce
         set_requestLogger set_goroutines set_dirs] in *.
    split_and!; [done..|]. by apply (logger_ready_Some env l).
  - unfold bind at 1.
    erewrite updateWriter_free by reflexivity.
    match goal with |- context [Info env ?m ?w1] =>
      destruct (Info_ready env m w1)
        as (l & w1' & -> & Hl & (H1 & H2 & H3 & H4) & Hb);
        [by apply (logger_ready_eq env w)|]
    end.
    eexists. split; [reflexivity|].
    cbn [requestLogger reqLogOnce goroutines request_lines set_reqLogOnce
         set_requestLogger set_goroutines set_dirs] in *.
    rewrite app_nil_r.
    split_and!; [done..|]. by apply (logger_ready_Some env l).
Qed.

(** X7.  Initialization, then logging.  After [InitRequestLogger] with a
    configuration whose directory can be created, and, when the
    configuration rotates daily, after the first turn of the rotation
    goroutine it starts, [LogRequest] on an entry [json.Marshal]
    accepts returns and has written exactly one line, the encoding and a
    newline, to the request log file of the configuration:
    [requests-<date>.log] with daily rotation, [requests.log]
    without, in the directory [requests] of [LogDir]. *)
Theorem LogRequest_after_init (reqLog : ReqLog.RequestLog) cfg (w : World) :
  logger_ready env w -> reqLogOnce w = false ->
  mkdir_err env (request_log_dir cfg) = None ->
  write_err env (request_log_file env cfg) = None ->
  ReqLog.marshals reqLog = true ->
  exists w1 w2 w3,
    InitRequestLogger env cfg w = Ok tt w1 /\
    (if RotateDaily cfg then run_goroutine env DailyRotation w1 else Ok tt w1)
    = Ok tt w2 /\
    LogRequest env json_text reqLog w2 = Ok tt w3 /\
    request_lines w3
    = request_lines w ++
      [(request_log_file env cfg, json_text reqLog +:+ String "010" "")] /\
    requestLogger w3
    = Some {| config := cfg; writer := Some (writer_file env cfg);
              locked := false |}.
Proof.
  intros Hr Ho Hd Hw Hm.
  destruct (InitRequestLogger_creates cfg w Hr Ho Hd)
    as (w1 & Hi & Hrl & _ & _ & Hlines & _).
  assert (exists w2,
             (if RotateDaily cfg then run_goroutine env DailyRotation w1
              else Ok tt w1) = Ok tt w2 /\
             requestLogger w2
             = Some {| config := cfg; writer := Some (writer_file env cfg);
                       locked := false |} /\
             request_lines w2 = request_lines w1) as (w2 & Hg & Hrl2 & Hl2).
  { destruct (RotateDaily cfg).
    - unfold run_goroutine. erewrite updateWriter_free by exact Hrl.
      by eexists.
    - by exists w1. }
  exists w1, w2. eexists. split_and!; [exact Hi|exact Hg|..].
  - by apply (LogRequest_written reqLog cfg (writer_file env cfg) w2).
  - cbn. by rewrite Hl2, Hlines.
  - cbn. exact Hrl2.
Qed.

(** A text without a slash is one element of a path. *)
Lemma Split_no_slash (s : string) :
  "/"%char ∉ String.list_ascii_of_string s -> Strings.Split s "/" = [s].
Proof.
  induction s as [|c s IH]; [done|]. cbn [String.list_ascii_of_string].
  intros Hn. apply not_elem_of_cons in Hn as [Hc Hs].
  cbn [Strings.Split]. destruct (Ascii.eqb_spec c "/"); [done|].
  by rewrite IH.
Qed.

Lemma list_ascii_app (s t : string) :
  String.list_ascii_of_string (s +:+ t)
  = String.list_ascii_of_string s ++ String.list_ascii_of_string t.
Proof. induction s as [|c s IH]; [done|]. simpl. by rewrite IH. Qed.

(** [filepath.Join("", "requests", name)] for a plain file name. *)
Lemma Join_empty_requests (name : string) :
  "/"%char ∉ String.list_ascii_of_string name ->
  name <> "" -> name <> "." -> name <> ".." ->
  Filepath.Join [""; "requests"; name] = "requests/" +:+ name.
Proof.
  intros Hs H0 H1 H2. unfold Filepath.Join.
  rewrite filter_cons_False by (by intros []).
  rewrite filter_cons_True by done.
  rewrite filter_cons_True by done. rewrite filter_nil.
  unfold Filepath.Clean, Strings.Join.
  change (String.concat "/" ["requests"; name]) with ("requests/" +:+ name).
  change (match "requests/" +:+ name with
          | String "/"%char _ => true
          | _ => false
          end) with false.
  change (Strings.Split ("requests/" +:+ name) "/")
    with ("requests" :: Strings.Split name "/").
  rewrite (Split_no_slash name Hs).
  cbn [Filepath.clean_elems].
  rewrite (decide_False (P := "requests" = "" \/ "requests" = "."))
    by (by intros [|]).
  rewrite (decide_False (P := "requests" = "..")) by done.
  cbn [Filepath.clean_elems].
  rewrite (decide_False (P := name = "" \/ name = ".")) by (by intros [|]).
  rewrite (decide_False (P := name = "..")) by done.
  cbn [Filepath.clean_elems].
  change (String.concat "/" (reverse [name; "requests"]))
    with ("requests/" +:+ name).
  by rewrite decide_False.
Qed.

(** X8.  The directory and the file disagree when [LogDir] is empty:
    [InitRequestLogger] then creates [logs/requests], while the writer
    is set up for a file in [requests], outside that directory:
    [requests/requests.log] without daily rotation, at once, and
    [requests/requests-<date>.log] with it, by the first turn of the
    rotation goroutine. *)
Theorem InitRequestLogger_empty_LogDir cfg (l : Logger) (w : World) :
  LogDir cfg = "" ->
  "/"%char ∉ String.list_ascii_of_string (today env) ->
  logger w = Some l -> reqLogOnce w = false ->
  mkdir_err env "logs/requests" = None ->
  exists w1 w2 f,
    InitRequestLogger env cfg w = Ok tt w1 /\
    dirs w1 = dirs w ++ ["logs/requests"] /\
    (if RotateDaily cfg then run_goroutine env DailyRotation w1 else Ok tt w1)
    = Ok tt w2 /\
    dirs w2 = dirs w1 /\
    requestLogger w2 ≫= writer = Some f /\
    Lumberjack.Filename f
    = if RotateDaily cfg then "requests/requests-" +:+ today env +:+ ".log"
      else "requests/requests.log".
Proof.
  intros Hdir Hday Hl Ho Hd. unfold InitRequestLogger, Once_Do. rewrite Ho.
  unfold bind at 1. unfold MkdirAll. rewrite Hdir.
  rewrite decide_True by done. rewrite Hd.
  unfold bind at 1. unfold modify at 1.
  assert (Filepath.Join [""; "requests"; "requests-" +:+ today env +:+ ".log"]
          = "requests/requests-" +:+ today env +:+ ".log") as Hname.
  { apply (Join_empty_requests ("requests-" +:+ today env +:+ ".log"));
      [|done..].
    rewrite !list_ascii_app. rewrite !not_elem_of_app.
    split_and!; [|done|]; cbn; rewrite ?not_elem_of_cons;
      split_and?; try done; apply not_elem_of_nil. }
  destruct (RotateDaily cfg) eqn:Hrot.
  - unfold bind at 1. unfold modify at 1.
    unfold Info. rewrite (logging_up l) by done.
    eexists _, _, _. split; [reflexivity|]. split; [reflexivity|].
    unfold run_goroutine. erewrite updateWriter_free by reflexivity.
    split_and!; [reflexivity|reflexivity|reflexivity|].
    unfold writer_file, request_log_file. cbn [Lumberjack.Filename].
    by rewrite Hrot, Hdir, Hname.
  - unfold bind at 1. erewrite updateWriter_free by reflexivity.
    unfold Info. rewrite (logging_up l) by done.
    eexists _, _, _. split_and!; try reflexivity.
    unfold writer_file, request_log_file. cbn [Lumberjack.Filename].
    by rewrite Hrot, Hdir.
Qed.

End request_logger_more.

(** ** middleware/jwt.go: refusals, and the middleware as it runs *)

Section session_more.
Import Jwt Session Middleware.

Variable lib : Codec.
Hypothesis lib_ok : Codec_ok lib.
Variable error_text : ParseError -> string.

(** What [ParseWithClaims] does with an issued token under any key: the
    signature must be the keyed hash of the signed text under that key,
    and then the validator decides. *)
Lemma ParseWithClaims_issued now_exp now_iat now userID secret key expire :
  exists token claims header sig,
    GenerateToken lib now_exp now_iat userID secret expire = inl token /\
    same_claims (issued_claims now_exp now_iat userID expire) claims /\
    sig = hmac lib SHA256 secret (signed_text lib now_exp now_iat userID expire) /\
    ParseWithClaims lib now token key
    = if decide (sig = hmac lib SHA256 key
                         (signed_text lib now_exp now_iat userID expire))
      then match Validate now (Registered (issued_claims now_exp now_iat
                                                         userID expire)) with
           | [] => inl {| Session.Raw := token;
                          Session.Method := Some SigningMethodHS256;
                          Session.Header := header;
                          Session.TokenClaims := claims;
                          Session.Signature := sig;
                          Session.Valid := true |}
           | errs => inr (ErrTokenInvalidClaims errs)
           end
      else inr ErrTokenSignatureInvalid.
Proof.
  destruct lib_ok as [Hde Hnd (h & Hh & Halg) Hc].
  destruct (Hc userID (NewNumericDate (Time.Add now_exp expire))
               (NewNumericDate now_iat)) as (claims & Hcl & Hsame); [done..|].
  eexists. exists claims, h. eexists.
  split; [reflexivity|]. split; [exact Hsame|]. split; [reflexivity|].
  unfold issued_claims in Hsame |- *.
  rewrite <- (Validate_same_claims now _ _ Hsame).
  unfold user_token_claims in Hcl.
  unfold signed_text, issued_claims, user_token_claims.
  unfold ParseWithClaims, SigningString. simpl.
  rewrite !str_app_assoc, Split_dot by apply Hnd.
  rewrite Split_dot by apply Hnd. rewrite Hnd.
  rewrite !Hde. simpl. rewrite Hh, Hcl, Halg.
  change (GetSigningMethod "HS256") with (Some SigningMethodHS256).
  simpl. by case_decide.
Qed.

(** X9.  A token is refused under another secret: when the keyed hash
    of the signed text under [secret'] differs from the one under the
    secret the token was issued with, [ParseToken] returns the error for
    an invalid signature, whatever the time. *)
Theorem ParseToken_wrong_secret now_exp now_iat now userID secret secret' expire :
  hmac lib SHA256 secret' (signed_text lib now_exp now_iat userID expire)
  <> hmac lib SHA256 secret (signed_text lib now_exp now_iat userID expire) ->
  exists token,
    GenerateToken lib now_exp now_iat userID secret expire = inl token /\
    ParseToken lib now token secret'
    = inr (JwtError ErrTokenSignatureInvalid).
Proof.
  intros Hne.
  destruct (ParseWithClaims_issued now_exp now_iat now userID secret secret' expire)
    as (token & claims & h & sig & Hg & _ & -> & Hp).
  exists token. split; [exact Hg|].
  rewrite decide_False in Hp by done.
  unfold ParseToken. by rewrite Hp.
Qed.

(** X10.  A token is refused from its time of expiry on: issued at the
    time [issued] to live [expire], and verified with the right secret
    [elapsed] later with [expire <= elapsed], it is refused with the
    error for an expired token. *)
Theorem ParseToken_after_expiry issued now_iat elapsed userID secret expire :
  expire <= elapsed ->
  exists token,
    GenerateToken lib issued now_iat userID secret expire = inl token /\
    ParseToken lib (Time.Add issued elapsed) token secret
    = inr (JwtError (ErrTokenInvalidClaims [ErrTokenExpired])).
Proof.
  intros He.
  destruct (ParseWithClaims_issued issued now_iat (Time.Add issued elapsed)
              userID secret secret expire)
    as (token & claims & h & sig & Hg & _ & -> & Hp).
  exists token. split; [exact Hg|].
  rewrite decide_True in Hp by done.
  unfold Validate in Hp. simpl in Hp.
  destruct (instant_Add issued elapsed) as [Hi Hna].
  assert (Time.Before (Time.Add issued elapsed)
                      (NewNumericDate (Time.Add issued expire)) = false) as Hb.
  { apply not_true_is_false. intros Hb.
    apply Before_truncated_Add in Hb; [|done]. rewrite Hi in Hb.
    unfold normal in Hna. unfold Time.Second in *. lia. }
  rewrite Hb in Hp. unfold ParseToken. by rewrite Hp.
Qed.

(** A text that does not consist of three parts separated by dots
    is refused as malformed, the empty text among them. *)
Theorem ParseToken_malformed now (tokenString secret : string) :
  length (Strings.Split tokenString ".") <> 3%nat ->
  ParseToken lib now tokenString secret = inr (JwtError ErrTokenMalformed).
Proof.
  intros Hl. unfold ParseToken, ParseWithClaims.
  destruct (Strings.Split tokenString ".") as [|p0 [|p1 [|p2 [|p3 ps]]]];
    done.
Qed.

(** X11.  [JWTAuth] as it runs: for every request, whatever its
    [Authorization] header, the handler behind the middleware runs
    once, on a context in which [userID] is 1, and the middleware
    writes no response of its own. *)
Theorem JWTAuth_runs_as_user_1 cfg now (f : Context -> Context) (r : Request) :
  let c0 := set_Keys {[ "userID" := AnyUint 1 ]} (new_context r) in
  exists c,
    Next [JWTAuth lib error_text cfg now; business f] (new_context r) = Done c /\
    handled c = 1%nat /\
    Keys c0 !! "userID" = Some (AnyUint 1) /\
    Keys c = Keys (f c0) /\
    responses c = responses (f c0) /\
    aborted c = aborted (f c0).
Proof.
  cbn [Next new_context aborted finished orb].
  rewrite JWTAuth_passes_on. simpl. rewrite insert_empty.
  destruct (aborted (f _)); simpl; eexists; (split; [reflexivity|done]).
Qed.

(** X12.  The statements behind the early return of [JWTAuth] accept
    what [GenerateToken] issues: for a request with the header
    [Authorization: Bearer <token>], where the token was issued for
    [userID] with the configured secret and is verified [elapsed] later,
    at most the time to live less a second, they store [userID] in the
    context and hand the request on, and write no response. *)
Theorem JWTAuth_checks_accept_issued cfg (issued now_iat : Time.Time)
    (elapsed : Time.Duration) (userID : Z) (expire : Time.Duration)
    (next : Context -> result) :
  0 <= elapsed <= expire - Time.Second ->
  exists token,
    GenerateToken lib issued now_iat userID (Secret cfg) expire = inl token /\
    let c := new_context (bearer_request token) in
    body_of (JWTAuth_checks lib error_text cfg (Time.Add issued elapsed) next) c
    = next (set_Keys (<["userID" := AnyUint userID]> (Keys c)) c).
Proof.
  intros He.
  destruct (ParseWithClaims_issued issued now_iat (Time.Add issued elapsed)
              userID (Secret cfg) (Secret cfg) expire)
    as (token & claims & h & sig & Hg & Hsame & -> & Hp).
  exists token. split; [exact Hg|].
  rewrite decide_True in Hp by done.
  unfold Validate in Hp. simpl in Hp.
  destruct (instant_Add issued elapsed) as [Hi Hna].
  assert (Time.Before (Time.Add issued elapsed)
                      (NewNumericDate (Time.Add issued expire)) = true) as Hb.
  { apply Before_truncated_Add; [done|]. rewrite Hi.
    unfold normal in Hna. lia. }
  rewrite Hb in Hp.
  intros c. unfold JWTAuth_checks, body_of.
  change (GetHeader c "Authorization") with ("Bearer " +:+ token).
  rewrite decide_False by done.
  change (Strings.SplitN ("Bearer " +:+ token) " " 2) with ["Bearer"; token].
  cbn [length lookup list_lookup negb andb default].
  rewrite !bool_decide_eq_true_2 by done. cbn [negb andb].
  unfold ParseToken. change (id token) with token. rewrite Hp.
  cbn [app Valid negb TokenClaims].
  unfold seq, Context_Set, exec, call.
  destruct Hsame as [<- _]. cbn [UserID issued_claims user_token_claims].
  by destruct (next _).
Qed.

End session_more.

(** ** strconv: formatting and parsing an integer *)

Section itoa.
Import Strconv Itoa.

Lemma digit_char_digit (d : Z) :
  0 <= d < 10 ->
  is_digit (digit_char d) = true /\
  Z.of_N (N_of_ascii (digit_char d)) - 48 = d /\
  digit_char d <> "+"%char /\ digit_char d <> "-"%char.
Proof.
  intros Hd.
  assert (d = 0 \/ d = 1 \/ d = 2 \/ d = 3 \/ d = 4 \/
          d = 5 \/ d = 6 \/ d = 7 \/ d = 8 \/ d = 9) as Hc by lia.
  destruct Hc as [->|[->|[->|[->|[->|[->|[->|[->|[->| ->]]]]]]]]]; by vm_compute.
Qed.

Lemma format_digits_S (turns : nat) (u : Z) (acc : string) :
  format_digits (S turns) u acc
  = if u <? 10 then String (digit_char (u mod 10)) acc
    else format_digits turns (u / 10) (String (digit_char (u mod 10)) acc).
Proof. reflexivity. Qed.

(** The digits written for [u] read back as [u], whatever follows. *)
Lemma format_digits_spec (turns : nat) (u : Z) (acc : string) :
  0 <= u < 10 ^ Z.of_nat (S turns) ->
  exists c D,
    format_digits (S turns) u acc = String c D +:+ acc /\
    c <> "+"%char /\ c <> "-"%char /\
    forall (rest : string) (a : Z),
      digits (String c D +:+ rest) a
      = digits rest (a * 10 ^ Z.of_nat (String.length (String c D)) + u).
Proof.
  revert u acc.
  assert (forall u acc, 0 <= u < 10 ->
            exists c D,
              String (digit_char (u mod 10)) acc = String c D +:+ acc /\
              c <> "+"%char /\ c <> "-"%char /\
              forall (rest : string) (a : Z),
                digits (String c D +:+ rest) a
                = digits rest (a * 10 ^ Z.of_nat (String.length (String c D)) + u))
    as Hone.
  { intros u acc Hu.
    destruct (digit_char_digit (u mod 10)) as (Hd & Hv & Hp & Hn);
      [by rewrite Z.mod_small|].
    exists (digit_char (u mod 10)), "". split_and!; [done..|].
    intros rest a. rewrite str_app_cons, str_app_nil_l.
    cbn [digits String.length]. rewrite Hd, Hv.
    rewrite Z.mod_small by lia. f_equal. lia. }
  induction turns as [|turns IH]; intros u acc Hu.
  - rewrite format_digits_S. change (10 ^ Z.of_nat 1) with 10 in Hu.
    destruct (Z.ltb_spec u 10) as [Hlt|Hge]; [|lia]. apply Hone; lia.
  - rewrite format_digits_S.
    pose proof (Z.mod_pos_bound u 10 ltac:(lia)) as Hm.
    destruct (digit_char_digit (u mod 10) Hm) as (Hd & Hv & Hp & Hn).
    destruct (Z.ltb_spec u 10) as [Hlt|Hge]; [apply Hone; lia|].
    + destruct (IH (u / 10) (String (digit_char (u mod 10)) acc))
        as (c & D & -> & Hcp & Hcn & Hdig).
      { split; [apply Z.div_pos; lia|].
        apply Z.div_lt_upper_bound; [lia|].
        rewrite (Nat2Z.inj_succ (S turns)), Z.pow_succ_r in Hu by lia. lia. }
      exists c, (D +:+ String (digit_char (u mod 10)) "").
      split_and!; [|done..|].
      * rewrite <- str_app_cons, str_app_assoc. done.
      * intros rest a.
        rewrite <- str_app_cons, str_app_assoc. rewrite Hdig.
        rewrite str_app_cons, str_app_nil_l. cbn [digits]. rewrite Hd, Hv.
        f_equal.
        assert (String.length (String c D +:+ String (digit_char (u mod 10)) "")
                = S (String.length (String c D))) as ->.
        { generalize (String c D). intros s.
          induction s as [|x s IHs]; [done|]. simpl in *. by rewrite IHs. }
        rewrite Nat2Z.inj_succ, Z.pow_succ_r by lia.
        pose proof (Z.div_mod u 10 ltac:(lia)). lia.
Qed.

(** Parsing undoes formatting on the whole range of [int64]. *)
Lemma ParseInt_FormatInt (i : Z) :
  Int64.in_range i -> ParseInt (FormatInt i) = Some i.
Proof.
  unfold Int64.in_range, Int64.min_int, Int64.max_int. intros Hi.
  unfold FormatInt. destruct (Z.ltb_spec i 0) as [Hneg|Hpos].
  - destruct (format_digits_spec 19 (- i) "") as (c & D & HD & _ & _ & Hdig);
      [simpl; lia|].
    rewrite HD, str_app_nil_r. unfold ParseInt.
    change ("-" +:+ String c D) with (String "-" (String c D)). cbn iota.
    specialize (Hdig "" 0). rewrite str_app_nil_r in Hdig. rewrite Hdig.
    cbn [digits]. rewrite Z.mul_0_l, Z.add_0_l, Z.opp_involutive.
    unfold Int64.min_int, Int64.max_int.
    by rewrite !(proj2 (Z.leb_le _ _)) by lia.
  - destruct (format_digits_spec 19 i "") as (c & D & HD & Hp & Hn & Hdig);
      [simpl; lia|].
    rewrite HD, str_app_nil_r. unfold ParseInt.
    assert ((match String c D with
             | String "+" s' => (false, s')
             | String "-" s' => (true, s')
             | _ => (false, String c D)
             end) = (false, String c D)) as ->.
    { destruct c as [[] [] [] [] [] [] [] []]; try done. }
    specialize (Hdig "" 0). rewrite str_app_nil_r in Hdig. rewrite Hdig.
    cbn [digits]. rewrite Z.mul_0_l, Z.add_0_l.
    unfold Int64.min_int, Int64.max_int.
    by rewrite !(proj2 (Z.leb_le _ _)) by lia.
Qed.

End itoa.

(** ** time: the fields of a formatted date *)

Section clock.
Import Itoa Clock.

Lemma str_length_app (s t : string) :
  String.length (s +:+ t) = (String.length s + String.length t)%nat.
Proof. induction s as [|c s IH]; [done|]. simpl. by rewrite IH. Qed.

Lemma zeros_length (n : nat) : String.length (zeros n) = n.
Proof. induction n as [|n IH]; [done|]. simpl. by rewrite IH. Qed.

(** A number below [10 ^ k] is written with at most [k] digits. *)
Lemma format_digits_length (turns k : nat) (u : Z) (acc : string) :
  (1 <= k)%nat -> 0 <= u < 10 ^ Z.of_nat k ->
  (String.length acc < String.length (format_digits (S turns) u acc)
   <= k + String.length acc)%nat.
Proof.
  revert k u acc. induction turns as [|turns IH]; intros k u acc Hk Hu.
  - rewrite format_digits_S. destruct (u <? 10); simpl; lia.
  - rewrite format_digits_S. destruct (Z.ltb_spec u 10) as [Hlt|Hge].
    + simpl. lia.
    + destruct k as [|[|k]]; [lia|simpl in Hu; lia|].
      specialize (IH (S k) (u / 10) (String (digit_char (u mod 10)) acc)).
      cbn [String.length] in IH.
      assert (0 <= u / 10 < 10 ^ Z.of_nat (S k)) as Hq.
      { rewrite (Nat2Z.inj_succ (S k)), Z.pow_succ_r in Hu by lia.
        split; [apply Z.div_pos; lia|apply Z.div_lt_upper_bound; lia]. }
      specialize (IH ltac:(lia) Hq). lia.
Qed.

(** A field that fits its width is written in exactly that width. *)
Lemma appendInt_length (x : Z) (width : nat) :
  (1 <= width)%nat -> 0 <= x < 10 ^ Z.of_nat width ->
  String.length (appendInt x width) = width.
Proof.
  intros Hw Hx. unfold appendInt.
  rewrite (proj2 (Z.ltb_ge x 0)) by lia. rewrite Z.abs_eq by lia.
  pose proof (format_digits_length 19 width x "" Hw Hx) as Hl.
  cbn [String.length] in Hl.
  rewrite str_app_nil_l, str_length_app, zeros_length. lia.
Qed.

(** The month is from 1 to 12 and the day from 1 to 31. *)
Lemma date_of_doe_bounds (doe : Z) :
  0 <= doe <= 146096 ->
  1 <= (date_of_doe doe).1.2 <= 12 /\ 1 <= (date_of_doe doe).2 <= 31.
Proof.
  intros H. unfold date_of_doe. cbn [fst snd].
  match goal with |- context [if ?b then _ else _] => destruct b eqn:E end;
    [apply Z.ltb_lt in E|apply Z.ltb_ge in E];
    repeat split; Z.to_euclidean_division_equations; lia.
Qed.

Lemma civil_of_days_year (days : Z) :
  (civil_of_days days).1.1 = Time.year_of_days days.
Proof.
  unfold civil_of_days, date_of_doe, Time.year_of_days. cbn [fst snd].
  reflexivity.
Qed.

Lemma get_app_skip (s t : string) (k n : nat) :
  String.length s = k -> String.get (k + n) (s +:+ t) = String.get n t.
Proof.
  revert k. induction s as [|c s IH]; intros k <-; [done|].
  simpl. by apply IH.
Qed.

(** The fields of a time of four-digit year, by their widths. *)
Lemma Format_compact_millis_fields (t : Time.Time) :
  0 <= Time.nsec t < 1000000000 -> 0 <= Time.Year t <= 9999 ->
  exists date time,
    Format_compact_millis t = date +:+ time +:+ "." +:+
                              appendInt (Time.nsec t / 1000000) 3 /\
    String.length date = 8%nat /\ String.length time = 6%nat /\
    String.length (appendInt (Time.nsec t / 1000000) 3) = 3%nat.
Proof.
  intros Hn Hy. unfold Time.Year in Hy. unfold Format_compact_millis.
  set (abs := Time.unix t + Time.offset t) in *.
  pose proof (civil_of_days_year (abs / 86400)) as Hyear.
  destruct (civil_of_days (abs / 86400)) as [[year month] day] eqn:Hc.
  cbn [fst snd] in Hyear. subst year.
  assert (1 <= month <= 12 /\ 1 <= day <= 31) as [Hm Hd].
  { unfold civil_of_days in Hc.
    set (doe := abs / 86400 + 719468
                - (abs / 86400 + 719468) / 146097 * 146097) in Hc.
    pose proof (date_of_doe_bounds doe) as Hb.
    destruct (date_of_doe doe) as [[yoe m] d]. cbn [fst snd] in Hb.
    injection Hc as _ <- <-. apply Hb.
    unfold doe. Z.to_euclidean_division_equations. lia. }
  pose proof (Z.mod_pos_bound abs 86400 ltac:(lia)) as Hs.
  exists (appendInt (Time.year_of_days (abs / 86400)) 4 +:+
          appendInt month 2 +:+ appendInt day 2),
         (appendInt (abs mod 86400 / 3600) 2 +:+
          appendInt (abs mod 86400 mod 3600 / 60) 2 +:+
          appendInt (abs mod 86400 mod 60) 2).
  split_and!.
  - by rewrite !str_app_assoc.
  - rewrite !str_length_app, !appendInt_length; [done|lia|..];
      try (simpl; lia).
  - rewrite !str_length_app, !appendInt_length; [done|lia|..];
      try (simpl; Z.to_euclidean_division_equations; lia).
  - apply appendInt_length; [lia|].
    simpl. Z.to_euclidean_division_equations. lia.
Qed.

End clock.

(** ** utils/signature.go: [GenerateAPIParams] *)

Section api_params.
Import GoString GoMap Utils Middleware GuardSpec.

(** X13.  The fields of the map [GenerateAPIParams] returns: [app_key],
    [timestamp] and [nonce] hold the common values, overwriting what
    the caller had under these keys; every other key but [sign] keeps
    its value; and [sign] holds the signature of the map as it is at
    that point.  When the caller's map has no [sign] key of its own,
    that is the signature of all the other fields of the result. *)
Theorem GenerateAPIParams_fields (visit : list string) (unix : Z)
    (nonce appKey appSecret : string) (params : gmap string string) :
  let R := GenerateAPIParams visit (Itoa.FormatInt unix) nonce appKey appSecret
                             params in
  R !! "app_key" = Some appKey /\
  R !! "timestamp" = Some (Itoa.FormatInt unix) /\
  R !! "nonce" = Some nonce /\
  R !! "sign"
  = Some (GenerateSignature visit (common_params unix nonce appKey params)
                            appSecret) /\
  (forall k, k ∉ reserved_keys -> R !! k = params !! k) /\
  (params !! "sign" = None ->
   R !! "sign" = Some (GenerateSignature visit (delete "sign" R) appSecret)).
Proof.
  intros R. unfold R, GenerateAPIParams, common_params, reserved_keys.
  split_and!.
  - by rewrite !lookup_insert_ne, lookup_insert by done.
  - by rewrite !lookup_insert_ne, lookup_insert by done.
  - by rewrite lookup_insert_ne, lookup_insert by done.
  - by rewrite lookup_insert.
  - intros k Hk. rewrite !not_elem_of_cons in Hk.
    destruct Hk as (? & ? & ? & ? & _). by rewrite !lookup_insert_ne by done.
  - intros Hs. rewrite lookup_insert. do 2 f_equal.
    rewrite delete_insert_eq, delete_id; [done|].
    by rewrite !lookup_insert_ne by done.
Qed.

(** [ShouldBindQuery] on the query made of the result. *)
Lemma ShouldBindQuery_signed (P : gmap string string) σ unix :
  P !! "timestamp" = Some (Itoa.FormatInt unix) -> Int64.in_range unix ->
  ShouldBindQuery (signed_query P σ)
  = inl {| p_AppKey := default "" (P !! "app_key");
           p_Timestamp := unix;
           p_Nonce := default "" (P !! "nonce");
           p_Sign := σ |}.
Proof.
  intros Ht Hr. unfold ShouldBindQuery, first_value.
  rewrite !signed_query_lookup. rewrite lookup_insert_eq.
  rewrite !lookup_insert_ne by done. rewrite Ht. cbn [fmap option_fmap option_map].
  pose proof (ParseInt_FormatInt unix Hr) as Hp.
  assert (Itoa.FormatInt unix <> "") as Hne.
  { intros He. rewrite He in Hp. by vm_compute in Hp. }
  rewrite decide_False by done. rewrite Hp.
  by destruct (P !! "app_key"), (P !! "nonce").
Qed.

(** X14.  What the client helper signs, the statements behind the
    early return of [Signature] accept: for a request that carries the
    result of [GenerateAPIParams] as its query, made with the configured
    key and secret from parameters without a [sign] field of their own,
    and checked while the timestamp is fresh, they store the bound
    parameters, with the timestamp read back as the integer that was
    written, and hand the request on without writing a response. *)
Theorem GenerateAPIParams_accepted config env (next : Context -> result)
    (c : Context) (visit : list string) (unix : Z) (nonce : string)
    (params : gmap string string) :
  let P := common_params unix nonce (AppKey config) params in
  let R := GenerateAPIParams visit (Itoa.FormatInt unix) nonce (AppKey config)
                             (AppSecret config) params in
  params !! "sign" = None -> Int64.in_range unix ->
  range_order P visit ->
  Method (request c) <> "OPTIONS" ->
  Http.Header_Get (Header (request c)) "signature" = "" ->
  URL_Query (request c) = (fun v => [v]) <$> R ->
  PostForm (request c) = ∅ ->
  range_order (URL_Query (request c)) (visitQuery env) ->
  visitForm env = [] ->
  range_order P (visitAll env) ->
  isFresh unix (now env) (Expire config) = true ->
  exists c0 sign,
    body_of (Signature_checks config env next) c = next c0 /\
    R !! "sign" = Some sign /\
    Keys c0 = <["signatureParams" :=
                  AnySignatureParams {| p_AppKey := AppKey config;
                                        p_Timestamp := unix;
                                        p_Nonce := nonce;
                                        p_Sign := sign |}]> (Keys c) /\
    responses c0 = responses c /\ aborted c0 = aborted c.
Proof.
  intros P R Hs Hr Hv Hm Hh Hq Hf Hvq Hvf Hva Hfresh.
  set (σ := GenerateSignature visit P (AppSecret config)).
  assert (P !! "sign" = None) as HPs.
  { unfold P, common_params. by rewrite !lookup_insert_ne by done. }
  assert (URL_Query (request c) = signed_query P σ) as Hq'.
  { rewrite Hq. reflexivity. }
  assert (env_ranges env P σ) as Hranges.
  { split_and!.
    - by rewrite <- Hq'.
    - rewrite Hvf. unfold range_order. by rewrite map_to_list_empty.
    - by rewrite delete_id. }
  set (bound := {| p_AppKey := AppKey config; p_Timestamp := unix;
                   p_Nonce := nonce; p_Sign := σ |}).
  assert (ShouldBindQuery (URL_Query (request c)) = inl bound) as Hb.
  { rewrite Hq'. rewrite (ShouldBindQuery_signed P σ unix); [|by unfold P, common_params; rewrite lookup_insert_ne, lookup_insert by done|done].
    unfold bound, P, common_params. do 2 f_equal.
    - by rewrite !lookup_insert_ne, lookup_insert by done.
    - by rewrite lookup_insert. }
  destruct (Signature_checks_accept config env next c bound (delete "sign" P))
    as (c0 & Hk & Hresp & Hab & Hrun).
  - by split_and!.
  - exact Hfresh.
  - rewrite Hq', Hf. by apply collect_params_signed_query.
  - rewrite calculatedSign_GenerateSignature. rewrite delete_id by done.
    by apply GenerateSignature_ext.
  - exists c0, σ. split_and!; [done| |done..].
    unfold R, GenerateAPIParams. by rewrite lookup_insert_eq.
Qed.

(** X15.  [GenerateNonce] returns the local time of the clock and
    nothing else: for a year of four digits, eighteen bytes, the date and
    the time of day in fourteen digits, a dot, and the milliseconds.
    Two readings of the clock within the same millisecond give the same
    nonce. *)
Theorem GenerateNonce_spec (now : Time.Time) :
  normal now -> 0 <= Time.Year now <= 9999 ->
  String.length (GenerateNonce now) = 18%nat /\
  String.get 14 (GenerateNonce now) = Some "."%char /\
  forall later : Time.Time,
    Time.unix later = Time.unix now -> Time.offset later = Time.offset now ->
    Time.nsec later / 1000000 = Time.nsec now / 1000000 ->
    GenerateNonce later = GenerateNonce now.
Proof.
  intros Hn Hy. unfold normal, Time.Second in Hn.
  destruct (Format_compact_millis_fields now Hn Hy)
    as (date & time & Hf & Hd & Ht & Hms).
  split_and!.
  - unfold GenerateNonce. rewrite Hf, !str_length_app, Hd, Ht, Hms. done.
  - unfold GenerateNonce. rewrite Hf.
    rewrite (get_app_skip date _ 8 6 Hd), (get_app_skip time _ 6 0 Ht). done.
  - intros later Hu Ho Hms'. unfold GenerateNonce, Clock.Format_compact_millis.
    by rewrite Hu, Ho, Hms'.
Qed.

End api_params.

(** ** middleware/signature.go *)

Section signature_more.
Import GoString GoMap Utils Middleware GuardSpec.

(** A chain ends aborted or finished. *)
Lemma Next_ends (handlers : list HandlerFunc) (c c' : Context) :
  Next handlers c = Done c' -> aborted c' || finished c' = true.
Proof.
  revert c. induction handlers as [|h rest IH]; intros c; cbn [Next].
  - destruct (aborted c) eqn:Ha; intros [= <-]; [by rewrite Ha|].
    cbn. by rewrite orb_true_r.
  - destruct (aborted c || finished c) eqn:Hc; [by intros [= <-]|].
    destruct (h (Next rest) c) as [c1|]; [|done].
    destruct (aborted c1 || finished c1) eqn:Hc1; [by intros [= <-]|].
    apply IH.
Qed.

Lemma Next_stopped (handlers : list HandlerFunc) (c : Context) :
  aborted c || finished c = true -> Next handlers c = Done c.
Proof.
  intros H. destruct handlers as [|h rest]; cbn [Next]; [|by rewrite H].
  destruct (aborted c) eqn:Ha; [done|]. simpl in H.
  destruct c; simpl in *; by subst.
Qed.

(** X16.  [Signature] as it runs is transparent: in front of any chain
    of handlers and on any context, the chain behaves as it does
    without the middleware.  No request is refused, whatever its
    signature, timestamp or application key. *)
Theorem Signature_transparent config env (rest : list HandlerFunc) (c : Context) :
  Next (Signature config env :: rest) c = Next rest c.
Proof.
  cbn [Next]. destruct (aborted c || finished c) eqn:Hc.
  - by rewrite Next_stopped.
  - rewrite Signature_passes_on.
    destruct (Next rest c) as [c'|] eqn:Hn; [|done].
    by rewrite (Next_ends rest c c' Hn).
Qed.

(** X17.  The statements behind the early return verify nothing for
    a request with a non-empty [signature] header, and nothing for an
    [OPTIONS] request: they log the request line and hand the request
    on, without reading the parameters or the value of the header. *)
Theorem Signature_checks_unverified config env (next : Context -> result)
    (c : Context) :
  Method (request c) = "OPTIONS" \/
  Http.Header_Get (Header (request c)) "signature" <> "" ->
  body_of (Signature_checks config env next) c
  = next (set_stdout
            (stdout c ++ ["收到请求: " +:+ Method (request c) +:+ " " +:+
                          URL_Path (request c)]) c).
Proof.
  intros H. unfold Signature_checks, body_of, seq, Printf, exec; cbn beta.
  cbn [request set_stdout].
  destruct (decide (Method (request c) = "OPTIONS")) as [Ho|Ho].
  - unfold call, return_. by destruct (next _).
  - destruct H as [H|H]; [done|]. cbn [skip request set_stdout].
    rewrite decide_False by done. cbn [skip]. unfold call.
    by destruct (next _).
Qed.

(** The statements behind the early return refuse a request
    whose [app_key] is not the configured one, before the timestamp and
    the signature are looked at, and a request whose [timestamp] is not
    an integer: the answer has the status 400, the chain is aborted, and
    the rest of the chain does not run. *)
Theorem Signature_checks_bad_params config env (next : Context -> result)
    (c : Context) :
  Method (request c) <> "OPTIONS" ->
  Http.Header_Get (Header (request c)) "signature" = "" ->
  (forall params,
      ShouldBindQuery (URL_Query (request c)) = inl params ->
      p_AppKey params <> AppKey config ->
      exists c', body_of (Signature_checks config env next) c = Done c' /\
                 rejected_with "无效的AppKey" c c') /\
  (forall err,
      ShouldBindQuery (URL_Query (request c)) = inr err ->
      exists c', body_of (Signature_checks config env next) c = Done c' /\
                 aborted c' = true /\ handled c' = handled c /\
                 responses c'
                 = responses c ++
                   [{| status := 400;
                       body := ErrorResponse 400 "签名参数错误" err |}]).
Proof.
  intros Hm Hh. split.
  - intros params Hb Hk.
    unfold Signature_checks, body_of, seq, Printf, exec; cbn beta.
    rewrite decide_False by exact Hm. cbn [skip request set_stdout].
    rewrite Hh. rewrite decide_True by done. rewrite Hb.
    rewrite decide_True by done.
    eexists. split; [reflexivity|]. by repeat split.
  - intros err Hb.
    unfold Signature_checks, body_of, seq, Printf, exec; cbn beta.
    rewrite decide_False by exact Hm. cbn [skip request set_stdout].
    rewrite Hh. rewrite decide_True by done. rewrite Hb.
    unfold ErrorWrapper, seq, Printf, exec.
    destruct (decide (mode env = "debug"));
      (eexists; split; [reflexivity|]); by repeat split.
Qed.

(** X18.  [GetSignatureParams] returns nil when nothing is stored under
    [signatureParams], as on every context [Signature] hands on as it
    runs; and it panics on what the statements behind the early return
    store when they accept a request: they store a [SignatureParams],
    and the function asserts a pointer to one. *)
Theorem GetSignatureParams_spec config env (next : Context -> result)
    (c : Context) :
  (Keys c !! "signatureParams" = None -> GetSignatureParams c = inl None) /\
  (forall params allParams,
      checked config c params ->
      isFresh (p_Timestamp params) (now env) (Expire config) = true ->
      collect_params env (URL_Query (request c)) (PostForm (request c))
      = inl allParams ->
      calculatedSign (visitAll env) allParams (AppSecret config) = p_Sign params ->
      exists c0 v,
        body_of (Signature_checks config env next) c = next c0 /\
        GetSignatureParams c0 = inr v).
Proof.
  split.
  - intros H. unfold GetSignatureParams. by rewrite H.
  - intros params allParams Hc Hf Hcol Hsig.
    destruct (Signature_checks_accept config env next c params allParams
                Hc Hf Hcol Hsig) as (c0 & Hk & _ & _ & Hrun).
    exists c0. eexists. split; [exact Hrun|].
    unfold GetSignatureParams. rewrite Hk, lookup_insert. reflexivity.
Qed.

End signature_more.

(** ** middleware/whitelist.go *)

Section whitelist.
Import Middleware WhitelistGo.

Variable ClientIP : Request -> string.

Lemma IsIPInWhitelist_elem (ip : string) (whitelist : list string) :
  IsIPInWhitelist ip whitelist = true <-> ip ∈ whitelist.
Proof.
  induction whitelist as [|x l IH]; cbn [IsIPInWhitelist].
  - split; [done|]. by intros ?%elem_of_nil.
  - rewrite elem_of_cons. case_decide; [by split; [left|]|].
    rewrite IH. split; [by right|]. by intros [|].
Qed.

Lemma IsPathInWhitelist_IsIPInWhitelist (path : string) (whitelist : list string) :
  IsPathInWhitelist path whitelist = IsIPInWhitelist path whitelist.
Proof. induction whitelist as [|x l IH]; [done|]. simpl. by rewrite IH. Qed.

(** The loop over a list runs [hit] exactly when the value is listed. *)
Lemma range_hit_spec (v : string) (items : list string) (hit : stmt) (c : Context) :
  range_hit v items hit c
  = if IsIPInWhitelist v items then hit c else Continue c.
Proof.
  induction items as [|x l IH]; [done|]. cbn [range_hit IsIPInWhitelist].
  by case_decide.
Qed.

(** The two loops of [Whitelist], by what they decide. *)
Lemma Whitelist_run (config : WhitelistConfig)
    (next : Context -> result) (c : Context) :
  Whitelist ClientIP config next c
  = if (EnablePathWhitelist config &&
        IsPathInWhitelist (URL_Path (request c)) (PathWhitelist config))
       || negb (EnableIPWhitelist config)
       || IsIPInWhitelist (ClientIP (request c)) (IPWhitelist config)
    then next c
    else Done (forbidden c).
Proof.
  unfold Whitelist, body_of, seq.
  rewrite IsPathInWhitelist_IsIPInWhitelist.
  destruct (EnablePathWhitelist config); cbn [andb orb].
  - rewrite range_hit_spec.
    destruct (IsIPInWhitelist (URL_Path (request c)) (PathWhitelist config));
      cbn [orb].
    + unfold call, return_. by destruct (next c).
    + destruct (EnableIPWhitelist config); cbn [negb orb].
      * unfold seq. rewrite range_hit_spec.
        destruct (IsIPInWhitelist (ClientIP (request c)) (IPWhitelist config)).
        -- unfold seq, call, return_. by destruct (next c).
        -- reflexivity.
      * unfold skip, call. by destruct (next c).
  - unfold skip at 1. destruct (EnableIPWhitelist config); cbn [negb orb].
    + unfold seq. rewrite range_hit_spec.
      destruct (IsIPInWhitelist (ClientIP (request c)) (IPWhitelist config)).
      * unfold seq, call, return_. by destruct (next c).
      * reflexivity.
    + unfold skip, call. by destruct (next c).
Qed.

(** X19.  What [Whitelist] decides.  The request goes on to the rest of
    the chain exactly when its path is listed and the path list is on,
    or the address list is off, or the address of the client is
    listed, as [IsPathInWhitelist] and [IsIPInWhitelist] say; a listed
    path passes whatever the address.  Otherwise the chain is aborted
    with the status 403 and the rest of the chain does not run. *)
Theorem Whitelist_decision (config : WhitelistConfig)
    (next : Context -> result) (c : Context) :
  Whitelist ClientIP config next c
  = if (EnablePathWhitelist config &&
        IsPathInWhitelist (URL_Path (request c)) (PathWhitelist config))
       || negb (EnableIPWhitelist config)
       || IsIPInWhitelist (ClientIP (request c)) (IPWhitelist config)
    then next c
    else Done (forbidden c).
Proof. apply Whitelist_run. Qed.

Lemma Next_cons (h : HandlerFunc) (rest : list HandlerFunc) (c : Context) :
  aborted c || finished c = false ->
  Next (h :: rest) c
  = match h (Next rest) c with
    | Done c' => if aborted c' || finished c' then Done c' else Next rest c'
    | Panicked v c' => Panicked v c'
    end.
Proof. intros H. cbn [Next]. by rewrite H. Qed.

(** In front of a handler: with the address list on, a request
    from an address that is not listed, on a path that is not listed or
    with the path list off, is answered with the status 403 and the
    handler does not run; with both lists off, as in
    [DefaultWhitelistConfig], every request reaches the handler. *)
Theorem Whitelist_in_chain (config : WhitelistConfig)
    (f : Context -> Context) (r : Request) :
  (EnableIPWhitelist config = true ->
   ClientIP r ∉ IPWhitelist config ->
   EnablePathWhitelist config = false \/ URL_Path r ∉ PathWhitelist config ->
   exists c,
     Next [Whitelist ClientIP config; business f] (new_context r) = Done c /\
     handled c = 0%nat /\ aborted c = true /\
     status <$> responses c = [403]) /\
  (EnableIPWhitelist config = false ->
   Next [Whitelist ClientIP config; business f] (new_context r)
   = Next [business f] (new_context r)).
Proof.
  split.
  - intros Hip Hn Hpath. rewrite Next_cons by done.
    rewrite Whitelist_run. cbn [request new_context].
    rewrite Hip, IsPathInWhitelist_IsIPInWhitelist.
    assert (IsIPInWhitelist (ClientIP r) (IPWhitelist config) = false) as ->.
    { apply not_true_is_false. by rewrite IsIPInWhitelist_elem. }
    assert (EnablePathWhitelist config &&
            IsIPInWhitelist (URL_Path r) (PathWhitelist config) = false) as ->.
    { destruct Hpath as [->|Hp]; [done|]. apply andb_false_intro2.
      apply not_true_is_false. by rewrite IsIPInWhitelist_elem. }
    cbn. eexists. by split_and!.
  - intros Hip. rewrite Next_cons by done.
    rewrite Whitelist_run, Hip, orb_true_r. cbn [negb orb].
    destruct (Next [business f] (new_context r)) as [c'|] eqn:Hn; [|done].
    by rewrite (Next_ends _ _ _ Hn).
Qed.

(** Removing at the first occurrence, in terms of the list. *)
Lemma remove_first_from_spec (v : string) (done rest : list string) :
  v ∉ done ->
  (v ∉ rest ->
   remove_first_from v (done ++ rest) (length done) rest = done ++ rest) /\
  (forall l1 l2,
      rest = l1 ++ v :: l2 -> v ∉ l1 ->
      remove_first_from v (done ++ rest) (length done) rest = done ++ l1 ++ l2).
Proof.
  revert done. induction rest as [|x rest IH]; intros done Hd.
  - split; [done|]. intros [|] ? ?; done.
  - cbn [remove_first_from]. split.
    + intros Hn. apply not_elem_of_cons in Hn as [Hx Hr].
      rewrite decide_False by done.
      destruct (IH (done ++ [x])) as [H1 _].
      { rewrite not_elem_of_app, not_elem_of_cons. split_and!; [done..|].
        apply not_elem_of_nil. }
      rewrite <- app_assoc, length_app, Nat.add_1_r in H1. by apply H1.
    + intros l1 l2 Hr Hn. destruct l1 as [|y l1].
      * injection Hr as -> ->. rewrite decide_True by done.
        rewrite take_app_length, drop_app_ge by lia.
        by replace (S (length done) - length done)%nat with 1%nat by lia.
      * injection Hr as -> ->. apply not_elem_of_cons in Hn as [Hy Hl].
        rewrite decide_False by done.
        destruct (IH (done ++ [y])) as [_ H2].
        { rewrite not_elem_of_app, not_elem_of_cons. split_and!; [done..|].
          apply not_elem_of_nil. }
        specialize (H2 l1 l2 eq_refl Hl).
        rewrite <- !app_assoc, length_app, Nat.add_1_r in H2. by apply H2.
Qed.

(** X20.  [RemoveFromIPWhitelist] removes the first occurrence of the
    address and nothing else: an address that is not listed leaves the
    configuration as it is, and an address listed more than once stays
    listed.  [AddToIPWhitelist] appends the address, which is then
    listed, and on a list without the address the removal undoes the
    addition.  Neither touches the path list or the two switches. *)
Theorem RemoveFromIPWhitelist_first (ip : string) (D : WhitelistConfig) :
  (ip ∉ IPWhitelist D -> RemoveFromIPWhitelist ip D = D) /\
  (forall l1 l2,
      IPWhitelist D = l1 ++ ip :: l2 -> ip ∉ l1 ->
      IPWhitelist (RemoveFromIPWhitelist ip D) = l1 ++ l2 /\
      (IsIPInWhitelist ip (IPWhitelist (RemoveFromIPWhitelist ip D)) = true
       <-> ip ∈ l2)) /\
  IsIPInWhitelist ip (IPWhitelist (AddToIPWhitelist ip D)) = true /\
  (ip ∉ IPWhitelist D -> RemoveFromIPWhitelist ip (AddToIPWhitelist ip D) = D) /\
  PathWhitelist (RemoveFromIPWhitelist ip D) = PathWhitelist D /\
  PathWhitelist (AddToIPWhitelist ip D) = PathWhitelist D /\
  EnableIPWhitelist (RemoveFromIPWhitelist ip D) = EnableIPWhitelist D /\
  EnableIPWhitelist (AddToIPWhitelist ip D) = EnableIPWhitelist D.
Proof.
  split_and!; try done.
  - intros Hn. unfold RemoveFromIPWhitelist.
    destruct (remove_first_from_spec ip [] (IPWhitelist D)) as [H _];
      [apply not_elem_of_nil|].
    cbn in H. rewrite H by done. by destruct D.
  - intros l1 l2 Hl Hn. unfold RemoveFromIPWhitelist. cbn [IPWhitelist].
    destruct (remove_first_from_spec ip [] (IPWhitelist D)) as [_ H];
      [apply not_elem_of_nil|].
    cbn in H. rewrite (H l1 l2 Hl Hn). split; [done|].
    rewrite IsIPInWhitelist_elem, elem_of_app. split; [by intros [|]|by right].
  - rewrite IsIPInWhitelist_elem. cbn. rewrite elem_of_app, elem_of_cons.
    right. by left.
  - intros Hn. unfold RemoveFromIPWhitelist, AddToIPWhitelist. cbn.
    destruct (remove_first_from_spec ip [] (IPWhitelist D ++ [ip])) as [_ H];
      [apply not_elem_of_nil|].
    cbn in H. rewrite (H (IPWhitelist D) [] eq_refl Hn), app_nil_r.
    by destruct D.
Qed.

End whitelist.

(** ** middleware/error.go *)

Section error_handling.
Import Middleware ErrorGo.

Variable mode : string.
Variable stack : string.
Variable Errors : Context -> list GinError.

(** X21.  [ErrorWrapper] ends the chain: it marks the context as
    aborted and writes one JSON answer with the given status, holding
    the code and the message, and the text of the error when there is
    one; the error is printed in debug mode only.  In a chain, the
    handlers behind a handler that refuses with it do not run. *)
Theorem ErrorWrapper_stops_chain (statusCode code : Z) (message : string)
    (err : option string) (rest : list HandlerFunc) (c : Context) :
  aborted c = false -> finished c = false ->
  exists c',
    Next (refuse mode statusCode code message err :: rest) c = Done c' /\
    aborted c' = true /\ handled c' = handled c /\ Keys c' = Keys c /\
    responses c'
    = responses c ++
      [{| status := statusCode;
          body := [("code", Json.Int code); ("message", Json.Str message)] ++
                  match err with
                  | Some e => if decide (e = "") then []
                              else [("error", Json.Str e)]
                  | None => []
                  end |}] /\
    stdout c'
    = stdout c ++ match err with
                  | Some e => if decide (mode = "debug")
                              then ["Error: " +:+ e] else []
                  | None => []
                  end.
Proof.
  intros Ha Hf. rewrite Next_cons by (by rewrite Ha, Hf).
  unfold refuse, ErrorWrapper, body_of, seq, AbortWithStatusJSON, seq,
    Abort, JSON, Printf, exec, skip, return_, ErrorResponse.
  destruct err as [e|]; [destruct (decide (mode = "debug"))|];
    cbn [aborted set_aborted set_responses set_stdout orb];
    (eexists; split; [reflexivity|]);
    cbn [aborted handled Keys responses stdout set_aborted set_responses
         set_stdout];
    rewrite ?app_nil_r; by split_and!.
Qed.

(** X22.  [ErrorHandler] recovers every panic of the rest of the chain:
    the call returns normally, the chain is aborted, and one answer
    with the status 500 is written after what was written before, with
    the text of the panic value as its [error].  In debug mode the
    answer carries at most the first ten lines of the stack as its
    [details], and in no other mode any. *)
Theorem ErrorHandler_recovers (next : Context -> result) (c c' : Context)
    (v : string) :
  next c = Panicked v c' ->
  exists c'' details,
    ErrorHandler mode stack Errors next c = Done c'' /\
    aborted c'' = true /\ handled c'' = handled c' /\
    responses c''
    = responses c' ++
      [{| status := 500;
          body := ErrorResponse_details 500 "服务器内部错误" v details |}] /\
    (mode <> "debug" -> details = None) /\
    (mode = "debug" ->
     exists lines,
       details = Some lines /\ (length lines <= 10)%nat /\
       lines = take 10 (Strings.Split stack "010")).
Proof.
  intros Hn. unfold ErrorHandler. rewrite Hn.
  unfold recovered, body_of, seq, AbortWithStatusJSON, seq, Abort, JSON,
    Printf, exec.
  eexists _, _. split; [reflexivity|].
  cbn [aborted handled responses set_aborted set_responses set_stdout].
  split_and!; [done..| |].
  - intros Hm. by rewrite decide_False.
  - intros Hm. rewrite decide_True by done. eexists. split; [reflexivity|].
    destruct (Nat.ltb_spec 10 (length (Strings.Split stack "010"))).
    + split; [rewrite length_take; lia|done].
    + split; [lia|]. by rewrite take_ge by lia.
Qed.

(** X23.  After the rest of the chain has returned, [ErrorHandler]
    answers the last error of [c.Errors], when there is one and nothing
    was written yet: a bind error and a private error with the status
    400, a public error and any other with the status 500.  The text of
    a private or public error is the [message] of the answer; the text
    of a bind error and of any other is its [error].  With no error, or
    with something written already, nothing is added.  The chain is not
    aborted by this. *)
Theorem ErrorHandler_answers_errors (next : Context -> result) (c c' : Context) :
  next c = Done c' ->
  (Errors c' = [] \/ responses c' <> [] ->
   ErrorHandler mode stack Errors next c = Done c') /\
  (forall errs err,
      Errors c' = errs ++ [err] -> responses c' = [] ->
      exists statusCode response,
        ErrorHandler mode stack Errors next c
        = Done (set_responses [{| status := statusCode; body := response |}] c') /\
        (Type_ err = ErrorTypeBind ->
         statusCode = 400 /\
         response = ErrorResponse 400 "请求参数错误" (Err err)) /\
        (Type_ err = ErrorTypePrivate ->
         statusCode = 400 /\ response = ErrorResponse 400 (Err err) "") /\
        (Type_ err = ErrorTypePublic ->
         statusCode = 500 /\ response = ErrorResponse 500 (Err err) "") /\
        (Type_ err <> ErrorTypeBind -> Type_ err <> ErrorTypePrivate ->
         Type_ err <> ErrorTypePublic ->
         statusCode = 500 /\
         response = ErrorResponse 500 "服务器内部错误" (Err err))).
Proof.
  intros Hn. unfold ErrorHandler. rewrite Hn. unfold body_of, answer_errors.
  split.
  - intros [He|Hw].
    + by rewrite He.
    + destruct (last (Errors c')) as [err|]; [|done].
      unfold Written. rewrite bool_decide_eq_true_2 by done.
      repeat case_decide; done.
  - intros errs err He Hr. rewrite He, last_snoc.
    unfold Written. rewrite bool_decide_eq_false_2 by (by intros []).
    cbn [negb]. unfold JSON, exec. rewrite Hr.
    destruct (decide (Type_ err = ErrorTypeBind)) as [Hb|Hb];
      [|destruct (decide (Type_ err = ErrorTypePrivate)) as [Hp|Hp];
        [|destruct (decide (Type_ err = ErrorTypePublic)) as [Hu|Hu]]];
      (eexists _, _; split; [reflexivity|]);
      split_and!; intros; try done;
      try (exfalso; unfold ErrorTypeBind, ErrorTypePrivate, ErrorTypePublic in *;
           lia).
Qed.

End error_handling.

(** ** middleware/logger.go *)

Section logger_middleware.
Import Middleware Zapcore Log LoggerGo.

Variable env : Env.

(** The map the loop of [extractHeaders] builds over a list of names. *)
Lemma extractHeaders_fold (c : Context) (names : list string)
    (acc : gmap string string) (k : string) :
  foldl (fun headers name =>
           let value := GetHeader c name in
           if decide (value <> "") then <[name := value]> headers
           else headers) acc names !! k
  = if decide (k ∈ names /\ GetHeader c k <> "") then Some (GetHeader c k)
    else acc !! k.
Proof.
  revert acc. induction names as [|n names IH]; intros acc; cbn [foldl].
  - rewrite decide_False; [done|]. intros [H _]. by apply elem_of_nil in H.
  - rewrite IH. cbn zeta.
    destruct (decide (k ∈ names /\ GetHeader c k <> "")) as [[Hin Hv]|Hn].
    + rewrite decide_True; [done|]. split; [by right|done].
    + destruct (decide (k = n)) as [->|Hne].
      * destruct (decide (GetHeader c n <> "")) as [Hv|Hv].
        -- rewrite lookup_insert_eq. rewrite decide_True; [done|].
           split; [by left|done].
        -- rewrite decide_False; [done|]. by intros [_ ?].
      * assert ((if decide (GetHeader c n <> "")
                 then <[n:=GetHeader c n]> acc else acc) !! k = acc !! k) as ->.
        { case_decide; [by rewrite lookup_insert_ne|done]. }
        rewrite decide_False; [done|].
        intros [[?|?]%elem_of_cons ?]; [done|]. by apply Hn.
Qed.

(** X24.  [extractHeaders] records exactly the headers of its list that
    the request carries with a non-empty value, under the names of the
    list, whatever the case the request wrote them in.  No other header
    reaches the request log: not [Authorization], and not [signature]. *)
Theorem extractHeaders_spec (c : Context) :
  (forall name v,
      extractHeaders c !! name = Some v
      <-> name ∈ importantHeaders /\ GetHeader c name = v /\ v <> "") /\
  extractHeaders c !! "Authorization" = None /\
  extractHeaders c !! "signature" = None.
Proof.
  unfold extractHeaders. split_and!.
  - intros name v. rewrite extractHeaders_fold, lookup_empty.
    case_decide as H.
    + split; [intros [= <-]; by destruct H|]. by intros (_ & -> & _).
    + split; [done|]. intros (? & <- & ?). by destruct H.
  - rewrite extractHeaders_fold, lookup_empty.
    rewrite decide_False; [done|]. intros [H _]. revert H.
    unfold importantHeaders. rewrite !elem_of_cons, elem_of_nil.
    intros [|[|[|[|[|[|[|]]]]]]]; done.
  - rewrite extractHeaders_fold, lookup_empty.
    rewrite decide_False; [done|]. intros [H _]. revert H.
    unfold importantHeaders. rewrite !elem_of_cons, elem_of_nil.
    intros [|[|[|[|[|[|[|]]]]]]]; done.
Qed.

(** The level [Logger] logs a request at. *)
Lemma Logger_after_level (l : Logger) path query latency now (c : Context)
    (served : Served) (w : World) :
  logger w = Some l ->
  exists reqLog,
    Logger_after env path query latency now c served w
    = Ok reqLog
         (set_written
            (written w ++
             entries l (if 500 <=? Writer_Status served then ErrorLevel
                        else if 400 <=? Writer_Status served then WarnLevel
                        else InfoLevel)
                     (gin_message (Writer_Status served) (Method (request c))
                                  path)) w) /\
    ReqLog.Status reqLog = Writer_Status served /\
    ReqLog.Headers reqLog = extractHeaders c /\
    ReqLog.Error reqLog = collect_errors (Errors served).
Proof.
  intros Hl. unfold Logger_after. eexists.
  unfold bind at 1.
  destruct (500 <=? Writer_Status served);
    [|destruct (400 <=? Writer_Status served)];
    unfold Error, Warn, Info;
    rewrite (logging_up env l) by done;
    (split; [reflexivity|done]).
Qed.

(** X25.  Where the record of a request goes.  With the logger built by
    [InitLoggerWithConfig], in any later state of the package, [Logger]
    writes one record to a rolling file for the request: to the error
    file when the status is 500 or more, and to the info file otherwise,
    also for the statuses from 400 to 499, which are logged as warnings.
    The record handed to the request log has the status, the selected
    headers and the texts of the errors. *)
Theorem Logger_after_file (config : LogConfig) (w : World) :
  once w = false -> mkdir_err env (LogDir config) = None ->
  exists w0 errorLogFile infoLogFile,
    InitLoggerWithConfig env config w = Ok tt w0 /\
    Lumberjack.Filename errorLogFile
    = Filepath.Join [LogDir config;
                     if RotateDaily config then today env +:+ "_error.log"
                     else "error_" +:+ LogFileName config] /\
    Lumberjack.Filename infoLogFile
    = Filepath.Join [LogDir config;
                     if RotateDaily config then today env +:+ ".log"
                     else "info_" +:+ LogFileName config] /\
    forall path query latency now (c : Context) (served : Served) (w1 : World),
      logger w1 = logger w0 ->
      exists reqLog w2 lvl,
        Logger_after env path query latency now c served w1 = Ok reqLog w2 /\
        filter is_file (drop (length (written w1)) (written w2))
        = [(File (if 500 <=? Writer_Status served then errorLogFile
                  else infoLogFile),
            lvl,
            gin_message (Writer_Status served) (Method (request c)) path)] /\
        lvl = (if 500 <=? Writer_Status served then ErrorLevel
               else if 400 <=? Writer_Status served then WarnLevel
               else InfoLevel) /\
        ReqLog.Status reqLog = Writer_Status served /\
        ReqLog.Headers reqLog = extractHeaders c /\
        ReqLog.Error reqLog = collect_errors (Errors served) /\
        request_lines w2 = request_lines w1.
Proof.
  intros Ho Hm.
  destruct (InitLoggerWithConfig_built env config w Ho Hm)
    as (w0 & l & ef & inf & Hi & Hl & _ & _ & _ & _ & Hef & Hinf & _ & Hent & _).
  exists w0, ef, inf. split_and!; [exact Hi|exact Hef|exact Hinf|].
  intros path query latency now c served w1 Hw1. rewrite Hl in Hw1.
  destruct (Logger_after_level l path query latency now c served w1 Hw1)
    as (reqLog & Hrun & Hs & Hh & He).
  eexists reqLog, _, _. split; [exact Hrun|].
  split_and!; [|reflexivity|done..].
  cbn [written set_written]. rewrite drop_app_length, Hent.
  assert (forall lvl : Level,
             (if 500 <=? Writer_Status served then ErrorLevel
              else if 400 <=? Writer_Status served then WarnLevel
              else InfoLevel) = lvl ->
             (ErrorLevel <=? lvl) = (500 <=? Writer_Status served)) as Hlvl.
  { intros lvl <-. destruct (500 <=? Writer_Status served); [done|].
    by destruct (400 <=? Writer_Status served). }
  rewrite (Hlvl _ eq_refl).
  rewrite filter_cons_True by done.
  f_equal. destruct (ConsoleOutput config); [|done].
  rewrite filter_cons_False; [by rewrite filter_nil|].
  unfold is_file. cbn. destruct (500 <=? Writer_Status served); by intros [].
Qed.

End logger_middleware.

(** ** service/user_service.go *)

Section user_service.
Import Jwt Session Middleware UserGo.

Context {R : Type} `{UserRepository R}.
Variable HashPassword : string -> string + string.
Variable CheckPasswordHash : string -> string -> bool.
Variable lib : Codec.
Hypothesis lib_ok : Codec_ok lib.
Variable jwt_error_text : Jwt.Error -> string.
Variable cfg : JWTConfig.

(** X26.  [Login] accepts the stored password text itself.  For a user
    that is found and whose status is 1, a request whose password is
    equal, as a text, to what the repository stores as the password of
    the user succeeds, whatever the hash check says: the call returns
    the user and a token for its identifier, which [ParseToken] accepts
    with the configured secret until a second before its expiry.  The
    stored password is also printed to the standard output. *)
Theorem Login_stored_password (now_exp now_iat : Time.Time)
    (req : LoginRequest) (r : R) (u : User) (elapsed : Time.Duration) :
  FindByUsername r (login_Username req) = inl u ->
  Status u = 1 ->
  login_Password req = Password u ->
  0 <= elapsed <= JWTExpire cfg - Time.Second ->
  exists out token claims,
    Login CheckPasswordHash lib jwt_error_text cfg now_exp now_iat req r
    = (out, inl (u, token)) /\
    ParseToken lib (Time.Add now_exp elapsed) token (Secret cfg) = inl claims /\
    UserID claims = ID u /\
    "数据库密码: " +:+ Password u +:+ nl ∈ out.
Proof.
  clear HashPassword. intros Hf Hs Hp He. unfold Login. rewrite Hf.
  rewrite decide_False by (by intros []).
  destruct (ParseWithClaims_issued lib lib_ok now_exp now_iat
              (Time.Add now_exp elapsed) (ID u) (Secret cfg) (Secret cfg)
              (JWTExpire cfg))
    as (token & claims & h & sig & Hg & Hsame & -> & Hparse).
  rewrite decide_True in Hparse by done.
  unfold Validate in Hparse. simpl in Hparse.
  destruct (instant_Add now_exp elapsed) as [Hi Hna].
  assert (Time.Before (Time.Add now_exp elapsed)
                      (NewNumericDate (Time.Add now_exp (JWTExpire cfg))) = true)
    as Hb.
  { apply Before_truncated_Add; [done|]. rewrite Hi.
    unfold normal in Hna. lia. }
  rewrite Hb in Hparse. cbn [app] in Hparse.
  assert (ParseToken lib (Time.Add now_exp elapsed) token (Secret cfg)
          = inl claims) as Hpt.
  { unfold ParseToken. by rewrite Hparse. }
  assert (UserID claims = ID u) as Hid by (symmetry; apply Hsame).
  rewrite Hp, bool_decide_eq_true_2 by done.
  destruct (CheckPasswordHash (Password u) (Password u));
    cbn [negb andb]; rewrite Hg;
    (eexists _, token, claims; split; [reflexivity|]);
    (split_and!; [done..|]);
    rewrite !elem_of_app, !elem_of_cons; tauto.
Qed.

(** X27.  What [Login] refuses, and in which order.  A user that the
    repository does not return, for whatever reason, is answered like a
    wrong password.  A user whose status is not 1 is answered as
    disabled before the password is looked at, so also for a wrong
    password.  Otherwise a password that fails the hash check and is
    not the stored text is answered as wrong.  No token is issued in
    any of these cases. *)
Theorem Login_refusals (now_exp now_iat : Time.Time) (req : LoginRequest) (r : R) :
  (forall err,
      FindByUsername r (login_Username req) = inr err ->
      (Login CheckPasswordHash lib jwt_error_text cfg now_exp now_iat req r).2
      = inr "用户名或密码错误") /\
  (forall u,
      FindByUsername r (login_Username req) = inl u -> Status u <> 1 ->
      (Login CheckPasswordHash lib jwt_error_text cfg now_exp now_iat req r).2
      = inr "用户已被禁用") /\
  (forall u,
      FindByUsername r (login_Username req) = inl u -> Status u = 1 ->
      CheckPasswordHash (login_Password req) (Password u) = false ->
      Password u <> login_Password req ->
      (Login CheckPasswordHash lib jwt_error_text cfg now_exp now_iat req r).2
      = inr "用户名或密码错误").
Proof.
  split_and!.
  - intros err Hf. unfold Login. by rewrite Hf.
  - intros u Hf Hs. unfold Login. rewrite Hf. by rewrite decide_True.
  - intros u Hf Hs Hc Hne. unfold Login. rewrite Hf.
    rewrite decide_False by (by intros []).
    rewrite Hc, bool_decide_eq_false_2 by done. done.
Qed.

(** [Register] takes a name and an address for free whenever the
    lookup fails, whatever the failure: it refuses without calling
    [Create], leaving the repository as it is, exactly when the lookup
    of the name or, after it, of the address returns a user.  Otherwise,
    with the password hashed, it hands [Create] a user with the status
    1, no identifier and the hash as its password, and returns the user
    as [Create] leaves it, or the error of [Create]. *)
Theorem Register_spec (now1 now2 : Time.Time) (req : RegisterRequest) (r : R) :
  (forall u, FindByUsername r (reg_Username req) = inl u ->
             Register HashPassword now1 now2 req r = (r, inr "用户名已被使用")) /\
  (forall e u, FindByUsername r (reg_Username req) = inr e ->
               FindByEmail r (reg_Email req) = inl u ->
               Register HashPassword now1 now2 req r = (r, inr "邮箱已被使用")) /\
  (forall e1 e2 hashed,
      FindByUsername r (reg_Username req) = inr e1 ->
      FindByEmail r (reg_Email req) = inr e2 ->
      HashPassword (reg_Password req) = inl hashed ->
      exists newUser,
        Status newUser = 1 /\ ID newUser = 0 /\ Password newUser = hashed /\
        Username newUser = reg_Username req /\ Email newUser = reg_Email req /\
        Register HashPassword now1 now2 req r
        = (let '(r', created, err) := Create r newUser in
           match err with
           | Some e => (r', inr ("创建用户失败: " +:+ e))
           | None => (r', inl created)
           end)).
Proof.
  split_and!.
  - intros u Hf. unfold Register. by rewrite Hf.
  - intros e u Hf He. unfold Register. by rewrite Hf, He.
  - intros e1 e2 hashed Hf He Hh. unfold Register. rewrite Hf, He, Hh.
    eexists. split_and!; [..|reflexivity]; reflexivity.
Qed.


End user_service.

Section null_repository.
Import Jwt Session Middleware UserGo.

Variable HashPassword : string -> string + string.
Variable CheckPasswordHash : string -> string -> bool.
Variable lib : Codec.
Variable jwt_error_text : Jwt.Error -> string.
Variable cfg : JWTConfig.

(** X29.  The service on [NullUserRepository], the repository used
    when the database is not available: every operation returns an
    error and none panics.  [Register] gets past both checks for
    duplicates, since the failing lookups count as free, hashes the
    password and fails in [Create]; [Login] answers as for a wrong
    password; [GetUserByID] as for an unknown user. *)
Theorem service_without_database (now1 now2 : Time.Time) :
  (forall req hashed,
      HashPassword (reg_Password req) = inl hashed ->
      Register HashPassword now1 now2 req Null
      = (Null, inr "创建用户失败: MongoDB数据库不可用，无法创建用户")) /\
  (forall req,
      (Login CheckPasswordHash lib jwt_error_text cfg now1 now2 req Null).2
      = inr "用户名或密码错误") /\
  (forall id, GetUserByID id Null = inr "用户不存在") /\
  (forall page pageSize keyword status,
      GetUsers page pageSize keyword status Null
      = ([], 0, Some "MongoDB数据库不可用，无法查询用户")) /\
  (forall id req,
      UpdateProfile now1 id req Null = (Null, inr "用户不存在")) /\
  (forall id req,
      ChangePassword HashPassword CheckPasswordHash now1 id req Null
      = (Null, Some "用户不存在")) /\
  (forall id,
      DeleteUser id Null
      = (Null, Some "删除用户失败: MongoDB数据库不可用，无法删除用户")).
Proof.
  split_and!; try done.
  intros req hashed Hh. unfold Register. cbn. by rewrite Hh.
Qed.

End null_repository.

(** ** main.go: the logging set-up *)

Section main_logging_setup.
Import Zapcore Log.

Variable env : Env.

(** X30.  What [main] sets up before the first request, when [logs]
    and [logs/requests] can be created, for every logger configuration:
    the two rolling files of the structured logger are
    [logs/<date>.log] and [logs/<date>_error.log], with the console
    streams besides; the directory and the switches for the console
    and the daily rotation of the configuration are not read, and its
    file name names no file.  The request recorder exists with daily rotation, its writer
    still unset and left to the rotation goroutine, which is started.
    Three records are written, all at the info level. *)
Theorem main_logging_spec (cfg : ConfigLogger) (w : World) :
  once w = false -> reqLogOnce w = false ->
  mkdir_err env "logs" = None -> mkdir_err env "logs/requests" = None ->
  exists w' l infoLogFile errorLogFile rcfg,
    main_logging env cfg w = Ok tt w' /\
    logger w' = Some l /\
    Lumberjack.Filename infoLogFile
    = Filepath.Join ["logs"; today env +:+ ".log"] /\
    Lumberjack.Filename errorLogFile
    = Filepath.Join ["logs"; today env +:+ "_error.log"] /\
    (forall (lvl : Level) (msg : string),
        entries l lvl msg
        = [(File (if ErrorLevel <=? lvl then errorLogFile else infoLogFile),
            lvl, msg);
           (if ErrorLevel <=? lvl then Stderr else Stdout, lvl, msg)]) /\
    requestLogger w' = Some (fresh_recorder rcfg) /\
    LogDir rcfg = "logs" /\ RotateDaily rcfg = true /\
    goroutines w' = goroutines w ++ [DailyRotation] /\
    dirs w' = dirs w ++ ["logs"; "logs/requests"] /\
    request_lines w' = request_lines w /\
    written w'
    = written w ++ entries l InfoLevel "日志系统初始化成功"
                ++ entries l InfoLevel "请求日志系统初始化成功"
                ++ entries l InfoLevel "应用程序启动".
Proof.
  intros Ho Hro Hm Hmr. unfold main_logging. unfold bind at 1.
  match goal with |- context [InitLoggerWithConfig env ?c w] =>
    destruct (InitLoggerWithConfig_built env c w Ho Hm)
      as (w1 & l & ef & inf & -> & Hl & _ & _ & (H1 & H2 & H3 & H4) & Hd
          & Hef & Hinf & _ & Hent & Hw)
  end.
  cbn [LogDir RotateDaily ConsoleOutput] in Hd, Hef, Hinf, Hent.
  unfold bind at 1. unfold InitRequestLogger, Once_Do.
  rewrite H2, Hro. unfold bind at 1. unfold MkdirAll.
  cbn [LogDir RotateDaily].
  change (if decide ("logs" = "") then "logs/requests"
          else Filepath.Join ["logs"; "requests"]) with "logs/requests".
  rewrite Hmr. unfold bind at 1. unfold modify at 1.
  unfold bind at 1. unfold modify at 1.
  unfold Info. rewrite (logging_up env l) by done.
  rewrite (logging_up env l) by done.
  eexists _, l, inf, ef, _. split; [reflexivity|].
  cbn [logger requestLogger goroutines dirs request_lines written
       set_written set_reqLogOnce set_goroutines set_requestLogger set_dirs].
  rewrite H3, H4, Hd, Hw, <- !app_assoc.
  split_and!; try done.
Qed.

End main_logging_setup.

(** ** Runs of the further properties *)

Section logger_runs.
Import Zapcore Log.

Lemma InitLoggerWithConfig_sinks_witness :
  exists w' l,
    InitLoggerWithConfig all_dirs defaultLogConfig initial = Ok tt w' /\
    logger w' = Some l /\
    dirs w' = ["logs"] /\
    entries l WarnLevel "slow"
    = [(File {| Lumberjack.Filename := "logs/2025-05-04.log";
                Lumberjack.MaxSize := 100; Lumberjack.MaxBackups := 10;
                Lumberjack.MaxAge := 30; Lumberjack.Compress := true |},
        WarnLevel, "slow");
       (Stdout, WarnLevel, "slow")].
Proof.
  destruct (InitLoggerWithConfig_sinks all_dirs defaultLogConfig initial)
    as (w' & l & [e1 s1 b1 a1 c1] & [e2 s2 b2 a2 c2]
        & Hi & Hl & _ & _ & _ & Hd & _ & Hn & Hf & He & _);
    [reflexivity|reflexivity|].
  exists w', l. split_and!; [exact Hi|exact Hl|exact Hd|].
  rewrite He.
  apply Forall_cons_1 in Hf as [_ Hf].
  apply Forall_cons_1 in Hf as [(H1 & H2 & H3 & H4) _].
  simpl in Hn, H1, H2, H3, H4. subst. vm_compute. reflexivity.
Defined.

Lemma InitLoggerWithConfig_mkdir_fails_witness :
  exists w',
    InitLoggerWithConfig no_logs_dir defaultLogConfig initial
    = Panic "无法创建日志目录: permission denied" w' /\
    InitLoggerWithConfig all_dirs defaultLogConfig w' = Ok tt w' /\
    Info all_dirs "later" w' = Panic nil_dereference w'.
Proof.
  destruct (InitLoggerWithConfig_mkdir_fails
              no_logs_dir defaultLogConfig initial "permission denied"
              (fun _ _ => None))
    as (w' & Hi & _ & Hafter); [reflexivity|reflexivity|reflexivity|].
  exists w'.
  destruct (Hafter all_dirs defaultLogConfig "later")
    as (Hagain & _ & _ & Hinfo & _).
  split_and!; [exact Hi|exact Hagain|exact Hinfo].
Defined.

Lemma InitLoggerWithConfig_first_wins_witness :
  exists w' l,
    InitLoggerWithConfig all_dirs defaultLogConfig initial = Ok tt w' /\
    InitLoggerWithConfig no_logs_dir no_dir_config w' = Ok tt w' /\
    GetLogger no_logs_dir w' = Ok (Some l) w'.
Proof.
  destruct (InitLoggerWithConfig_first_wins all_dirs defaultLogConfig initial)
    as (w' & l & Hi & _ & Hafter); [reflexivity|reflexivity|].
  exists w', l.
  destruct (Hafter no_logs_dir no_dir_config) as (Hagain & Hget & _).
  split_and!; [exact Hi|exact Hagain|exact Hget].
Defined.

Lemma LogRequest_writes_line_witness :
  LogRequest all_dirs some_text (entry 1.5%float) recording
  = Ok tt (set_request_lines
             [("logs/requests/requests-2025-05-04.log", "{}" +:+ String "010" "")]
             recording).
Proof.
  apply (LogRequest_writes_line all_dirs some_text (entry 1.5%float)
           defaultLogConfig (writer_file all_dirs defaultLogConfig) recording);
    reflexivity.
Defined.

Lemma LogRequest_blocks_without_writer_witness :
  exists w',
    LogRequest all_dirs some_text (entry 1.5%float) not_recording_yet
    = Blocked w' /\
    request_lines w' = [] /\
    LogRequest all_dirs some_text (entry 2.5%float) w' = Blocked w'.
Proof.
  destruct (LogRequest_blocks_without_writer
              all_dirs some_text (entry 1.5%float) defaultLogConfig
              not_recording_yet)
    as (w' & Hb & Hw & Hnext & _); [reflexivity|reflexivity|].
  exists w'. split_and!; [exact Hb|by rewrite Hw|].
  apply Hnext. reflexivity.
Defined.


Lemma LogRequest_after_init_witness :
  exists w1 w2 w3,
    InitRequestLogger all_dirs defaultLogConfig initial = Ok tt w1 /\
    run_goroutine all_dirs DailyRotation w1 = Ok tt w2 /\
    LogRequest all_dirs some_text (entry 1.5%float) w2 = Ok tt w3 /\
    request_lines w3
    = [("logs/requests/requests-2025-05-04.log", "{}" +:+ String "010" "")].
Proof.
  destruct (LogRequest_after_init
              all_dirs some_text (entry 1.5%float) defaultLogConfig initial)
    as (w1 & w2 & w3 & Hi & Hg & Hr & Hl & _).
  all: try reflexivity.
  - right. split; reflexivity.
  - exists w1, w2, w3. split_and!; [exact Hi|exact Hg|exact Hr|exact Hl].
Defined.

Lemma InitRequestLogger_empty_LogDir_witness :
  exists w1 w2 f,
    InitRequestLogger all_dirs no_dir_config up = Ok tt w1 /\
    dirs w1 = ["logs"; "logs/requests"] /\
    run_goroutine all_dirs DailyRotation w1 = Ok tt w2 /\
    requestLogger w2 ≫= writer = Some f /\
    Lumberjack.Filename f = "requests/requests-2025-05-04.log".
Proof.
  destruct (InitRequestLogger_empty_LogDir all_dirs no_dir_config up_logger up)
    as (w1 & w2 & f & Hi & Hd & Hg & _ & Hw & Hf).
  all: try reflexivity.
  - compute_done.
  - exists w1, w2, f. split_and!; [exact Hi|exact Hd|exact Hg|exact Hw|exact Hf].
Defined.

End logger_runs.

Section session_runs.
Import GoString GoMap Utils Jwt Session Middleware GuardSpec ErrorGo UserGo.

Lemma ParseToken_wrong_secret_witness :
  exists token,
    GenerateToken digits_codec half_past_ten half_past_ten 7 "secret"
                  (3600 * Time.Second) = inl token /\
    ParseToken digits_codec half_past_ten token "other"
    = inr (JwtError ErrTokenSignatureInvalid).
Proof.
  apply (ParseToken_wrong_secret digits_codec digits_codec_ok
           half_past_ten half_past_ten half_past_ten 7 "secret" "other"
           (3600 * Time.Second)).
  cbv beta iota delta [hmac digits_codec String.append]. discriminate.
Defined.

Lemma ParseToken_after_expiry_witness :
  exists token,
    GenerateToken digits_codec half_past_ten half_past_ten 7 "secret"
                  (3600 * Time.Second) = inl token /\
    ParseToken digits_codec (Time.Add half_past_ten (3600 * Time.Second))
               token "secret"
    = inr (JwtError (ErrTokenInvalidClaims [ErrTokenExpired])).
Proof.
  apply (ParseToken_after_expiry digits_codec digits_codec_ok
           half_past_ten half_past_ten (3600 * Time.Second) 7 "secret"
           (3600 * Time.Second)).
  lia.
Defined.

Lemma JWTAuth_checks_accept_issued_witness :
  exists token,
    GenerateToken digits_codec half_past_ten half_past_ten 7 "secret"
                  (3600 * Time.Second) = inl token /\
    body_of (JWTAuth_checks digits_codec (fun _ => "") hour_sessions
               (Time.Add half_past_ten (1800 * Time.Second)) returns)
            (new_context (bearer_request token))
    = Done (set_Keys {[ "userID" := AnyUint 7 ]}
                     (new_context (bearer_request token))).
Proof.
  destruct (JWTAuth_checks_accept_issued digits_codec digits_codec_ok
              (fun _ => "") hour_sessions half_past_ten half_past_ten
              (1800 * Time.Second) 7 (3600 * Time.Second) returns)
    as (token & Hg & Hrun).
  - unfold Time.Second. lia.
  - exists token. split; [exact Hg|]. exact Hrun.
Defined.

End session_runs.

Section signing_runs.
Import GoString GoMap Utils Jwt Session Middleware GuardSpec ErrorGo UserGo.

Example FormatInt_values :
  Itoa.FormatInt 1700000000 = "1700000000" /\
  Itoa.FormatInt 0 = "0" /\
  Itoa.FormatInt (-9223372036854775808) = "-9223372036854775808".
Proof. vm_compute. done. Qed.

Example GenerateNonce_values :
  GenerateNonce {| Time.unix := 1746316800; Time.nsec := 123456789;
                   Time.offset := 28800 |} = "20250504080000.123" /\
  GenerateNonce {| Time.unix := -1; Time.nsec := 999999999;
                   Time.offset := 0 |} = "19691231235959.999".
Proof. vm_compute. done. Qed.

Lemma GenerateAPIParams_accepted_witness :
  exists c0 sign,
    body_of (Signature_checks demo_config api_env returns)
            (new_context api_request) = Done c0 /\
    URL_Query api_request !! "sign" = Some [sign] /\
    Keys c0 !! "signatureParams"
    = Some (AnySignatureParams
              {| p_AppKey := "demo"; p_Timestamp := 1700000000;
                 p_Nonce := "abc"; p_Sign := sign |}) /\
    responses c0 = [].
Proof.
  destruct (GenerateAPIParams_accepted demo_config api_env returns
              (new_context api_request) api_visit 1700000000 "abc" api_params)
    as (c0 & sign & Hrun & Hs & Hk & Hrest).
  - reflexivity.
  - unfold Int64.in_range, Int64.min_int, Int64.max_int. lia.
  - unfold range_order. reflexivity.
  - discriminate.
  - reflexivity.
  - reflexivity.
  - reflexivity.
  - unfold range_order. reflexivity.
  - reflexivity.
  - unfold range_order. reflexivity.
  - vm_compute. reflexivity.
  - exists c0, sign. split_and!.
    + exact Hrun.
    + unfold api_request, demo_request. cbn [URL_Query].
      rewrite lookup_fmap. unfold demo_config in Hs. cbn [AppKey AppSecret] in Hs.
      by rewrite Hs.
    + rewrite Hk. by rewrite lookup_insert_eq.
    + apply Hrest.
Defined.
End signing_runs.

Section middleware_runs.
Import GoString GoMap Utils Jwt Session Middleware GuardSpec ErrorGo UserGo.
Import Zapcore Log.

Lemma GenerateNonce_spec_witness :
  String.length
    (GenerateNonce {| Time.unix := 1746316800; Time.nsec := 123456789;
                      Time.offset := 28800 |}) = 18%nat /\
  GenerateNonce {| Time.unix := 1746316800; Time.nsec := 123999999;
                   Time.offset := 28800 |}
  = GenerateNonce {| Time.unix := 1746316800; Time.nsec := 123456789;
                     Time.offset := 28800 |}.
Proof.
  destruct (GenerateNonce_spec
              {| Time.unix := 1746316800; Time.nsec := 123456789;
                 Time.offset := 28800 |})
    as (Hlen & _ & Hsame).
  - unfold normal, Time.Second. simpl. lia.
  - vm_compute. split; discriminate.
  - split; [exact Hlen|]. apply Hsame; reflexivity.
Defined.

Lemma Signature_checks_unverified_witness :
  body_of (Signature_checks demo_config demo_pipeline_env returns)
          (new_context options_request)
  = Done (set_stdout ["收到请求: OPTIONS /api/v1/users"]
                     (new_context options_request)).
Proof.
  apply (Signature_checks_unverified demo_config demo_pipeline_env returns
           (new_context options_request)).
  left. reflexivity.
Defined.

Lemma ErrorWrapper_stops_chain_witness :
  exists c',
    Next [refuse "release" 403 403 "IP地址未授权" None;
          business (fun c => c)] (new_context no_header_request) = Done c' /\
    aborted c' = true /\ handled c' = 0%nat /\
    responses c'
    = [{| status := 403;
          body := [("code", Json.Int 403);
                   ("message", Json.Str "IP地址未授权")] |}].
Proof.
  destruct (ErrorWrapper_stops_chain "release" 403 403 "IP地址未授权" None
              [business (fun c => c)] (new_context no_header_request))
    as (c' & Hrun & Ha & Hh & _ & Hr & _); [reflexivity|reflexivity|].
  exists c'. split_and!; [exact Hrun|exact Ha|exact Hh|exact Hr].
Defined.

Lemma ErrorHandler_recovers_witness :
  exists c'',
    ErrorHandler "release" "goroutine 1 [running]:" (fun _ => [])
                 (panics "index out of range")
                 (new_context no_header_request) = Done c'' /\
    aborted c'' = true /\
    responses c''
    = [{| status := 500;
          body := ErrorResponse_details 500 "服务器内部错误"
                    "index out of range" None |}].
Proof.
  destruct (ErrorHandler_recovers "release" "goroutine 1 [running]:"
              (fun _ => []) (panics "index out of range")
              (new_context no_header_request) (new_context no_header_request)
              "index out of range")
    as (c'' & details & Hrun & Ha & _ & Hr & Hd & _); [reflexivity|].
  exists c''. split_and!; [exact Hrun|exact Ha|].
  rewrite Hr, Hd by discriminate. reflexivity.
Defined.

Lemma ErrorHandler_answers_errors_witness :
  exists statusCode response,
    ErrorHandler "release" "" (fun _ => [{| Err := "EOF"; Type_ := ErrorTypeBind |}])
                 returns (new_context no_header_request)
    = Done (set_responses [{| status := statusCode; body := response |}]
                          (new_context no_header_request)) /\
    statusCode = 400 /\
    response = ErrorResponse 400 "请求参数错误" "EOF".
Proof.
  destruct (ErrorHandler_answers_errors "release" ""
              (fun _ => [{| Err := "EOF"; Type_ := ErrorTypeBind |}])
              returns (new_context no_header_request)
              (new_context no_header_request))
    as (_ & Hlast); [reflexivity|].
  destruct (Hlast [] {| Err := "EOF"; Type_ := ErrorTypeBind |})
    as (statusCode & response & Hrun & Hbind & _);
    [reflexivity|reflexivity|].
  exists statusCode, response.
  destruct Hbind as [Hs Hb]; [reflexivity|].
  split_and!; [exact Hrun|exact Hs|exact Hb].
Defined.

Lemma Logger_after_file_witness :
  exists w0 reqLog w2 f,
    InitLoggerWithConfig all_dirs defaultLogConfig initial = Ok tt w0 /\
    LoggerGo.Logger_after all_dirs "/api/v1/users" "" 1500000 half_past_ten
      (new_context no_header_request)
      {| LoggerGo.Writer_Status := 404; LoggerGo.ClientIP := "10.0.0.1";
         LoggerGo.Errors := []; LoggerGo.Params := [] |} w0
    = Ok reqLog w2 /\
    ReqLog.Status reqLog = 404 /\
    Lumberjack.Filename f = "logs/2025-05-04.log" /\
    filter is_file (drop (length (written w0)) (written w2))
    = [(File f, WarnLevel, "[GIN] 404 GET /api/v1/users")].
Proof.
  destruct (Logger_after_file all_dirs defaultLogConfig initial)
    as (w0 & ef & inf & Hi & _ & Hinf & Hafter); [reflexivity|reflexivity|].
  destruct (Hafter "/api/v1/users" "" 1500000 half_past_ten
              (new_context no_header_request)
              {| LoggerGo.Writer_Status := 404; LoggerGo.ClientIP := "10.0.0.1";
                 LoggerGo.Errors := []; LoggerGo.Params := [] |} w0 eq_refl)
    as (reqLog & w2 & lvl & Hrun & Hw & Hlvl & Hs & _).
  exists w0, reqLog, w2, inf.
  split_and!; [exact Hi|exact Hrun|exact Hs|exact Hinf|].
  rewrite Hw, Hlvl. reflexivity.
Defined.

End middleware_runs.

Section service_runs.
Import GoString GoMap Utils Jwt Session Middleware GuardSpec ErrorGo UserGo.
Import Zapcore Log.

Lemma Login_stored_password_witness :
  exists out token claims,
    Login never_matches digits_codec (fun _ => "") hour_sessions
          half_past_ten half_past_ten
          {| login_Username := "alice"; login_Password := "wonderland" |}
          [alice]
    = (out, inl (alice, token)) /\
    ParseToken digits_codec (Time.Add half_past_ten 0) token "secret"
    = inl claims /\
    UserID claims = 7.
Proof.
  destruct (Login_stored_password never_matches digits_codec digits_codec_ok
              (fun _ => "") hour_sessions half_past_ten half_past_ten
              {| login_Username := "alice"; login_Password := "wonderland" |}
              [alice] alice 0)
    as (out & token & claims & Hrun & Hp & Hu & _).
  - reflexivity.
  - reflexivity.
  - reflexivity.
  - vm_compute. split; discriminate.
  - exists out, token, claims. split_and!; [exact Hrun|exact Hp|exact Hu].
Defined.


Lemma main_logging_spec_witness :
  exists w' l rcfg,
    main_logging all_dirs custom_logger initial = Ok tt w' /\
    logger w' = Some l /\
    requestLogger w' = Some (fresh_recorder rcfg) /\
    dirs w' = ["logs"; "logs/requests"] /\
    goroutines w' = [DailyRotation] /\
    entries l InfoLevel "ready" !! 1%nat = Some (Stdout, InfoLevel, "ready").
Proof.
  destruct (main_logging_spec all_dirs custom_logger initial)
    as (w' & l & inf & ef & rcfg & Hrun & Hl & _ & _ & Hent
        & Hrl & _ & _ & Hg & Hd & _);
    [reflexivity|reflexivity|reflexivity|reflexivity|].
  exists w', l, rcfg.
  split_and!; [exact Hrun|exact Hl|exact Hrl|exact Hd|exact Hg|].
  rewrite Hent. reflexivity.
Defined.

End service_runs.
